(** * SoleCast: material requisition lifecycle, costing and consumption

    A shallow embedding of the data-access layer ([database.py]) and of the
    two dashboard computations that sit on top of it
    ([EmployeeDashboard.calculate_material_cost] and
    [AdminDashboard.generate_consumption_report]).

    Conventions of the embedding.
    - A table is the list of its rows, in insertion order.  Columns of type
      INTEGER are [Z] (all quantities entered through the application are
      spin-box values, far inside the 64-bit range of SQLite, so no
      wrap-around is written out); TEXT is [string].
    - Columns of type REAL hold Python floats.  The operations the code
      applies to them ([0.0], [+], [int * float]) are kept abstract in the
      class [RealArith]; the only law used is [0 * p = 0.0], which holds for
      every finite price.
    - A [sqlite3] connection is a pair of database states: what is on disk
      and what the open transaction sees.  Every statement may raise
      [sqlite3.OperationalError]; which ones do is decided by a
      [fault_plan], so that "a forced failure mid-operation" is an input of
      the model. *)

From Stdlib Require Import ZArith List String Ascii Bool Lia DecimalString.
From Stdlib Require Import Permutation Sorted.
Import ListNotations.

Open Scope string_scope.
Open Scope Z_scope.
Open Scope list_scope.

(** ** Arithmetic of REAL columns *)

Class RealArith (R : Type) := {
  rzero : R;                       (* the literal 0.0 *)
  radd : R -> R -> R;              (* float + float *)
  rmul_int : Z -> R -> R;          (* int * float *)
  rmul_int_0_l : forall p, rmul_int 0 p = rzero
}.

(** Exact amounts (whole currency units), used to run the model. *)
#[export] Instance RealArith_Z : RealArith Z := {
  rzero := 0;
  radd := Z.add;
  rmul_int := Z.mul;
  rmul_int_0_l := fun p => eq_refl
}.

(** ** Exceptions and results *)

Inductive exn :=
| KeyError (key : string)
| IntegrityError (msg : string)
| OperationalError (msg : string)
| Exception (msg : string).

Inductive result (A : Type) :=
| Ok (a : A)
| Raise (e : exn).
Arguments Ok {A} a.
Arguments Raise {A} e.

(** ** Message boxes shown by the dashboards *)

Inductive icon := Information | Warning | Critical.

Record message_box := MessageBox {
  mb_icon : icon;
  mb_title : string;
  mb_text : string
}.

(** [pat in s] on Python strings. *)
Definition contains (pat s : string) : bool :=
  match String.index 0 pat s with
  | Some _ => true
  | None => false
  end.

(** [str(n)] and [f"{n:02d}"] for integers. *)
Definition str (n : Z) : string :=
  match n with
  | Z0 => "0"
  | Zpos p => DecimalString.NilZero.string_of_uint (Pos.to_uint p)
  | Zneg p => "-" ++ DecimalString.NilZero.string_of_uint (Pos.to_uint p)
  end.

Definition fmt_02d (n : Z) : string :=
  let s := str n in
  if (String.length s <? 2)%nat then "0" ++ s else s.

Section Store.

Context {R : Type} `{RealArith R}.

(** ** Schema ([init_db]) *)

Record material := mk_material {
  material_id : Z;
  name : string;
  stock : Z;
  price : R;
  product_association : string;
  unit_of_measure : string
}.

Record bom_row := mk_bom_row {
  bom_id : Z;
  product_id : string;           (* the product name *)
  bom_material_id : Z;           (* REFERENCES materials ON DELETE RESTRICT *)
  quantity_per_unit : Z
}.

Record sales_row := mk_sales_row {
  sales_id : Z;
  sales_product_name : string;
  year : Z;
  month : Z;
  quantity : Z;
  is_historical_csv : Z
}.

Record material_request := mk_material_request {
  request_id : Z;
  employee_id : Z;
  employee_name : string;
  product_name : string;
  production_quantity : Z;
  total_cost : R;
  status : string;
  request_date : string
}.

Record request_line_item := mk_request_line_item {
  item_id : Z;
  item_request_id : Z;           (* REFERENCES material_requests ON DELETE CASCADE *)
  material_name : string;
  quantity_needed : Z;
  item_unit_of_measure : string;
  cost : R
}.

(** The tables the requisition workflow reads or writes, and the
    AUTOINCREMENT counters ([sqlite_sequence]) of the tables it inserts
    into.  A new row gets the counter plus one, so an id is never used
    twice.  The tables [users], [production_targets], [predictions] and the
    two tables of the employee's local log play no part here. *)
Record Db := mk_Db {
  materials : list material;
  bom : list bom_row;
  sales_history : list sales_row;
  material_requests : list material_request;
  request_line_items : list request_line_item;
  seq_sales_history : Z;
  seq_material_requests : Z;
  seq_request_line_items : Z
}.

(** ** Connections and transactions *)

Record conn := mk_conn {
  disk : Db;      (* committed state of solecast.db *)
  view : Db;      (* state seen by the open transaction *)
  clock : nat     (* statements issued so far *)
}.

(** [plan n = true]: the [n]-th statement of the operation raises. *)
Definition fault_plan := nat -> bool.
Definition no_fault : fault_plan := fun _ => false.

Definition M (A : Type) := fault_plan -> conn -> result A * conn.

Definition ret {A} (a : A) : M A := fun _ c => (Ok a, c).

Definition raise {A} (e : exn) : M A := fun _ c => (Raise e, c).

Definition bind {A B} (m : M A) (k : A -> M B) : M B :=
  fun p c =>
    match m p c with
    | (Ok a, c') => k a p c'
    | (Raise e, c') => (Raise e, c')
    end.

Definition storage_fault : exn := OperationalError "disk I/O error".

Definition tick (c : conn) : conn :=
  {| disk := disk c; view := view c; clock := S (clock c) |}.

(** [cursor.execute(sql, params)]: one statement against the open
    transaction.  A statement that raises changes nothing. *)
Definition execute {A} (sql : Db -> result (A * Db)) : M A :=
  fun p c =>
    if p (clock c) then (Raise storage_fault, tick c)
    else match sql (view c) with
         | Ok (a, d) => (Ok a, {| disk := disk c; view := d; clock := S (clock c) |})
         | Raise e => (Raise e, tick c)
         end.

(** A SELECT issued through a connection of its own: it sees what is on
    disk. *)
Definition execute_other_conn {A} (q : Db -> A) : M A :=
  fun p c =>
    if p (clock c) then (Raise storage_fault, tick c)
    else (Ok (q (disk c)), tick c).

Definition commit : M unit :=
  fun p c =>
    if p (clock c) then (Raise storage_fault, tick c)
    else (Ok tt, {| disk := view c; view := view c; clock := S (clock c) |}).

Definition rollback : M unit :=
  fun _ c => (Ok tt, {| disk := disk c; view := disk c; clock := clock c |}).

(** [conn.close()]: whatever was not committed is dropped. *)
Definition close : M unit := rollback.

(** [try: body except Exception as e: handler e] *)
Definition try_except {A} (body : M A) (handler : exn -> M A) : M A :=
  fun p c =>
    match body p c with
    | (Ok a, c') => (Ok a, c')
    | (Raise e, c') => handler e p c'
    end.

(** [try: body finally: fin] *)
Definition finally {A} (body : M A) (fin : M unit) : M A :=
  fun p c =>
    match body p c with
    | (r, c') => (r, snd (fin p c'))
    end.

Fixpoint for_each {A} (f : A -> M unit) (l : list A) : M unit :=
  match l with
  | [] => ret tt
  | x :: l' => bind (f x) (fun _ => for_each f l')
  end.

(** [sqlite3.connect(DATABASE_FILE)]: a new connection sees the file. *)
Definition connect : M unit := rollback.

(** Running an operation on the database file [db]; the second component is
    the file afterwards (what a connection left uncommitted is lost). *)
Definition run {A} (m : M A) (p : fault_plan) (db : Db) : result A * Db :=
  match m p {| disk := db; view := db; clock := 0 |} with
  | (r, c) => (r, disk c)
  end.

Notation "x <- m ;; k" := (bind m (fun x => k))
  (at level 61, m at next level, right associativity).
Notation "m ;;; k" := (bind m (fun _ => k))
  (at level 61, right associativity).

(** [str(e)] *)
Definition exn_str (e : exn) : string :=
  match e with
  | KeyError k => "'" ++ k ++ "'"
  | IntegrityError m => m
  | OperationalError m => m
  | Exception m => m
  end.

Definition nl : string := String (ascii_of_nat 10) "".

(** ** Read access *)

(** A row of [get_bom_for_product]: the columns
    [m.name, b.quantity_per_unit, m.stock, m.price, m.unit_of_measure]. *)
Record bom_item := mk_bom_item {
  bi_name : string;
  bi_quantity_per_unit : Z;
  bi_stock : Z;
  bi_price : R;
  bi_unit_of_measure : string
}.

(** [FROM bom b JOIN materials m ON b.material_id = m.material_id
     WHERE b.product_id = ?] *)
Definition select_bom_for_product (product : string) (db : Db) : list bom_item :=
  flat_map
    (fun b =>
       if String.eqb (product_id b) product then
         map (fun m => {| bi_name := name m;
                          bi_quantity_per_unit := quantity_per_unit b;
                          bi_stock := stock m;
                          bi_price := price m;
                          bi_unit_of_measure := unit_of_measure m |})
             (filter (fun m => material_id m =? bom_material_id b) (materials db))
       else [])
    (bom db).

Definition get_bom_for_product (product : string) : M (list bom_item) :=
  execute_other_conn (select_bom_for_product product).

(** ** Costing ([EmployeeDashboard.calculate_material_cost]) *)

(** The dict cached per material for submission; a key may be absent from a
    dict handed to [submit_material_request]. *)
Record line_item := mk_line_item {
  li_material_name : option string;
  li_quantity_needed : option Z;
  li_unit_of_measure : option string;
  li_cost : option R
}.

(** A row of the cost breakdown table. *)
Record cost_row := mk_cost_row {
  cr_material : string;
  cr_total_required : Z;
  cr_in_stock : Z;
  cr_need_to_order : Z;
  cr_unit : string;
  cr_cost : R
}.

(** What the costing tab holds. *)
Record costing_tab := mk_costing_tab {
  cost_table : list cost_row;
  current_line_items : list line_item;
  current_total_cost : R;
  action_buttons_enabled : bool
}.

Definition clear_cost_calculator : costing_tab :=
  {| cost_table := [];
     current_line_items := [];
     current_total_cost := rzero;
     action_buttons_enabled := false |}.

(** One turn of the loop over [bom_items]; the accumulator is
    [(total_cost, line_items_cache, rows of the table)]. *)
Definition cost_loop_body (quantity_to_produce : Z)
    (acc : R * list line_item * list cost_row) (item : bom_item)
    : R * list line_item * list cost_row :=
  let '(total_cost, line_items_cache, rows) := acc in
  let total_required := quantity_to_produce * bi_quantity_per_unit item in
  let need_to_order := Z.max 0 (total_required - bi_stock item) in
  let cost := rmul_int need_to_order (bi_price item) in
  (radd total_cost cost,
   line_items_cache ++ [ {| li_material_name := Some (bi_name item);
                            li_quantity_needed := Some need_to_order;
                            li_unit_of_measure := Some (bi_unit_of_measure item);
                            li_cost := Some cost |} ],
   rows ++ [ {| cr_material := bi_name item;
                cr_total_required := total_required;
                cr_in_stock := bi_stock item;
                cr_need_to_order := need_to_order;
                cr_unit := bi_unit_of_measure item;
                cr_cost := cost |} ]).

(** The method returns the dialog it showed, if any, and the state of the
    tab afterwards. *)
Definition calculate_material_cost (selected_product : string)
    (quantity_to_produce : Z) : M (option message_box * costing_tab) :=
  if contains "(No products found)" selected_product then
    ret (Some (MessageBox Warning "Error" "No products available to calculate."),
         clear_cost_calculator)
  else
    try_except
      (bom_items <- get_bom_for_product selected_product ;;
       match bom_items with
       | [] =>
           ret (Some (MessageBox Critical "Error"
                        ("No Bill of Materials (BOM) is defined for '"
                           ++ selected_product ++ "'." ++ nl
                           ++ "Please ask an Admin to set up the BOM.")),
                clear_cost_calculator)
       | _ =>
           let '(total_cost, line_items_cache, rows) :=
             fold_left (cost_loop_body quantity_to_produce) bom_items
                       (rzero, [], []) in
           ret (None,
                {| cost_table := rows;
                   current_line_items := line_items_cache;
                   current_total_cost := total_cost;
                   action_buttons_enabled := true |})
       end)
      (fun e =>
         ret (Some (MessageBox Critical "Error"
                      ("Could not calculate cost: " ++ exn_str e)),
              clear_cost_calculator)).

(** What the contract of the costing engine says about one BOM row. *)
Definition costed (quantity_to_produce : Z) (item : bom_item) : cost_row :=
  let total_required := quantity_to_produce * bi_quantity_per_unit item in
  let need_to_order := Z.max 0 (total_required - bi_stock item) in
  {| cr_material := bi_name item;
     cr_total_required := total_required;
     cr_in_stock := bi_stock item;
     cr_need_to_order := need_to_order;
     cr_unit := bi_unit_of_measure item;
     cr_cost := rmul_int need_to_order (bi_price item) |}.

(** [0.0 + c1 + c2 + ...], added left to right. *)
Definition rsum (l : list R) : R := fold_left radd l rzero.

(** ** Writing a table of the database *)

Definition set_materials (l : list material) (db : Db) : Db :=
  {| materials := l; bom := bom db; sales_history := sales_history db;
     material_requests := material_requests db;
     request_line_items := request_line_items db;
     seq_sales_history := seq_sales_history db;
     seq_material_requests := seq_material_requests db;
     seq_request_line_items := seq_request_line_items db |}.

Definition set_sales_history (l : list sales_row) (seq : Z) (db : Db) : Db :=
  {| materials := materials db; bom := bom db; sales_history := l;
     material_requests := material_requests db;
     request_line_items := request_line_items db;
     seq_sales_history := seq;
     seq_material_requests := seq_material_requests db;
     seq_request_line_items := seq_request_line_items db |}.

Definition set_material_requests (l : list material_request) (seq : Z) (db : Db) : Db :=
  {| materials := materials db; bom := bom db; sales_history := sales_history db;
     material_requests := l;
     request_line_items := request_line_items db;
     seq_sales_history := seq_sales_history db;
     seq_material_requests := seq;
     seq_request_line_items := seq_request_line_items db |}.

Definition set_request_line_items (l : list request_line_item) (seq : Z) (db : Db) : Db :=
  {| materials := materials db; bom := bom db; sales_history := sales_history db;
     material_requests := material_requests db;
     request_line_items := l;
     seq_sales_history := seq_sales_history db;
     seq_material_requests := seq_material_requests db;
     seq_request_line_items := seq |}.

Definition set_status (new_status : string) (r : material_request) : material_request :=
  {| request_id := request_id r; employee_id := employee_id r;
     employee_name := employee_name r; product_name := product_name r;
     production_quantity := production_quantity r; total_cost := total_cost r;
     status := new_status; request_date := request_date r |}.

Definition set_stock (new_stock : Z) (m : material) : material :=
  {| material_id := material_id m; name := name m; stock := new_stock;
     price := price m; product_association := product_association m;
     unit_of_measure := unit_of_measure m |}.

(** ** Material management *)

(** [UPDATE materials SET name = ?, ... WHERE material_id = ?]; [name] is
    UNIQUE. *)
Definition sql_update_material (mat_id : Z) (new_name : string) (new_stock : Z)
    (new_price : R) (assoc uom : string) (db : Db) : result (unit * Db) :=
  if existsb (fun m => material_id m =? mat_id) (materials db)
     && existsb (fun m => negb (material_id m =? mat_id) && String.eqb (name m) new_name)
                (materials db)
  then Raise (IntegrityError "UNIQUE constraint failed: materials.name")
  else Ok (tt, set_materials
                 (map (fun m => if material_id m =? mat_id
                                then {| material_id := material_id m; name := new_name;
                                        stock := new_stock; price := new_price;
                                        product_association := assoc;
                                        unit_of_measure := uom |}
                                else m)
                      (materials db)) db).

Definition update_material (mat_id : Z) (new_name : string) (new_stock : Z)
    (new_price : R) (assoc uom : string) : M unit :=
  connect ;;;
  execute (sql_update_material mat_id new_name new_stock new_price assoc uom) ;;;
  commit ;;;
  close.

(** [PRAGMA foreign_keys = ON] *)
Definition sql_pragma_foreign_keys_on (db : Db) : result (unit * Db) := Ok (tt, db).

(** [DELETE FROM materials WHERE material_id = ?] with foreign keys
    enforced: [bom.material_id] is declared ON DELETE RESTRICT. *)
Definition sql_delete_material (mat_id : Z) (db : Db) : result (unit * Db) :=
  if existsb (fun m => material_id m =? mat_id) (materials db)
     && existsb (fun b => bom_material_id b =? mat_id) (bom db)
  then Raise (IntegrityError "FOREIGN KEY constraint failed")
  else Ok (tt, set_materials
                 (filter (fun m => negb (material_id m =? mat_id)) (materials db)) db).

Definition delete_material (mat_id : Z) : M unit :=
  connect ;;;
  execute sql_pragma_foreign_keys_on ;;;
  try_except
    (execute (sql_delete_material mat_id) ;;;
     commit)
    (fun e =>
       match e with
       | IntegrityError _ => close ;;; raise e
       | _ => raise e
       end) ;;;
  close.

(** ** Sales *)

(** [INSERT INTO sales_history (product_name, year, month, quantity,
    is_historical_csv) VALUES (...)] *)
Definition sql_insert_sales (row : string * Z * Z * Z * Z) (db : Db)
    : result (unit * Db) :=
  let '(product, y, m, q, flag) := row in
  let id := seq_sales_history db + 1 in
  Ok (tt, set_sales_history
            (sales_history db ++
               [ {| sales_id := id; sales_product_name := product; year := y;
                    month := m; quantity := q; is_historical_csv := flag |} ])
            id db).

Definition add_sales_entry (product : string) (y m q : Z) : M unit :=
  connect ;;;
  execute (sql_insert_sales (product, y, m, q, 0)) ;;;
  commit ;;;
  close.

(** [SELECT * FROM sales_history], with the WHERE clause chosen by the
    argument ([None], [Some true], [Some false]). *)
Definition select_sales_history (is_historical : option bool) (db : Db) : list sales_row :=
  match is_historical with
  | Some true => filter (fun s => is_historical_csv s =? 1) (sales_history db)
  | Some false => filter (fun s => is_historical_csv s =? 0) (sales_history db)
  | None => sales_history db
  end.

Definition get_sales_history (is_historical : option bool) : M (list sales_row) :=
  execute_other_conn (select_sales_history is_historical).

(** ** Material requests *)

(** [INSERT INTO material_requests (...) VALUES (?, ?, ?, ?, ?, 'Pending', ?)];
    the value is [cursor.lastrowid]. *)
Definition sql_insert_material_request (emp_id : Z) (emp_name product : string)
    (prod_quantity : Z) (cost_total : R) (date : string) (db : Db)
    : result (Z * Db) :=
  let id := seq_material_requests db + 1 in
  Ok (id, set_material_requests
            (material_requests db ++
               [ {| request_id := id; employee_id := emp_id;
                    employee_name := emp_name; product_name := product;
                    production_quantity := prod_quantity; total_cost := cost_total;
                    status := "Pending"; request_date := date |} ])
            id db).

(** [INSERT INTO request_line_items (request_id, material_name,
    quantity_needed, unit_of_measure, cost) VALUES (?, ?, ?, ?, ?)] *)
Definition sql_insert_line_item (row : Z * string * Z * string * R) (db : Db)
    : result (unit * Db) :=
  let '(rid, mat, qty, uom, c) := row in
  let id := seq_request_line_items db + 1 in
  Ok (tt, set_request_line_items
            (request_line_items db ++
               [ {| item_id := id; item_request_id := rid; material_name := mat;
                    quantity_needed := qty; item_unit_of_measure := uom;
                    cost := c |} ])
            id db).

(** [cursor.executemany(sql, rows)] *)
Definition executemany {A} (sql : A -> Db -> result (unit * Db)) (rows : list A) : M unit :=
  for_each (fun row => execute (sql row)) rows.

(** [d[key]] on a dict that may lack the key. *)
Definition getitem {A} (key : string) (entry : option A) : result A :=
  match entry with
  | Some a => Ok a
  | None => Raise (KeyError key)
  end.

Definition lift {A} (r : result A) : M A :=
  match r with
  | Ok a => ret a
  | Raise e => raise e
  end.

(** The loop that fills [items_to_insert]. *)
Fixpoint collect_items_to_insert (rid : Z) (line_items : list line_item)
    (items_to_insert : list (Z * string * Z * string * R))
    : result (list (Z * string * Z * string * R)) :=
  match line_items with
  | [] => Ok items_to_insert
  | item :: rest =>
      match getitem "quantity_needed" (li_quantity_needed item) with
      | Raise e => Raise e
      | Ok qty =>
          if 0 <? qty then
            let uom := match li_unit_of_measure item with
                        | Some u => u
                        | None => "pcs"
                        end in
            match getitem "material_name" (li_material_name item) with
            | Raise e => Raise e
            | Ok mat =>
                match getitem "cost" (li_cost item) with
                | Raise e => Raise e
                | Ok c =>
                    collect_items_to_insert rid rest
                      (items_to_insert ++ [(rid, mat, qty, uom, c)])
                end
            end
          else collect_items_to_insert rid rest items_to_insert
      end
  end.

(** [now] is [datetime.now().isoformat()]. *)
Definition submit_material_request (emp_id : Z) (emp_name product : string)
    (prod_quantity : Z) (cost_total : R) (line_items : list line_item)
    (now : string) : M Z :=
  connect ;;;
  finally
    (try_except
       (rid <- execute (sql_insert_material_request emp_id emp_name product
                          prod_quantity cost_total now) ;;
        items_to_insert <- lift (collect_items_to_insert rid line_items []) ;;
        match items_to_insert with
        | [] => ret tt
        | _ => executemany sql_insert_line_item items_to_insert
        end ;;;
        commit ;;;
        ret rid)
       (fun e => rollback ;;; raise e))
    close.

(** [SELECT * FROM request_line_items WHERE request_id = ?] *)
Definition select_request_line_items (rid : Z) (db : Db) : list request_line_item :=
  filter (fun i => item_request_id i =? rid) (request_line_items db).

Definition get_request_line_items (rid : Z) : M (list request_line_item) :=
  execute_other_conn (select_request_line_items rid).

(** [UPDATE material_requests SET status = ? WHERE request_id = ?] *)
Definition sql_update_status (rid : Z) (new_status : string) (db : Db)
    : result (unit * Db) :=
  Ok (tt, set_material_requests
            (map (fun r => if request_id r =? rid then set_status new_status r else r)
                 (material_requests db))
            (seq_material_requests db) db).

Definition update_request_status (rid : Z) (new_status : string) : M unit :=
  connect ;;;
  execute (sql_update_status rid new_status) ;;;
  commit ;;;
  close.

(** [DELETE FROM material_requests WHERE request_id = ?], issued on a
    connection that does not turn foreign keys on. *)
Definition sql_delete_material_request (rid : Z) (db : Db) : result (unit * Db) :=
  Ok (tt, set_material_requests
            (filter (fun r => negb (request_id r =? rid)) (material_requests db))
            (seq_material_requests db) db).

Definition delete_material_request (rid : Z) : M unit :=
  connect ;;;
  execute (sql_delete_material_request rid) ;;;
  commit ;;;
  close.

(** [UPDATE materials SET stock = stock + ? WHERE name = ?] *)
Definition sql_add_stock (qty : Z) (mat_name : string) (db : Db) : result (unit * Db) :=
  Ok (tt, set_materials
            (map (fun m => if String.eqb (name m) mat_name
                           then set_stock (stock m + qty) m else m)
                 (materials db)) db).

Definition receive_material_request_stock (rid : Z) : M unit :=
  connect ;;;
  finally
    (try_except
       (line_items <- get_request_line_items rid ;;
        match line_items with
        | [] => raise (Exception "No line items found for this request.")
        | _ =>
            for_each
              (fun item => execute (sql_add_stock (quantity_needed item)
                                                  (material_name item)))
              line_items ;;;
            execute (sql_update_status rid "Completed") ;;;
            commit
        end)
       (fun e => rollback ;;; raise e))
    close.

(** ** Sorting (ORDER BY, pandas group keys) *)

Fixpoint insert_sorted {A} (le : A -> A -> bool) (x : A) (l : list A) : list A :=
  match l with
  | [] => [x]
  | y :: l' => if le x y then x :: l else y :: insert_sorted le x l'
  end.

Definition sort_by {A} (le : A -> A -> bool) (l : list A) : list A :=
  fold_right (insert_sorted le) [] l.

(** The distinct values of a column, in ascending order. *)
Definition sorted_unique (l : list string) : list string :=
  sort_by String.leb (nodup string_dec l).

Definition sum_Z (l : list Z) : Z := fold_right Z.add 0 l.

(** ** Historical sales import ([import_sales_from_csv]) *)

(** A row of the CSV as read and cleaned: the [Category] cell ([None] when
    it is empty) and the twelve month cells, January first, after
    [to_numeric(...).fillna(0).astype(int)]. *)
Record csv_row := mk_csv_row {
  Category : option string;
  monthly : list Z
}.

(** [melt] followed by [groupby(['product_name', 'year', 'month']).sum()]:
    one row per product and month, keys ascending; the year is 2024 and
    the flag 1. *)
Definition final_sales (df : list csv_row) : list (string * Z * Z * Z * Z) :=
  flat_map
    (fun product =>
       map (fun k =>
              (product, 2024, Z.of_nat k + 1,
               sum_Z (map (fun r => nth k (monthly r) 0)
                          (filter (fun r => match Category r with
                                            | Some c => String.eqb c product
                                            | None => false
                                            end) df)),
               1))
           (seq 0 12))
    (sorted_unique
       (flat_map (fun r => match Category r with
                           | Some c => [c]
                           | None => []
                           end) df)).

(** [DELETE FROM sales_history WHERE is_historical_csv = 1] *)
Definition sql_delete_historical (db : Db) : result (unit * Db) :=
  Ok (tt, set_sales_history
            (filter (fun s => negb (is_historical_csv s =? 1)) (sales_history db))
            (seq_sales_history db) db).

(** [csv] is the outcome of [pd.read_csv(file_path)].  [to_sql] appends the
    rows through the same connection; its commit and the [conn.commit()]
    that follows are one commit point. *)
Definition import_sales_from_csv (csv : result (list csv_row)) : M unit :=
  match csv with
  | Raise e => raise e
  | Ok df =>
      let rows := final_sales df in
      connect ;;;
      finally
        (try_except
           (execute sql_delete_historical ;;;
            executemany sql_insert_sales rows ;;;
            commit)
           (fun e => rollback ;;; raise e))
        close
  end.

(** ** Consumption report ([AdminDashboard.generate_consumption_report]) *)

(** A row of [get_full_bom]. *)
Record full_bom_item := mk_full_bom_item {
  fb_bom_id : Z;
  fb_product_name : string;
  fb_material_name : string;
  fb_quantity_per_unit : Z;
  fb_unit_of_measure : string
}.

Definition full_bom_le (a b : full_bom_item) : bool :=
  match String.compare (fb_product_name a) (fb_product_name b) with
  | Lt => true
  | Gt => false
  | Eq => String.leb (fb_material_name a) (fb_material_name b)
  end.

(** [FROM bom b JOIN materials m ON b.material_id = m.material_id
     ORDER BY product_name, material_name] *)
Definition select_full_bom (db : Db) : list full_bom_item :=
  sort_by full_bom_le
    (flat_map
       (fun b =>
          map (fun m => {| fb_bom_id := bom_id b;
                           fb_product_name := product_id b;
                           fb_material_name := name m;
                           fb_quantity_per_unit := quantity_per_unit b;
                           fb_unit_of_measure := unit_of_measure m |})
              (filter (fun m => material_id m =? bom_material_id b) (materials db)))
       (bom db)).

Definition get_full_bom : M (list full_bom_item) :=
  execute_other_conn select_full_bom.

(** [month_sales.groupby('product_name')['quantity'].sum()] *)
Definition groupby_product_sum (month_sales : list sales_row) : list (string * Z) :=
  map (fun p => (p, sum_Z (map quantity
                             (filter (fun s => String.eqb (sales_product_name s) p)
                                     month_sales))))
      (sorted_unique (map sales_product_name month_sales)).


(** [if key not in d: d[key] = 0] followed by [d[key] += v] *)
Fixpoint dict_add (key : string) (v : Z) (d : list (string * Z)) : list (string * Z) :=
  match d with
  | [] => [(key, 0 + v)]
  | (k, x) :: d' =>
      if String.eqb k key then (k, x + v) :: d' else (k, x) :: dict_add key v d'
  end.

(** [f"{mat_name} ({unit})"] *)
Definition consumption_key (item : full_bom_item) : string :=
  fb_material_name item ++ " (" ++ fb_unit_of_measure item ++ ")".

(** Step 4 of the report: the two nested loops. *)
Definition calculate_consumption (product_sales : list (string * Z))
    (bom_df : list full_bom_item) : list (string * Z) :=
  fold_left
    (fun consumption (ps : string * Z) =>
       let (product, quantity_sold) := ps in
       fold_left
         (fun consumption item =>
            dict_add (consumption_key item)
                     (fb_quantity_per_unit item * quantity_sold) consumption)
         (filter (fun item => String.eqb (fb_product_name item) product) bom_df)
         consumption)
    product_sales [].

(** What the method shows: a message box, or the report dialog listing the
    entries of [consumption]. *)
Inductive report_result :=
| ReportMessage (mb : message_box)
| ConsumptionReport (report_year report_month : Z) (consumption : list (string * Z)).

Definition period (y m : Z) : string := str y ++ "-" ++ fmt_02d m.

Definition generate_consumption_report (y m : Z) : M report_result :=
  try_except
    (sales_df <- get_sales_history (Some false) ;;
     match sales_df with
     | [] => ret (ReportMessage (MessageBox Information "Report"
                    "No current sales data found for any period."))
     | _ =>
         let month_sales :=
           filter (fun s => (year s =? y) && (month s =? m)) sales_df in
         match month_sales with
         | [] => ret (ReportMessage (MessageBox Information "Report"
                        ("No current sales data found for " ++ period y m ++ ".")))
         | _ =>
             let product_sales := groupby_product_sum month_sales in
             bom_df <- get_full_bom ;;
             match bom_df with
             | [] => ret (ReportMessage (MessageBox Warning "Report Error"
                            "Cannot generate report: BOM is not defined."))
             | _ =>
                 let consumption := calculate_consumption product_sales bom_df in
                 match consumption with
                 | [] => ret (ReportMessage (MessageBox Information "Report"
                                ("No BOM items found for products sold in "
                                   ++ period y m ++ ".")))
                 | _ => ret (ConsumptionReport y m consumption)
                 end
             end
         end
     end)
    (fun e => ret (ReportMessage (MessageBox Critical "Report Error"
                     ("Could not generate report: " ++ exn_str e)))).

(** ** Histories *)

(** The data-access calls that write the tables of [Db]. *)
Inductive op :=
| SubmitMaterialRequest (emp_id : Z) (emp_name product : string)
    (prod_quantity : Z) (cost_total : R) (line_items : list line_item)
    (now : string)
| UpdateRequestStatus (rid : Z) (new_status : string)
| DeleteMaterialRequest (rid : Z)
| ReceiveMaterialRequestStock (rid : Z)
| UpdateMaterial (mat_id : Z) (new_name : string) (new_stock : Z)
    (new_price : R) (assoc uom : string)
| DeleteMaterial (mat_id : Z)
| AddSalesEntry (product : string) (y m q : Z)
| ImportSalesFromCsv (csv : result (list csv_row)).

(** The database file after one call, whether it returned or raised. *)
Definition exec_op (o : op) (p : fault_plan) (db : Db) : Db :=
  match o with
  | SubmitMaterialRequest e n pr q c l t =>
      snd (run (submit_material_request e n pr q c l t) p db)
  | UpdateRequestStatus rid st => snd (run (update_request_status rid st) p db)
  | DeleteMaterialRequest rid => snd (run (delete_material_request rid) p db)
  | ReceiveMaterialRequestStock rid =>
      snd (run (receive_material_request_stock rid) p db)
  | UpdateMaterial i n s pr a u => snd (run (update_material i n s pr a u) p db)
  | DeleteMaterial i => snd (run (delete_material i) p db)
  | AddSalesEntry pr y m q => snd (run (add_sales_entry pr y m q) p db)
  | ImportSalesFromCsv csv => snd (run (import_sales_from_csv csv) p db)
  end.

(** A history: calls in order, each with its own fault plan. *)
Definition exec_ops (h : list (op * fault_plan)) (db : Db) : Db :=
  fold_left (fun d (o : op * fault_plan) => exec_op (fst o) (snd o) d) h db.

(** ** What the operations are expected to leave behind *)

(** The quantity that the line items [items] bring in for the material
    called [n]. *)
Definition received_quantity (items : list request_line_item) (n : string) : Z :=
  sum_Z (map quantity_needed
             (filter (fun i => String.eqb n (material_name i)) items)).

Definition restocked (items : list request_line_item) (ms : list material)
    : list material :=
  map (fun m => set_stock (stock m + received_quantity items (name m)) m) ms.

Definition completed (rid : Z) (rs : list material_request) : list material_request :=
  map (fun r => if request_id r =? rid then set_status "Completed" r else r) rs.

(** The database after the stock of request [rid] has been received. *)
Definition received (rid : Z) (db : Db) : Db :=
  set_material_requests (completed rid (material_requests db))
    (seq_material_requests db)
    (set_materials (restocked (select_request_line_items rid db) (materials db)) db).

(** The database after the status of request [rid] has been overwritten
    with [s]. *)
Definition with_status (rid : Z) (s : string) (db : Db) : Db :=
  set_material_requests
    (map (fun r => if request_id r =? rid then set_status s r else r)
         (material_requests db))
    (seq_material_requests db) db.

(** The line items that a submission persists: those whose quantity needed
    is greater than zero. *)
Definition to_order (line_items : list line_item) : list line_item :=
  filter (fun it => match li_quantity_needed it with
                    | Some qty => 0 <? qty
                    | None => false
                    end) line_items.

(** A dict as the costing tab caches it: the keys read without a default
    are present. *)
Definition has_keys (it : line_item) : Prop :=
  li_material_name it <> None /\ li_quantity_needed it <> None /\ li_cost it <> None.

(** The effect of one INSERT into [request_line_items]. *)
Definition insert_line_item (row : Z * string * Z * string * R) (db : Db) : Db :=
  set_request_line_items
    (request_line_items db ++
       [ {| item_id := seq_request_line_items db + 1;
            item_request_id := fst (fst (fst (fst row)));
            material_name := snd (fst (fst (fst row)));
            quantity_needed := snd (fst (fst row));
            item_unit_of_measure := snd (fst row);
            cost := snd row |} ])
    (seq_request_line_items db + 1) db.

(** The rows that [executemany] appends when the counter stands at [seq]. *)
Fixpoint numbered_line_items (seq : Z) (rows : list (Z * string * Z * string * R))
    : list request_line_item :=
  match rows with
  | [] => []
  | row :: rest =>
      {| item_id := seq + 1;
         item_request_id := fst (fst (fst (fst row)));
         material_name := snd (fst (fst (fst row)));
         quantity_needed := snd (fst (fst row));
         item_unit_of_measure := snd (fst row);
         cost := snd row |} :: numbered_line_items (seq + 1) rest
  end.

(** Line item [it] of a submission is persisted as [row] under request
    [rid]. *)
Definition persisted_as (rid : Z) (it : line_item) (row : request_line_item) : Prop :=
  item_request_id row = rid
  /\ li_material_name it = Some (material_name row)
  /\ li_quantity_needed it = Some (quantity_needed row)
  /\ 0 < quantity_needed row
  /\ item_unit_of_measure row = match li_unit_of_measure it with
                                | Some u => u
                                | None => "pcs"
                                end
  /\ li_cost it = Some (cost row).

(** [db'] is [db] with one more request, numbered [rid], 'Pending' and
    dated [now], and with one more line item for each item to order. *)
Definition submission_committed (emp_id : Z) (emp_name product : string)
    (prod_quantity : Z) (cost_total : R) (line_items : list line_item)
    (now : string) (db : Db) (rid : Z) (db' : Db) : Prop :=
  rid = seq_material_requests db + 1
  /\ material_requests db'
     = material_requests db ++
         [ {| request_id := rid; employee_id := emp_id; employee_name := emp_name;
              product_name := product; production_quantity := prod_quantity;
              total_cost := cost_total; status := "Pending";
              request_date := now |} ]
  /\ seq_material_requests db' = rid
  /\ (exists new_items : list request_line_item,
        request_line_items db' = request_line_items db ++ new_items
        /\ List.length new_items = List.length (to_order line_items)
        /\ Forall2 (persisted_as rid) (to_order line_items) new_items)
  /\ materials db' = materials db
  /\ bom db' = bom db
  /\ sales_history db' = sales_history db.

(** The state right after [init_db]: no rows, counters at zero. *)
Definition empty_db : Db :=
  {| materials := []; bom := []; sales_history := [];
     material_requests := []; request_line_items := [];
     seq_sales_history := 0; seq_material_requests := 0;
     seq_request_line_items := 0 |}.

(** Line items only ever carry the id of a request that has been
    inserted. *)
Definition line_items_numbered (db : Db) : Prop :=
  Forall (fun i => item_request_id i <= seq_material_requests db)
         (request_line_items db).

(** Request [rid] has been numbered and owns no line item. *)
Definition without_line_items (rid : Z) (db : Db) : Prop :=
  rid <= seq_material_requests db
  /\ Forall (fun i => item_request_id i <> rid) (request_line_items db).

(** A property of the database that an operation maintains, on disk and
    in the open transaction, however it ends. *)
Definition preserves {A} (P : Db -> Prop) (m : M A) : Prop :=
  forall (p : fault_plan) (c : conn),
    P (disk c) -> P (view c) ->
    P (disk (snd (m p c))) /\ P (view (snd (m p c))).

(** The database after material [mat_id] has been deleted. *)
Definition without_material (mat_id : Z) (db : Db) : Db :=
  set_materials (filter (fun m => negb (material_id m =? mat_id)) (materials db)) db.

(** The effect of one INSERT into [sales_history]. *)
Definition insert_sales (row : string * Z * Z * Z * Z) (db : Db) : Db :=
  set_sales_history
    (sales_history db ++
       [ {| sales_id := seq_sales_history db + 1;
            sales_product_name := fst (fst (fst (fst row)));
            year := snd (fst (fst (fst row)));
            month := snd (fst (fst row));
            quantity := snd (fst row);
            is_historical_csv := snd row |} ])
    (seq_sales_history db + 1) db.

(** The rows that the import appends when the counter stands at [seq]. *)
Fixpoint numbered_sales (seq : Z) (rows : list (string * Z * Z * Z * Z))
    : list sales_row :=
  match rows with
  | [] => []
  | row :: rest =>
      {| sales_id := seq + 1;
         sales_product_name := fst (fst (fst (fst row)));
         year := snd (fst (fst (fst row)));
         month := snd (fst (fst row));
         quantity := snd (fst row);
         is_historical_csv := snd row |} :: numbered_sales (seq + 1) rest
  end.

(** The database after the frame [df] has been imported. *)
Definition imported (df : list csv_row) (db : Db) : Db :=
  set_sales_history
    (filter (fun s => negb (is_historical_csv s =? 1)) (sales_history db)
       ++ numbered_sales (seq_sales_history db) (final_sales df))
    (seq_sales_history db + Z.of_nat (List.length (final_sales df))) db.

(** The contributions to the consumption of a period: for each product
    sold, in order, its summed quantity times the per-unit quantity of each
    of its BOM entries, under the label of that entry's material and
    unit. *)
Definition consumption_entries (product_sales : list (string * Z))
    (bom_df : list full_bom_item) : list (string * Z) :=
  flat_map
    (fun ps : string * Z =>
       map (fun item => (consumption_key item, fb_quantity_per_unit item * snd ps))
           (filter (fun item => String.eqb (fb_product_name item) (fst ps)) bom_df))
    product_sales.


(** ** Further definitions: the dashboards around the data layer *)

(** The dict the costing loop caches for one BOM row. *)
Definition cached_item (quantity_to_produce : Z) (i : bom_item) : line_item :=
  {| li_material_name := Some (bi_name i);
     li_quantity_needed := Some (cr_need_to_order (costed quantity_to_produce i));
     li_unit_of_measure := Some (bi_unit_of_measure i);
     li_cost := Some (cr_cost (costed quantity_to_produce i)) |}.

(** What the costing tab holds after a successful calculation over the BOM
    rows [items]. *)
Definition costed_tab (quantity_to_produce : Z) (items : list bom_item) : costing_tab :=
  {| cost_table := map (costed quantity_to_produce) items;
     current_line_items := map (cached_item quantity_to_produce) items;
     current_total_cost :=
       rsum (map (fun i => cr_cost (costed quantity_to_produce i)) items);
     action_buttons_enabled := true |}.

(** [EmployeeDashboard.refresh_product_list]: the value left in
    [self.product_list]. *)
Definition refresh_product_list : M (list string) :=
  try_except
    (df <- get_sales_history None ;;
     match df with
     | [] => ret ["(No products found)"]
     | _ => ret (sorted_unique (map sales_product_name df))
     end)
    (fun e => ret ["(Error)"]).

(** [EmployeeDashboard.submit_material_request], the handler of the submit
    button.  [tab] is the costing tab, [combo_text] and [spin_value] what
    the product combo and the quantity spin box show when the button is
    pressed, [reply_yes] the answer to the confirmation dialog.  The value
    is the message box shown last, if any, and the tab afterwards. *)
Definition dashboard_submit_material_request (user_id : Z) (username : string)
    (tab : costing_tab) (combo_text : string) (spin_value : Z)
    (reply_yes : bool) (now : string) : M (option message_box * costing_tab) :=
  match current_line_items tab with
  | [] => ret (Some (MessageBox Warning "Error"
                       "Please calculate a cost breakdown first."), tab)
  | _ =>
      if negb (action_buttons_enabled tab) then
        ret (Some (MessageBox Warning "Error"
                     "Please calculate a cost breakdown first."), tab)
      else if negb reply_yes then ret (None, tab)
      else
        try_except
          (rid <- submit_material_request user_id username combo_text spin_value
                    (current_total_cost tab) (current_line_items tab) now ;;
           ret (Some (MessageBox Information "Success"
                        ("Material Request #" ++ str rid
                           ++ " submitted successfully!")),
                clear_cost_calculator))
          (fun e =>
             ret (Some (MessageBox Critical "Error"
                          ("Could not submit request: " ++ exn_str e)), tab))
  end.


(** ** Further definitions: what the schema promises *)

(** The keys the schema declares: [material_id], [request_id], [item_id]
    and [sales_id] are primary keys handed out by their counters (where the
    model has the counter), and [materials.name] is UNIQUE. *)
Definition keys_unique (db : Db) : Prop :=
  NoDup (map material_id (materials db))
  /\ NoDup (map name (materials db))
  /\ NoDup (map request_id (material_requests db))
  /\ Forall (fun r => request_id r <= seq_material_requests db) (material_requests db)
  /\ NoDup (map item_id (request_line_items db))
  /\ Forall (fun i => item_id i <= seq_request_line_items db) (request_line_items db)
  /\ NoDup (map sales_id (sales_history db))
  /\ Forall (fun s => sales_id s <= seq_sales_history db) (sales_history db).

(** Every stored line item asks for a positive quantity. *)
Definition quantities_positive (db : Db) : Prop :=
  Forall (fun i => 0 < quantity_needed i) (request_line_items db).

(** Every sales row is flagged current (0) or historical (1). *)
Definition flags_binary (db : Db) : Prop :=
  Forall (fun s => is_historical_csv s = 0 \/ is_historical_csv s = 1)
         (sales_history db).

(** The columns of a sales row other than its id. *)
Definition sales_content (s : sales_row) : string * Z * Z * Z * Z :=
  (sales_product_name s, year s, month s, quantity s, is_historical_csv s).


(** What the reports read of a material: its id, name and unit. *)
Definition material_label (m : material) : Z * string * string :=
  (material_id m, name m, unit_of_measure m).

(** Two databases in which a consumption report reads the same data. *)
Definition same_report_data (db db' : Db) : Prop :=
  select_sales_history (Some false) db' = select_sales_history (Some false) db
  /\ bom db' = bom db
  /\ map material_label (materials db') = map material_label (materials db).

(** The database after the requests numbered [rid] have been deleted. *)
Definition without_request (rid : Z) (db : Db) : Db :=
  set_material_requests
    (filter (fun r => negb (request_id r =? rid)) (material_requests db))
    (seq_material_requests db) db.

(** The database after material [mat_id] has been given new values. *)
Definition with_material (mat_id : Z) (new_name : string) (new_stock : Z)
    (new_price : R) (assoc uom : string) (db : Db) : Db :=
  set_materials
    (map (fun m => if material_id m =? mat_id
                   then {| material_id := material_id m; name := new_name;
                           stock := new_stock; price := new_price;
                           product_association := assoc;
                           unit_of_measure := uom |}
                   else m)
         (materials db)) db.

(** ** BOM maintenance and the inventory view *)

Definition set_bom (l : list bom_row) (db : Db) : Db :=
  {| materials := materials db; bom := l; sales_history := sales_history db;
     material_requests := material_requests db;
     request_line_items := request_line_items db;
     seq_sales_history := seq_sales_history db;
     seq_material_requests := seq_material_requests db;
     seq_request_line_items := seq_request_line_items db |}.

(** [DELETE FROM bom WHERE bom_id = ?] *)
Definition sql_delete_bom_item (bom_item_id : Z) (db : Db) : result (unit * Db) :=
  Ok (tt, set_bom (filter (fun b => negb (bom_id b =? bom_item_id)) (bom db)) db).

(** [database.delete_bom_item] *)
Definition delete_bom_item (bom_item_id : Z) : M unit :=
  connect ;;;
  execute (sql_delete_bom_item bom_item_id) ;;;
  commit ;;;
  close.

(** The database without the BOM entry numbered [bom_item_id]. *)
Definition without_bom_item (bom_item_id : Z) (db : Db) : Db :=
  set_bom (filter (fun b => negb (bom_id b =? bom_item_id)) (bom db)) db.

Definition material_name_le (a b : material) : bool :=
  String.leb (name a) (name b).

(** [SELECT * FROM materials ORDER BY name] *)
Definition select_all_materials (db : Db) : list material :=
  sort_by material_name_le (materials db).

(** [database.get_all_materials] *)
Definition get_all_materials : M (list material) :=
  execute_other_conn select_all_materials.

(** [EmployeeDashboard.load_materials_data], the "Request Updated
    Inventory" button.  [table] is what the inventory table shows and [tab]
    the costing tab when the button is pressed; the value is the message
    box shown, if any, the inventory table and the costing tab
    afterwards. *)
Definition load_materials_data (table : list material) (tab : costing_tab)
    : M (option message_box * list material * costing_tab) :=
  try_except
    (all_materials <- get_all_materials ;;
     ret (None, all_materials, clear_cost_calculator))
    (fun e =>
       ret (Some (MessageBox Critical "Error"
                    ("Could not load materials: " ++ exn_str e)), table, tab)).

(** [AdminDashboard.add_sales_data], the "Add Sales Entry" button.
    [product_name] is the text of the product combo, [y] and [m] the year
    and month of the date selected in the calendar (whose years have four
    digits, so that [strftime('%Y-%m')] is [period]) and [quantity] the
    value of the spin box.  The value is the message box shown and the
    value of the spin box afterwards. *)
Definition add_sales_data (product_name : string) (y m quantity : Z)
    : M (message_box * Z) :=
  if contains "(No products)" product_name then
    ret (MessageBox Warning "Input Error"
           "No products available. Please import sales data first.", quantity)
  else
    try_except
      (add_sales_entry product_name y m quantity ;;;
       ret (MessageBox Information "Success"
              ("Added " ++ str quantity ++ " sales for " ++ product_name
                 ++ " on " ++ period y m ++ "."), 1))
      (fun e =>
         ret (MessageBox Critical "Error"
                ("Could not add sales data: " ++ exn_str e), quantity)).

(** * Properties *)

Ltac unfold_M :=
  unfold run, bind, ret, raise, lift, connect, close, rollback, commit,
    execute, execute_other_conn, try_except, finally, tick in *.

(** ** Lists *)


Lemma Forall2_map_right {A B} (P : A -> B -> Prop) (f : A -> B) (l : list A) :
  (forall x, P x (f x)) -> Forall2 P l (map f l).
Proof. intros HP. induction l; simpl; constructor; auto. Qed.

(** ** Costing *)

Lemma cost_loop_spec (q : Z) (items : list bom_item) :
  forall (t : R) (cache : list line_item) (rows : list cost_row),
    fold_left (cost_loop_body q) items (t, cache, rows)
    = (fold_left radd (map (fun i => cr_cost (costed q i)) items) t,
       cache ++ map (fun i => {| li_material_name := Some (bi_name i);
                                 li_quantity_needed := Some (cr_need_to_order (costed q i));
                                 li_unit_of_measure := Some (bi_unit_of_measure i);
                                 li_cost := Some (cr_cost (costed q i)) |}) items,
       rows ++ map (costed q) items).
Proof.
  induction items as [|i items IH]; intros t cache rows; simpl.
  - now rewrite !app_nil_r.
  - rewrite IH. simpl. now rewrite <- !app_assoc.
Qed.



(** ** Loops of statements *)

Section ForEach.

Context {A : Type} (sql : A -> Db -> result (unit * Db)) (f : A -> Db -> Db).
Hypothesis sql_total : forall x d, sql x d = Ok (tt, f x d).

(** Whatever the faults, a loop of statements never touches the disk, and
    if it completes then every statement has been applied, in order. *)
Lemma for_each_execute (l : list A) (p : fault_plan) :
  forall c : conn,
    disk (snd (for_each (fun x => execute (sql x)) l p c)) = disk c
    /\ (forall u, fst (for_each (fun x => execute (sql x)) l p c) = Ok u ->
        view (snd (for_each (fun x => execute (sql x)) l p c))
        = fold_left (fun d x => f x d) l (view c)).
Proof.
  induction l as [|x l IH]; intros c.
  - simpl. split; [reflexivity|]. intros u _. reflexivity.
  - change (for_each (fun x0 => execute (sql x0)) (x :: l) p c)
      with (bind (execute (sql x))
                 (fun _ => for_each (fun x0 => execute (sql x0)) l) p c).
    unfold bind, execute.
    destruct (p (clock c)).
    + simpl. split; [reflexivity|]. intros u Hu; discriminate.
    + rewrite sql_total.
      specialize (IH {| disk := disk c; view := f x (view c); clock := S (clock c) |}).
      simpl in IH. simpl. exact IH.
Qed.

Lemma for_each_execute_no_fault (l : list A) :
  forall c : conn,
    for_each (fun x => execute (sql x)) l no_fault c
    = (Ok tt, {| disk := disk c;
                 view := fold_left (fun d x => f x d) l (view c);
                 clock := (List.length l + clock c)%nat |}).
Proof.
  induction l as [|x l IH]; intros c; simpl.
  - unfold ret. now destruct c.
  - unfold bind, execute. simpl. rewrite sql_total, IH. simpl.
    now rewrite Nat.add_succ_r.
Qed.

End ForEach.

(** ** Stock receipt *)

Lemma set_stock_same (m : material) : set_stock (stock m + 0) m = m.
Proof. destruct m; unfold set_stock; simpl. now rewrite Z.add_0_r. Qed.

Lemma restocked_nil (ms : list material) : restocked [] ms = ms.
Proof.
  unfold restocked, received_quantity. simpl.
  induction ms as [|m ms IH]; simpl; [reflexivity|].
  now rewrite set_stock_same, IH.
Qed.

Lemma restocked_cons (i : request_line_item) (items : list request_line_item)
    (ms : list material) :
  restocked items
    (map (fun m => if String.eqb (name m) (material_name i)
                   then set_stock (stock m + quantity_needed i) m else m) ms)
  = restocked (i :: items) ms.
Proof.
  unfold restocked. rewrite map_map. apply map_ext. intros m.
  unfold received_quantity. simpl.
  destruct (String.eqb (name m) (material_name i)); simpl; [|reflexivity].
  unfold set_stock; simpl. f_equal. lia.
Qed.

Lemma add_stock_loop (items : list request_line_item) :
  forall db : Db,
    fold_left
      (fun d i =>
         set_materials
           (map (fun m => if String.eqb (name m) (material_name i)
                          then set_stock (stock m + quantity_needed i) m else m)
                (materials d)) d)
      items db
    = set_materials (restocked items (materials db)) db.
Proof.
  induction items as [|i items IH]; intros db; simpl.
  - rewrite restocked_nil. now destruct db.
  - rewrite IH. simpl. now rewrite restocked_cons.
Qed.

Lemma sql_add_stock_total (i : request_line_item) (d : Db) :
  sql_add_stock (quantity_needed i) (material_name i) d
  = Ok (tt, set_materials
              (map (fun m => if String.eqb (name m) (material_name i)
                             then set_stock (stock m + quantity_needed i) m else m)
                   (materials d)) d).
Proof. reflexivity. Qed.

(** Under any fault plan the receipt either raises and leaves the file as it
    was, or returns with every increment and the status change applied. *)
Lemma receive_all_or_nothing (rid : Z) (p : fault_plan) (db : Db) :
  (exists e, run (receive_material_request_stock rid) p db = (Raise e, db))
  \/ (select_request_line_items rid db <> []
      /\ run (receive_material_request_stock rid) p db = (Ok tt, received rid db)).
Proof.
  destruct (run _ p db) as [res db'] eqn:Hrun. revert Hrun.
  unfold receive_material_request_stock, get_request_line_items.
  unfold run, connect, close, rollback, finally, try_except.
  unfold bind at 1 2. unfold execute_other_conn. cbn [disk view clock fst snd].
  destruct (p 0%nat); [intros [= <- <-]; left; eexists; reflexivity|].
  destruct (select_request_line_items rid db) as [|i items] eqn:E;
    [intros [= <- <-]; left; eexists; reflexivity|].
  unfold bind at 1.
  pose proof (for_each_execute _ _ sql_add_stock_total (i :: items) p
                (tick {| disk := db; view := db; clock := 0 |})) as [Hd Hv].
  destruct (for_each _ (i :: items) p _) as [r c'].
  cbn [fst snd] in Hd, Hv.
  destruct r as [u|e];
    [|cbn; rewrite Hd; intros [= <- <-]; left; eexists; reflexivity].
  specialize (Hv u eq_refl). rewrite add_stock_loop in Hv.
  unfold bind, execute, commit. cbn [sql_update_status].
  destruct (p (clock c'));
    [cbn; rewrite Hd; intros [= <- <-]; left; eexists; reflexivity|].
  cbn [disk view clock fst snd].
  destruct (p (S (clock c')));
    [cbn; rewrite Hd; intros [= <- <-]; left; eexists; reflexivity|].
  cbn. rewrite Hv. intros [= <- <-].
  right. split; [discriminate|]. unfold received. now rewrite E.
Qed.

Lemma receive_no_fault (rid : Z) (db : Db) :
  select_request_line_items rid db <> [] ->
  run (receive_material_request_stock rid) no_fault db = (Ok tt, received rid db).
Proof.
  intros Hitems.
  destruct (receive_all_or_nothing rid no_fault db) as [[e He]|[_ Hok]];
    [|exact Hok].
  exfalso. revert He.
  unfold receive_material_request_stock, get_request_line_items.
  unfold run, connect, close, rollback, finally, try_except.
  unfold bind at 1 2. unfold execute_other_conn. cbn [disk view clock fst snd no_fault].
  destruct (select_request_line_items rid db) as [|i items]; [contradiction|].
  unfold bind at 1.
  rewrite (for_each_execute_no_fault _ _ sql_add_stock_total).
  cbn. discriminate.
Qed.

Lemma receive_no_items (rid : Z) (p : fault_plan) (db : Db) :
  select_request_line_items rid db = [] ->
  exists e, run (receive_material_request_stock rid) p db = (Raise e, db).
Proof.
  intros Hnone.
  destruct (receive_all_or_nothing rid p db) as [He|[Hsome _]];
    [exact He | contradiction].
Qed.



Lemma completed_status (rid : Z) (rs : list material_request) (r : material_request) :
  In r (completed rid rs) -> request_id r = rid -> status r = "Completed".
Proof.
  unfold completed. rewrite in_map_iff. intros [r0 [Hr0 _]] Hid.
  destruct (request_id r0 =? rid) eqn:E; subst r; [reflexivity|].
  apply Z.eqb_neq in E. contradiction.
Qed.



Lemma restocked_without (items : list request_line_item) (ms : list material)
    (n : string) :
  (forall m, In m ms -> name m <> n) ->
  restocked items ms
  = restocked (filter (fun i => negb (String.eqb (material_name i) n)) items) ms.
Proof.
  intros Hn. unfold restocked. apply map_ext_in. intros m Hm.
  f_equal. f_equal. unfold received_quantity. f_equal.
  specialize (Hn m Hm).
  induction items as [|i items IH]; simpl; [reflexivity|].
  destruct (String.eqb (material_name i) n) eqn:Ein; simpl.
  - apply String.eqb_eq in Ein.
    destruct (String.eqb (name m) (material_name i)) eqn:Em; [|exact IH].
    apply String.eqb_eq in Em. congruence.
  - destruct (String.eqb (name m) (material_name i)); simpl; now rewrite IH.
Qed.


(** C5.  Stock increments are matched by material name.  If a line item of
    request [rid] names a material that no row of [materials] carries, the
    receipt still commits without error, the UPDATE issued for that line
    item changes no row (stocks end up as if the line items with that name
    were not there), and the request's status still becomes 'Completed'. *)
Theorem receive_skips_unmatched_material (rid : Z) (db : Db)
    (it : request_line_item) :
  In it (select_request_line_items rid db) ->
  (forall m, In m (materials db) -> name m <> material_name it) ->
  exists db' : Db,
    run (receive_material_request_stock rid) no_fault db = (Ok tt, db')
    /\ sql_add_stock (quantity_needed it) (material_name it) db = Ok (tt, db)
    /\ materials db'
       = restocked
           (filter (fun i => negb (String.eqb (material_name i) (material_name it)))
                   (select_request_line_items rid db))
           (materials db)
    /\ material_requests db' = completed rid (material_requests db)
    /\ (forall r, In r (material_requests db') -> request_id r = rid ->
                  status r = "Completed").
Proof.
  intros Hin Hname. exists (received rid db).
  split; [|split; [|split; [|split]]].
  - apply receive_no_fault. intros Hnil. rewrite Hnil in Hin. contradiction.
  - unfold sql_add_stock. do 2 f_equal.
    replace (map _ (materials db)) with (materials db); [now destruct db|].
    rewrite <- (map_id (materials db)) at 1. apply map_ext_in. intros m Hm.
    destruct (String.eqb (name m) (material_name it)) eqn:E; [|reflexivity].
    apply String.eqb_eq in E. now apply Hname in Hm.
  - apply restocked_without. exact Hname.
  - reflexivity.
  - intros r. apply completed_status.
Qed.


(** ** Submission *)

Lemma sql_insert_line_item_total (row : Z * string * Z * string * R) (d : Db) :
  sql_insert_line_item row d = Ok (tt, insert_line_item row d).
Proof. destruct row as [[[[rid mat] qty] uom] c]. reflexivity. Qed.

Lemma insert_line_items_loop (rows : list (Z * string * Z * string * R)) :
  forall db : Db,
    fold_left (fun d row => insert_line_item row d) rows db
    = set_request_line_items
        (request_line_items db
           ++ numbered_line_items (seq_request_line_items db) rows)
        (seq_request_line_items db + Z.of_nat (List.length rows)) db.
Proof.
  induction rows as [|row rows IH]; intros db.
  - simpl. rewrite app_nil_r, Z.add_0_r. now destruct db.
  - cbn [fold_left]. rewrite IH. unfold insert_line_item, set_request_line_items.
    cbn [materials bom sales_history material_requests request_line_items
         seq_sales_history seq_material_requests seq_request_line_items
         numbered_line_items List.length].
    rewrite <- app_assoc. cbn [app]. f_equal. lia.
Qed.

(** What the loop over the supplied dicts collects. *)
Lemma collect_items_spec (rid : Z) (line_items : list line_item) :
  forall acc rows,
    collect_items_to_insert rid line_items acc = Ok rows ->
    exists new,
      rows = acc ++ new
      /\ forall seq, Forall2 (persisted_as rid) (to_order line_items)
                             (numbered_line_items seq new).
Proof.
  induction line_items as [|it rest IH]; intros acc rows Hc; simpl in Hc.
  - injection Hc as <-. exists []. split; [now rewrite app_nil_r|].
    intros seq. constructor.
  - unfold to_order. cbn [filter].
    destruct (li_quantity_needed it) as [qty|] eqn:Eq; simpl in Hc; [|discriminate].
    destruct (0 <? qty) eqn:Epos.
    + destruct (li_material_name it) as [mat|] eqn:Em; simpl in Hc; [|discriminate].
      destruct (li_cost it) as [c|] eqn:Ec; simpl in Hc; [|discriminate].
      apply IH in Hc. destruct Hc as [new [-> Hnew]].
      eexists (_ :: new). split; [now rewrite <- app_assoc|].
      intros seq. cbn [numbered_line_items]. constructor; [|apply Hnew].
      unfold persisted_as; cbn. apply Z.ltb_lt in Epos.
      repeat split; auto.
    + apply IH in Hc. exact Hc.
Qed.

Lemma collect_items_total (rid : Z) (line_items : list line_item) :
  Forall has_keys line_items ->
  forall acc, exists rows, collect_items_to_insert rid line_items acc = Ok rows.
Proof.
  induction 1 as [|it rest [Hm [Hq Hc]] _ IH]; intros acc; simpl.
  - now exists acc.
  - destruct (li_quantity_needed it) as [qty|]; [|contradiction]; simpl.
    destruct (li_material_name it) as [mat|]; [|contradiction]; simpl.
    destruct (li_cost it) as [c|]; [|contradiction]; simpl.
    destruct (0 <? qty); apply IH.
Qed.

Lemma submission_committed_intro (emp_id : Z) (emp_name product : string)
    (prod_quantity : Z) (cost_total : R) (line_items : list line_item)
    (now : string) (db : Db) (rows : list (Z * string * Z * string * R)) :
  collect_items_to_insert (seq_material_requests db + 1) line_items [] = Ok rows ->
  submission_committed emp_id emp_name product prod_quantity cost_total
    line_items now db (seq_material_requests db + 1)
    (fold_left (fun d row => insert_line_item row d) rows
       (set_material_requests
          (material_requests db ++
             [ {| request_id := seq_material_requests db + 1;
                  employee_id := emp_id; employee_name := emp_name;
                  product_name := product; production_quantity := prod_quantity;
                  total_cost := cost_total; status := "Pending";
                  request_date := now |} ])
          (seq_material_requests db + 1) db)).
Proof.
  intros Hc. apply collect_items_spec in Hc. destruct Hc as [new [Hrows Hnew]].
  cbn [app] in Hrows. subst new.
  rewrite insert_line_items_loop.
  unfold submission_committed. cbn.
  split; [reflexivity|]. split; [reflexivity|]. split; [reflexivity|].
  split; [|repeat split].
  eexists. split; [reflexivity|]. split.
  - symmetry. eapply Forall2_length. apply Hnew.
  - apply Hnew.
Qed.

(** Under any fault plan, and whatever keys the dicts lack, a submission
    either raises and leaves the file as it was, or returns the new id with
    the header and the line items to order all committed. *)
Lemma submit_all_or_nothing (emp_id : Z) (emp_name product : string)
    (prod_quantity : Z) (cost_total : R) (line_items : list line_item)
    (now : string) (p : fault_plan) (db : Db) :
  (exists ex,
      run (submit_material_request emp_id emp_name product prod_quantity
             cost_total line_items now) p db = (Raise ex, db))
  \/ (exists rid db',
        run (submit_material_request emp_id emp_name product prod_quantity
               cost_total line_items now) p db = (Ok rid, db')
        /\ submission_committed emp_id emp_name product prod_quantity cost_total
             line_items now db rid db').
Proof.
  destruct (run _ p db) as [res db'] eqn:Hrun. revert Hrun.
  unfold submit_material_request.
  unfold run, connect, close, rollback, finally, try_except.
  unfold bind at 1 2. unfold execute at 1.
  cbn [disk view clock fst snd sql_insert_material_request].
  destruct (p 0%nat); [intros [= <- <-]; left; eexists; reflexivity|].
  unfold bind at 1. unfold lift.
  destruct (collect_items_to_insert (seq_material_requests db + 1) line_items [])
    as [rows|ex] eqn:Ec;
    [|intros [= <- <-]; left; eexists; reflexivity].
  pose proof (submission_committed_intro emp_id emp_name product prod_quantity
                cost_total line_items now db rows Ec) as Hdone.
  unfold ret at 1. unfold bind at 1.
  destruct rows as [|row rows].
  - unfold ret at 1. unfold bind, commit, ret. cbn [disk view clock fst snd].
    destruct (p 1%nat); intros [= <- <-]; [left; eexists; reflexivity|].
    right. do 2 eexists. split; [reflexivity|]. exact Hdone.
  - unfold executemany.
    match goal with
    | |- context [for_each ?g (row :: rows) p ?c0] =>
        pose proof (for_each_execute _ _ sql_insert_line_item_total
                      (row :: rows) p c0) as [Hd Hv];
        destruct (for_each g (row :: rows) p c0) as [r c']
    end.
    cbn [fst snd disk view] in Hd, Hv.
    destruct r as [u|ex];
      [|cbn; rewrite Hd; intros [= <- <-]; left; eexists; reflexivity].
    specialize (Hv u eq_refl).
    unfold bind, commit, ret.
    destruct (p (clock c'));
      [cbn; rewrite Hd; intros [= <- <-]; left; eexists; reflexivity|].
    cbn. rewrite Hv. intros [= <- <-].
    right. do 2 eexists. split; [reflexivity|]. exact Hdone.
Qed.

Lemma submit_no_fault (emp_id : Z) (emp_name product : string)
    (prod_quantity : Z) (cost_total : R) (line_items : list line_item)
    (now : string) (db : Db) :
  Forall has_keys line_items ->
  exists db',
    run (submit_material_request emp_id emp_name product prod_quantity
           cost_total line_items now) no_fault db
    = (Ok (seq_material_requests db + 1), db')
    /\ submission_committed emp_id emp_name product prod_quantity cost_total
         line_items now db (seq_material_requests db + 1) db'.
Proof.
  intros Hkeys.
  destruct (collect_items_total (seq_material_requests db + 1) line_items Hkeys [])
    as [rows Ec].
  pose proof (submission_committed_intro emp_id emp_name product prod_quantity
                cost_total line_items now db rows Ec) as Hdone.
  eexists. split; [|exact Hdone].
  unfold submit_material_request.
  unfold run, connect, close, rollback, finally, try_except.
  unfold bind at 1 2. unfold execute at 1.
  cbn [disk view clock fst snd sql_insert_material_request no_fault].
  unfold bind at 1. unfold lift. rewrite Ec.
  unfold ret at 1. unfold bind at 1.
  destruct rows as [|row rows].
  - reflexivity.
  - unfold executemany.
    rewrite (for_each_execute_no_fault _ _ sql_insert_line_item_total).
    reflexivity.
Qed.

(** ** Properties maintained by every operation *)

Section Preserves.

Variable P : Db -> Prop.

Lemma preserves_ret {A} (a : A) : preserves P (ret a).
Proof. intros p c Hd Hv. now split. Qed.

Lemma preserves_raise {A} (e : exn) : preserves P (@raise A e).
Proof. intros p c Hd Hv. now split. Qed.

Lemma preserves_lift {A} (r : result A) : preserves P (lift r).
Proof. destruct r; [apply preserves_ret | apply preserves_raise]. Qed.

Lemma preserves_bind {A B} (m : M A) (k : A -> M B) :
  preserves P m -> (forall a, preserves P (k a)) -> preserves P (bind m k).
Proof.
  intros Hm Hk p c Hd Hv. unfold bind.
  specialize (Hm p c Hd Hv). destruct (m p c) as [[a|e] c']; simpl in Hm.
  - now apply Hk.
  - exact Hm.
Qed.

Lemma preserves_execute {A} (sql : Db -> result (A * Db)) :
  (forall d a d', P d -> sql d = Ok (a, d') -> P d') ->
  preserves P (execute sql).
Proof.
  intros Hsql p c Hd Hv. unfold execute.
  destruct (p (clock c)); [now split|].
  destruct (sql (view c)) as [[a d']|e] eqn:E; simpl; [|now split].
  split; [exact Hd|]. eapply Hsql; eauto.
Qed.

Lemma preserves_execute_other_conn {A} (q : Db -> A) :
  preserves P (execute_other_conn q).
Proof.
  intros p c Hd Hv. unfold execute_other_conn.
  destruct (p (clock c)); now split.
Qed.

Lemma preserves_commit : preserves P commit.
Proof. intros p c Hd Hv. unfold commit. destruct (p (clock c)); now split. Qed.

Lemma preserves_rollback : preserves P rollback.
Proof. intros p c Hd Hv. now split. Qed.

Lemma preserves_connect : preserves P connect.
Proof. apply preserves_rollback. Qed.

Lemma preserves_close : preserves P close.
Proof. apply preserves_rollback. Qed.

Lemma preserves_try_except {A} (body : M A) (handler : exn -> M A) :
  preserves P body -> (forall e, preserves P (handler e)) ->
  preserves P (try_except body handler).
Proof.
  intros Hb Hh p c Hd Hv. unfold try_except.
  specialize (Hb p c Hd Hv). destruct (body p c) as [[a|e] c']; simpl in Hb.
  - exact Hb.
  - now apply Hh.
Qed.

Lemma preserves_finally {A} (body : M A) (fin : M unit) :
  preserves P body -> preserves P fin -> preserves P (finally body fin).
Proof.
  intros Hb Hf p c Hd Hv. unfold finally.
  specialize (Hb p c Hd Hv). destruct (body p c) as [r c']; simpl in *.
  now apply Hf.
Qed.

Lemma preserves_for_each {A} (f : A -> M unit) (l : list A) :
  (forall x, preserves P (f x)) -> preserves P (for_each f l).
Proof.
  intros Hf. induction l as [|x l IH]; simpl.
  - apply preserves_ret.
  - apply preserves_bind; auto.
Qed.

Lemma preserves_run {A} (m : M A) (p : fault_plan) (db : Db) :
  preserves P m -> P db -> P (snd (run m p db)).
Proof.
  intros Hm Hdb. unfold run.
  specialize (Hm p {| disk := db; view := db; clock := 0 |} Hdb Hdb).
  destruct (m p _) as [r c]. simpl in *. apply Hm.
Qed.

End Preserves.

Ltac preserves_step :=
  first [ simple apply preserves_bind | simple apply preserves_ret
        | simple apply preserves_raise | simple apply preserves_lift
        | simple apply preserves_commit | simple apply preserves_rollback
        | simple apply preserves_connect | simple apply preserves_close
        | simple apply preserves_execute_other_conn
        | simple apply preserves_try_except | simple apply preserves_finally
        | simple apply preserves_for_each
        | match goal with
          | |- forall _, preserves _ _ => intro
          | |- preserves _ (match ?x with _ => _ end) => destruct x
          end ].

Section RequestFrame.

(** A property that only looks at the line items and at the request
    counter. *)
Variable P : Db -> Prop.
Hypothesis P_frame :
  forall d d',
    request_line_items d' = request_line_items d ->
    seq_material_requests d' = seq_material_requests d ->
    P d -> P d'.

Ltac frame_sql :=
  let d := fresh "d" in
  let a := fresh "a" in
  let d' := fresh "d'" in
  let Hd := fresh "Hd" in
  let Hsql := fresh "Hsql" in
  intros d a d' Hd Hsql;
  repeat match type of Hsql with
         | (if ?b then _ else _) = _ => destruct b
         | (let '(_, _) := ?r in _) = _ => destruct r
         end;
  try discriminate;
  injection Hsql as <- <-;
  apply (P_frame d); [reflexivity | reflexivity | exact Hd].

Lemma update_request_status_frame (rid : Z) (s : string) :
  preserves P (update_request_status rid s).
Proof.
  unfold update_request_status. repeat preserves_step.
  apply preserves_execute. unfold sql_update_status. frame_sql.
Qed.

Lemma delete_material_request_frame (rid : Z) :
  preserves P (delete_material_request rid).
Proof.
  unfold delete_material_request. repeat preserves_step.
  apply preserves_execute. unfold sql_delete_material_request. frame_sql.
Qed.

Lemma receive_material_request_stock_frame (rid : Z) :
  preserves P (receive_material_request_stock rid).
Proof.
  unfold receive_material_request_stock, get_request_line_items.
  repeat preserves_step.
  - apply preserves_execute. unfold sql_add_stock. frame_sql.
  - apply preserves_execute. unfold sql_update_status. frame_sql.
Qed.

Lemma update_material_frame (mat_id : Z) (n : string) (s : Z) (pr : R)
    (assoc uom : string) :
  preserves P (update_material mat_id n s pr assoc uom).
Proof.
  unfold update_material. repeat preserves_step.
  apply preserves_execute. unfold sql_update_material. frame_sql.
Qed.

Lemma delete_material_frame (mat_id : Z) : preserves P (delete_material mat_id).
Proof.
  unfold delete_material. repeat preserves_step.
  - apply preserves_execute. unfold sql_pragma_foreign_keys_on. frame_sql.
  - apply preserves_execute. unfold sql_delete_material. frame_sql.
Qed.

Lemma add_sales_entry_frame (product : string) (y m q : Z) :
  preserves P (add_sales_entry product y m q).
Proof.
  unfold add_sales_entry. repeat preserves_step.
  apply preserves_execute. unfold sql_insert_sales. frame_sql.
Qed.

Lemma import_sales_from_csv_frame (csv : result (list csv_row)) :
  preserves P (import_sales_from_csv csv).
Proof.
  unfold import_sales_from_csv, executemany.
  repeat preserves_step.
  - apply preserves_execute. unfold sql_delete_historical. frame_sql.
  - apply preserves_execute. unfold sql_insert_sales.
    destruct x as [[[[product y] m] q] flag]. frame_sql.
Qed.

End RequestFrame.

Lemma without_line_items_frame (rid : Z) (d d' : Db) :
  request_line_items d' = request_line_items d ->
  seq_material_requests d' = seq_material_requests d ->
  without_line_items rid d -> without_line_items rid d'.
Proof. unfold without_line_items. intros -> ->. auto. Qed.

Lemma line_items_numbered_frame (d d' : Db) :
  request_line_items d' = request_line_items d ->
  seq_material_requests d' = seq_material_requests d ->
  line_items_numbered d -> line_items_numbered d'.
Proof. unfold line_items_numbered. intros -> ->. auto. Qed.

Lemma persisted_request_id (rid : Z) (its : list line_item)
    (rows : list request_line_item) :
  Forall2 (persisted_as rid) its rows ->
  Forall (fun i => item_request_id i = rid) rows.
Proof.
  induction 1 as [|it row its rows [Hid _] _ IH]; constructor; auto.
Qed.

Lemma submit_keeps_without_line_items (rid : Z) (emp_id : Z)
    (emp_name product : string) (prod_quantity : Z) (cost_total : R)
    (line_items : list line_item) (now : string) (p : fault_plan) (db : Db) :
  without_line_items rid db ->
  without_line_items rid
    (snd (run (submit_material_request emp_id emp_name product prod_quantity
                 cost_total line_items now) p db)).
Proof.
  intros [Hseq Hnone].
  destruct (submit_all_or_nothing emp_id emp_name product prod_quantity
              cost_total line_items now p db)
    as [[ex ->]|[rid' [db' [-> Hdone]]]]; [now split|].
  destruct Hdone as [-> [_ [Hseq' [[new [Hitems [_ Hnew]]] _]]]].
  cbn [snd]. unfold without_line_items. rewrite Hseq', Hitems.
  split; [lia|]. apply Forall_app. split; [exact Hnone|].
  apply persisted_request_id in Hnew.
  eapply Forall_impl; [|exact Hnew]. cbn. intros i ->. lia.
Qed.

Lemma submit_keeps_numbered (emp_id : Z) (emp_name product : string)
    (prod_quantity : Z) (cost_total : R) (line_items : list line_item)
    (now : string) (p : fault_plan) (db : Db) :
  line_items_numbered db ->
  line_items_numbered
    (snd (run (submit_material_request emp_id emp_name product prod_quantity
                 cost_total line_items now) p db)).
Proof.
  intros Hnum.
  destruct (submit_all_or_nothing emp_id emp_name product prod_quantity
              cost_total line_items now p db)
    as [[ex ->]|[rid' [db' [-> Hdone]]]]; [exact Hnum|].
  destruct Hdone as [-> [_ [Hseq' [[new [Hitems [_ Hnew]]] _]]]].
  cbn [snd]. unfold line_items_numbered. rewrite Hseq', Hitems.
  apply Forall_app. split.
  - eapply Forall_impl; [|exact Hnum]. cbn. intros i Hi. lia.
  - apply persisted_request_id in Hnew.
    eapply Forall_impl; [|exact Hnew]. cbn. intros i ->. lia.
Qed.

(** Every call keeps a request that owns no line item in that state. *)
Lemma exec_op_without_line_items (rid : Z) (o : op) (p : fault_plan) (db : Db) :
  without_line_items rid db -> without_line_items rid (exec_op o p db).
Proof.
  intros Hdb. pose proof (without_line_items_frame rid) as Hframe.
  destruct o; cbn [exec_op].
  - now apply submit_keeps_without_line_items.
  - apply preserves_run; [now apply update_request_status_frame | exact Hdb].
  - apply preserves_run; [now apply delete_material_request_frame | exact Hdb].
  - apply preserves_run; [now apply receive_material_request_stock_frame | exact Hdb].
  - apply preserves_run; [now apply update_material_frame | exact Hdb].
  - apply preserves_run; [now apply delete_material_frame | exact Hdb].
  - apply preserves_run; [now apply add_sales_entry_frame | exact Hdb].
  - apply preserves_run; [now apply import_sales_from_csv_frame | exact Hdb].
Qed.

Lemma exec_ops_without_line_items (rid : Z) (h : list (op * fault_plan)) :
  forall db, without_line_items rid db -> without_line_items rid (exec_ops h db).
Proof.
  induction h as [|[o p] h IH]; intros db Hdb; [exact Hdb|].
  apply IH. now apply exec_op_without_line_items.
Qed.

(** Line items are numbered after inserted requests in every state the
    operations can reach from the empty database. *)
Lemma exec_op_numbered (o : op) (p : fault_plan) (db : Db) :
  line_items_numbered db -> line_items_numbered (exec_op o p db).
Proof.
  intros Hdb. pose proof line_items_numbered_frame as Hframe.
  destruct o; cbn [exec_op].
  - now apply submit_keeps_numbered.
  - apply preserves_run; [now apply update_request_status_frame | exact Hdb].
  - apply preserves_run; [now apply delete_material_request_frame | exact Hdb].
  - apply preserves_run; [now apply receive_material_request_stock_frame | exact Hdb].
  - apply preserves_run; [now apply update_material_frame | exact Hdb].
  - apply preserves_run; [now apply delete_material_frame | exact Hdb].
  - apply preserves_run; [now apply add_sales_entry_frame | exact Hdb].
  - apply preserves_run; [now apply import_sales_from_csv_frame | exact Hdb].
Qed.

Lemma reachable_numbered (h : list (op * fault_plan)) :
  line_items_numbered (exec_ops h empty_db).
Proof.
  assert (Hgen : forall db, line_items_numbered db ->
                            line_items_numbered (exec_ops h db)).
  { induction h as [|[o p] h IH]; intros db Hdb; [exact Hdb|].
    apply IH. now apply exec_op_numbered. }
  apply Hgen. constructor.
Qed.

Lemma without_line_items_select (rid : Z) (db : Db) :
  without_line_items rid db -> select_request_line_items rid db = [].
Proof.
  intros [_ Hnone]. unfold select_request_line_items.
  induction Hnone as [|i l Hi _ IH]; simpl; [reflexivity|].
  destruct (item_request_id i =? rid) eqn:E; [|exact IH].
  apply Z.eqb_eq in E. contradiction.
Qed.

(** C2.  A submission is one atomic unit.  Under any failure of the storage
    and whatever keys the supplied dicts lack, it either raises the error
    and leaves no row of either kind behind (the database is as before), or
    returns the new request id with exactly one header row added (status
    'Pending', dated [now]) and exactly one line-item row added for each
    supplied item whose quantity needed is greater than zero, in order and
    carrying that item's name, quantity, unit and cost; items with zero
    shortfall are not persisted.  When the storage does not fail and the
    dicts are complete, the submission succeeds. *)
Theorem submit_request_atomic (emp_id : Z) (emp_name product : string)
    (prod_quantity : Z) (cost_total : R) (line_items : list line_item)
    (now : string) (db : Db) :
  (forall p : fault_plan,
      (exists ex,
          run (submit_material_request emp_id emp_name product prod_quantity
                 cost_total line_items now) p db = (Raise ex, db))
      \/ (exists rid db',
            run (submit_material_request emp_id emp_name product prod_quantity
                   cost_total line_items now) p db = (Ok rid, db')
            /\ submission_committed emp_id emp_name product prod_quantity
                 cost_total line_items now db rid db'))
  /\ (Forall has_keys line_items ->
      exists rid db',
        run (submit_material_request emp_id emp_name product prod_quantity
               cost_total line_items now) no_fault db = (Ok rid, db')
        /\ submission_committed emp_id emp_name product prod_quantity
             cost_total line_items now db rid db').
Proof.
  split.
  - intros p. apply submit_all_or_nothing.
  - intros Hkeys.
    destruct (submit_no_fault emp_id emp_name product prod_quantity cost_total
                line_items now db Hkeys) as [db' [Hrun Hdone]].
    now exists (seq_material_requests db + 1), db'.
Qed.

Lemma collect_nothing_to_order (rid : Z) (line_items : list line_item) :
  Forall (fun it => exists qty, li_quantity_needed it = Some qty /\ qty <= 0)
         line_items ->
  forall acc, collect_items_to_insert rid line_items acc = Ok acc.
Proof.
  induction 1 as [|it rest [qty [Hq Hle]] _ IH]; intros acc; simpl;
    [reflexivity|].
  rewrite Hq. simpl.
  replace (0 <? qty) with false by (symmetry; apply Z.ltb_ge; lia).
  apply IH.
Qed.

(** C10.  When every supplied line item has a quantity needed of zero or
    less, the submission still inserts and commits a header row with status
    'Pending' and returns its id, and persists no line item.  The stored
    request can then never be received: line items carrying only ids of
    requests inserted before (as in every state the operations reach),
    after any further history of operations and under any fault plan the
    stock receipt for that id raises and changes nothing. *)
Theorem submit_without_shortfall_is_unreceivable (emp_id : Z)
    (emp_name product : string) (prod_quantity : Z) (cost_total : R)
    (line_items : list line_item) (now : string) (db : Db) :
  Forall (fun it => exists qty, li_quantity_needed it = Some qty /\ qty <= 0)
         line_items ->
  exists db' : Db,
    run (submit_material_request emp_id emp_name product prod_quantity
           cost_total line_items now) no_fault db
    = (Ok (seq_material_requests db + 1), db')
    /\ material_requests db'
       = material_requests db ++
           [ {| request_id := seq_material_requests db + 1;
                employee_id := emp_id; employee_name := emp_name;
                product_name := product; production_quantity := prod_quantity;
                total_cost := cost_total; status := "Pending";
                request_date := now |} ]
    /\ request_line_items db' = request_line_items db
    /\ (line_items_numbered db ->
        forall (h : list (op * fault_plan)) (p : fault_plan),
          select_request_line_items (seq_material_requests db + 1)
                                    (exec_ops h db') = []
          /\ exists ex,
               run (receive_material_request_stock (seq_material_requests db + 1))
                   p (exec_ops h db')
               = (Raise ex, exec_ops h db')).
Proof.
  intros Hzero.
  eexists. split; [|split; [|split]].
  - unfold submit_material_request.
    unfold run, connect, close, rollback, finally, try_except.
    unfold bind at 1 2. unfold execute at 1.
    cbn [disk view clock fst snd sql_insert_material_request no_fault].
    unfold bind at 1. unfold lift.
    rewrite (collect_nothing_to_order _ _ Hzero). reflexivity.
  - reflexivity.
  - reflexivity.
  - intros Hnum h p.
    assert (Hnone : select_request_line_items (seq_material_requests db + 1)
                      (exec_ops h
                         (set_material_requests
                            (material_requests db ++
                               [ {| request_id := seq_material_requests db + 1;
                                    employee_id := emp_id;
                                    employee_name := emp_name;
                                    product_name := product;
                                    production_quantity := prod_quantity;
                                    total_cost := cost_total; status := "Pending";
                                    request_date := now |} ])
                            (seq_material_requests db + 1) db)) = []).
    { apply without_line_items_select, exec_ops_without_line_items.
      split; cbn; [lia|].
      eapply Forall_impl; [|exact Hnum]. cbn. intros i Hi. lia. }
    split; [exact Hnone | now apply receive_no_items].
Qed.

(** ** Status updates *)

(** C4 (amended).  The status update is an unconditional overwrite: for
    every request id, whatever the current status of the request and
    whatever string the new status is, the call succeeds, every request
    with that id gets the new status, and nothing else changes; no
    transition is rejected.  (Under a failure of the storage the call
    raises and changes nothing.) *)
Theorem update_request_status_overwrites (rid : Z) (new_status : string) (db : Db) :
  run (update_request_status rid new_status) no_fault db
  = (Ok tt, with_status rid new_status db)
  /\ material_requests (with_status rid new_status db)
     = map (fun r => if request_id r =? rid then set_status new_status r else r)
           (material_requests db)
  /\ (forall r, In r (material_requests (with_status rid new_status db)) ->
                request_id r = rid -> status r = new_status)
  /\ materials (with_status rid new_status db) = materials db
  /\ request_line_items (with_status rid new_status db) = request_line_items db
  /\ (forall p : fault_plan,
        (exists e, run (update_request_status rid new_status) p db = (Raise e, db))
        \/ run (update_request_status rid new_status) p db
           = (Ok tt, with_status rid new_status db)).
Proof.
  split; [reflexivity|]. split; [reflexivity|]. split; [|split; [|split]].
  - intros r Hr Hid. unfold with_status in Hr. cbn in Hr.
    apply in_map_iff in Hr. destruct Hr as [r0 [<- _]].
    destruct (request_id r0 =? rid) eqn:E; [reflexivity|].
    apply Z.eqb_neq in E. contradiction.
  - reflexivity.
  - reflexivity.
  - intros p. unfold update_request_status. unfold_M.
    cbn [disk view clock fst snd sql_update_status].
    destruct (p 0%nat); [left; eexists; reflexivity|].
    cbn [disk view clock fst snd].
    destruct (p 1%nat); [left; eexists; reflexivity|].
    right. reflexivity.
Qed.

(** ** Deleting a material *)

Lemma existsb_false_forall {A} (f : A -> bool) (l : list A) :
  (forall x, In x l -> f x = false) -> existsb f l = false.
Proof.
  intros Hf. induction l as [|x l IH]; simpl; [reflexivity|].
  rewrite Hf by now left. apply IH. intros y Hy. apply Hf. now right.
Qed.

Lemma delete_material_referenced (mat_id : Z) (p : fault_plan) (db : Db) :
  existsb (fun m => material_id m =? mat_id) (materials db) = true ->
  existsb (fun b => bom_material_id b =? mat_id) (bom db) = true ->
  exists e, run (delete_material mat_id) p db = (Raise e, db).
Proof.
  intros Hm Hb. unfold delete_material. unfold_M.
  cbn [disk view clock fst snd sql_pragma_foreign_keys_on].
  destruct (p 0%nat); [eexists; reflexivity|].
  cbn [disk view clock fst snd]. unfold sql_delete_material. rewrite Hm, Hb.
  destruct (p 1%nat); eexists; reflexivity.
Qed.

Lemma delete_material_unreferenced (mat_id : Z) (p : fault_plan) (db : Db) :
  existsb (fun b => bom_material_id b =? mat_id) (bom db) = false ->
  (exists e, run (delete_material mat_id) p db = (Raise e, db))
  \/ run (delete_material mat_id) p db = (Ok tt, without_material mat_id db).
Proof.
  intros Hb. unfold delete_material. unfold_M.
  cbn [disk view clock fst snd sql_pragma_foreign_keys_on].
  destruct (p 0%nat); [left; eexists; reflexivity|].
  cbn [disk view clock fst snd]. unfold sql_delete_material.
  rewrite Hb, andb_false_r.
  destruct (p 1%nat); [left; eexists; reflexivity|].
  cbn [disk view clock fst snd].
  destruct (p 2%nat); [left; eexists; reflexivity|].
  right. reflexivity.
Qed.

Lemma filter_out_unique {A} (f : A -> Z) (l : list A) (x : A) :
  NoDup (map f l) -> In x l ->
  List.length l = S (List.length (filter (fun y => negb (f y =? f x)) l)).
Proof.
  induction l as [|y l IH]; intros Hnd Hin; [contradiction|].
  cbn [map] in Hnd. inversion Hnd as [|fy fl Hnotin Hnd']; subst.
  cbn [filter]. destruct Hin as [->|Hin].
  - rewrite Z.eqb_refl. cbn [negb List.length]. f_equal.
    clear IH Hnd Hnd'. induction l as [|z l IH]; [reflexivity|].
    cbn [filter]. destruct (f z =? f x) eqn:E.
    + apply Z.eqb_eq in E. exfalso. apply Hnotin. left. exact E.
    + cbn [negb List.length]. f_equal. apply IH. intros Hc. apply Hnotin.
      right. exact Hc.
  - destruct (f y =? f x) eqn:E.
    + apply Z.eqb_eq in E. exfalso. apply Hnotin. rewrite E.
      now apply in_map.
    + cbn [negb List.length]. f_equal. now apply IH.
Qed.

(** C6.  Deleting a material that exists and is referenced by a BOM entry
    raises an integrity error and leaves the database, and so the material
    and all its fields, unchanged (under a failure of the storage it raises
    as well, and changes nothing).  Deleting a material that no BOM entry
    references succeeds: the rows with that id are removed from [materials]
    (exactly one row when ids are unique and the material exists), every
    other material row stays, and no other table changes. *)
Theorem delete_material_guard (mat_id : Z) (db : Db) :
  ((exists m, In m (materials db) /\ material_id m = mat_id) ->
   (exists b, In b (bom db) /\ bom_material_id b = mat_id) ->
   run (delete_material mat_id) no_fault db
   = (Raise (IntegrityError "FOREIGN KEY constraint failed"), db)
   /\ forall p : fault_plan,
        exists e, run (delete_material mat_id) p db = (Raise e, db))
  /\ ((forall b, In b (bom db) -> bom_material_id b <> mat_id) ->
      run (delete_material mat_id) no_fault db = (Ok tt, without_material mat_id db)
      /\ (forall m, In m (materials (without_material mat_id db))
                    <-> In m (materials db) /\ material_id m <> mat_id)
      /\ (forall m, NoDup (map material_id (materials db)) ->
                    In m (materials db) -> material_id m = mat_id ->
                    List.length (materials db)
                    = S (List.length (materials (without_material mat_id db))))
      /\ bom (without_material mat_id db) = bom db
      /\ sales_history (without_material mat_id db) = sales_history db
      /\ material_requests (without_material mat_id db) = material_requests db
      /\ request_line_items (without_material mat_id db) = request_line_items db
      /\ forall p : fault_plan,
           (exists e, run (delete_material mat_id) p db = (Raise e, db))
           \/ run (delete_material mat_id) p db
              = (Ok tt, without_material mat_id db)).
Proof.
  split.
  - intros [m [Hm Hid]] [b [Hb Hbid]].
    assert (Em : existsb (fun m => material_id m =? mat_id) (materials db) = true).
    { apply existsb_exists. exists m. split; [exact Hm|]. now apply Z.eqb_eq. }
    assert (Eb : existsb (fun b => bom_material_id b =? mat_id) (bom db) = true).
    { apply existsb_exists. exists b. split; [exact Hb|]. now apply Z.eqb_eq. }
    split.
    + unfold delete_material. unfold_M.
      cbn [disk view clock fst snd sql_pragma_foreign_keys_on no_fault].
      unfold sql_delete_material. rewrite Em, Eb. reflexivity.
    + intros p. now apply delete_material_referenced.
  - intros Hfree.
    assert (Eb : existsb (fun b => bom_material_id b =? mat_id) (bom db) = false).
    { apply existsb_false_forall. intros b Hb. apply Z.eqb_neq. now apply Hfree. }
    split; [|split; [|split; [|repeat split]]].
    + unfold delete_material. unfold_M.
      cbn [disk view clock fst snd sql_pragma_foreign_keys_on no_fault].
      unfold sql_delete_material. rewrite Eb, andb_false_r. reflexivity.
    + intros m. unfold without_material. cbn. rewrite filter_In.
      rewrite negb_true_iff, Z.eqb_neq. reflexivity.
    + intros m Hnd Hm <-. unfold without_material. cbn.
      now apply (filter_out_unique material_id).
    + intros p. now apply delete_material_unreferenced.
Qed.

(** ** Historical sales import *)

Lemma sql_insert_sales_total (row : string * Z * Z * Z * Z) (d : Db) :
  sql_insert_sales row d = Ok (tt, insert_sales row d).
Proof. destruct row as [[[[product y] m] q] flag]. reflexivity. Qed.

Lemma insert_sales_loop (rows : list (string * Z * Z * Z * Z)) :
  forall db : Db,
    fold_left (fun d row => insert_sales row d) rows db
    = set_sales_history
        (sales_history db ++ numbered_sales (seq_sales_history db) rows)
        (seq_sales_history db + Z.of_nat (List.length rows)) db.
Proof.
  induction rows as [|row rows IH]; intros db.
  - simpl. rewrite app_nil_r, Z.add_0_r. now destruct db.
  - cbn [fold_left]. rewrite IH. unfold insert_sales, set_sales_history.
    cbn [materials bom sales_history material_requests request_line_items
         seq_sales_history seq_material_requests seq_request_line_items
         numbered_sales List.length].
    rewrite <- app_assoc. cbn [app]. f_equal. lia.
Qed.

Lemma import_all_or_nothing (csv : result (list csv_row)) (p : fault_plan) (db : Db) :
  (exists e, run (import_sales_from_csv csv) p db = (Raise e, db))
  \/ (exists df, csv = Ok df
                 /\ run (import_sales_from_csv csv) p db = (Ok tt, imported df db)).
Proof.
  destruct csv as [df|e]; [|left; exists e; reflexivity].
  destruct (run _ p db) as [res db'] eqn:Hrun. revert Hrun.
  unfold import_sales_from_csv, executemany.
  unfold run, connect, close, rollback, finally, try_except.
  unfold bind at 1 2. unfold execute at 1.
  cbn [disk view clock fst snd sql_delete_historical].
  destruct (p 0%nat); [intros [= <- <-]; left; eexists; reflexivity|].
  unfold bind at 1.
  match goal with
  | |- context [for_each ?g (final_sales df) p ?c0] =>
      pose proof (for_each_execute _ _ sql_insert_sales_total
                    (final_sales df) p c0) as [Hd Hv];
      destruct (for_each g (final_sales df) p c0) as [r c']
  end.
  cbn [fst snd disk view] in Hd, Hv.
  destruct r as [u|ex];
    [|cbn; rewrite Hd; intros [= <- <-]; left; eexists; reflexivity].
  specialize (Hv u eq_refl). rewrite insert_sales_loop in Hv.
  unfold commit.
  destruct (p (clock c'));
    [cbn; rewrite Hd; intros [= <- <-]; left; eexists; reflexivity|].
  cbn. rewrite Hv. intros [= <- <-].
  right. exists df. split; reflexivity.
Qed.

Lemma import_no_fault (df : list csv_row) (db : Db) :
  run (import_sales_from_csv (Ok df)) no_fault db = (Ok tt, imported df db).
Proof.
  unfold import_sales_from_csv, executemany.
  unfold run, connect, close, rollback, finally, try_except.
  unfold bind at 1 2. unfold execute at 1.
  cbn [disk view clock fst snd sql_delete_historical no_fault].
  unfold bind at 1.
  rewrite (for_each_execute_no_fault _ _ sql_insert_sales_total).
  rewrite insert_sales_loop. reflexivity.
Qed.

Lemma final_sales_historical (df : list csv_row) :
  Forall (fun row => snd row = 1) (final_sales df).
Proof.
  unfold final_sales. apply Forall_forall. intros row Hrow.
  apply in_flat_map in Hrow. destruct Hrow as [product [_ Hrow]].
  apply in_map_iff in Hrow. destruct Hrow as [k [<- _]]. reflexivity.
Qed.

Lemma numbered_sales_flag (rows : list (string * Z * Z * Z * Z)) :
  Forall (fun row => snd row = 1) rows ->
  forall seq, Forall (fun s => is_historical_csv s = 1) (numbered_sales seq rows).
Proof.
  induction 1 as [|row rows Hrow _ IH]; intros seq; simpl; constructor; auto.
Qed.

Lemma filter_all {A} (f : A -> bool) (l : list A) :
  Forall (fun x => f x = true) l -> filter f l = l.
Proof.
  induction 1 as [|x l Hx _ IH]; simpl; [reflexivity|]. now rewrite Hx, IH.
Qed.

Lemma filter_none {A} (f : A -> bool) (l : list A) :
  Forall (fun x => f x = false) l -> filter f l = [].
Proof.
  induction 1 as [|x l Hx _ IH]; simpl; [reflexivity|]. now rewrite Hx, IH.
Qed.

Lemma filter_filter {A} (f g : A -> bool) (l : list A) :
  filter f (filter g l) = filter (fun x => g x && f x) l.
Proof.
  induction l as [|x l IH]; simpl; [reflexivity|].
  destruct (g x); simpl; [destruct (f x)|]; now rewrite IH.
Qed.

(** C8.  Importing historical sales replaces the historical subset only.
    After a successful import the rows flagged historical are exactly the
    newly imported ones (every historical row that existed before is gone),
    and the rows not flagged historical, in particular every current row,
    are the same as before, as is every other table.  Under any failure,
    of the CSV reading or of the storage, the call raises and the whole
    sales history is as it was. *)
Theorem import_replaces_historical_only (db : Db) :
  (forall (csv : result (list csv_row)) (p : fault_plan),
      (exists e, run (import_sales_from_csv csv) p db = (Raise e, db))
      \/ (exists df, csv = Ok df
                     /\ run (import_sales_from_csv csv) p db
                        = (Ok tt, imported df db)))
  /\ (forall df : list csv_row,
        run (import_sales_from_csv (Ok df)) no_fault db = (Ok tt, imported df db)
        /\ select_sales_history (Some true) (imported df db)
           = numbered_sales (seq_sales_history db) (final_sales df)
        /\ select_sales_history (Some false) (imported df db)
           = select_sales_history (Some false) db
        /\ filter (fun s => negb (is_historical_csv s =? 1))
                  (sales_history (imported df db))
           = filter (fun s => negb (is_historical_csv s =? 1)) (sales_history db)
        /\ materials (imported df db) = materials db
        /\ bom (imported df db) = bom db
        /\ material_requests (imported df db) = material_requests db
        /\ request_line_items (imported df db) = request_line_items db).
Proof.
  split; [intros csv p; apply import_all_or_nothing|].
  intros df. split; [apply import_no_fault|].
  pose proof (numbered_sales_flag _ (final_sales_historical df)
                (seq_sales_history db)) as Hflag.
  unfold imported, select_sales_history. cbn.
  rewrite !filter_app, !filter_filter.
  split; [|split; [|split; [|repeat split]]].
  - rewrite (filter_none (fun s => negb (is_historical_csv s =? 1)
                                   && (is_historical_csv s =? 1))).
    + cbn. apply filter_all. eapply Forall_impl; [|exact Hflag].
      cbn. intros s ->. reflexivity.
    + apply Forall_forall. intros s _.
      now destruct (is_historical_csv s =? 1).
  - rewrite (filter_none _ (numbered_sales _ _)).
    + rewrite app_nil_r. apply filter_ext. intros s.
      destruct (is_historical_csv s =? 0) eqn:E0; [|apply andb_false_r].
      apply Z.eqb_eq in E0. rewrite E0. reflexivity.
    + eapply Forall_impl; [|exact Hflag]. cbn. intros s ->. reflexivity.
  - rewrite (filter_none _ (numbered_sales _ _)).
    + rewrite app_nil_r. apply filter_ext. intros s.
      now destruct (is_historical_csv s =? 1).
    + eapply Forall_impl; [|exact Hflag]. cbn. intros s ->. reflexivity.
Qed.

(** ** Sorting and grouping *)

Lemma insert_sorted_perm {A} (le : A -> A -> bool) (x : A) (l : list A) :
  Permutation (insert_sorted le x l) (x :: l).
Proof.
  induction l as [|y l IH]; simpl; [apply Permutation_refl|].
  destruct (le x y); [apply Permutation_refl|].
  eapply Permutation_trans; [apply perm_skip, IH | apply perm_swap].
Qed.

Lemma sort_by_perm {A} (le : A -> A -> bool) (l : list A) :
  Permutation (sort_by le l) l.
Proof.
  induction l as [|x l IH]; simpl; [apply Permutation_refl|].
  eapply Permutation_trans; [apply insert_sorted_perm | apply perm_skip, IH].
Qed.

Lemma sorted_unique_NoDup (l : list string) : NoDup (sorted_unique l).
Proof.
  unfold sorted_unique.
  eapply Permutation_NoDup; [apply Permutation_sym, sort_by_perm|].
  apply NoDup_nodup.
Qed.

Lemma sorted_unique_In (l : list string) (x : string) :
  In x (sorted_unique l) <-> In x l.
Proof.
  unfold sorted_unique. split; intros Hx.
  - eapply Permutation_in in Hx; [|apply sort_by_perm].
    now apply nodup_In in Hx.
  - eapply Permutation_in; [apply Permutation_sym, sort_by_perm|].
    now apply nodup_In.
Qed.

(** ** The consumption dict *)







Lemma calculate_consumption_entries (product_sales : list (string * Z))
    (bom_df : list full_bom_item) :
  calculate_consumption product_sales bom_df
  = fold_left (fun d e => dict_add (fst e) (snd e) d)
              (consumption_entries product_sales bom_df) [].
Proof.
  unfold calculate_consumption, consumption_entries.
  generalize (@nil (string * Z)) as d.
  induction product_sales as [|[product sold] ps IH]; intros d; [reflexivity|].
  cbn [fold_left flat_map fst snd]. rewrite fold_left_app, IH. f_equal.
  generalize d. clear.
  induction (filter _ bom_df) as [|item l IH]; intros d; [reflexivity|].
  simpl. apply IH.
Qed.

(** ** Consumption report *)



Lemma groupby_product_sum_In (month_sales : list sales_row) (product : string)
    (sold : Z) :
  In (product, sold) (groupby_product_sum month_sales)
  <-> (exists s, In s month_sales /\ sales_product_name s = product)
      /\ sold = sum_Z (map quantity
                         (filter (fun s => String.eqb (sales_product_name s) product)
                                 month_sales)).
Proof.
  unfold groupby_product_sum. rewrite in_map_iff. split.
  - intros [p [[= -> <-] Hp]]. split; [|reflexivity].
    apply sorted_unique_In, in_map_iff in Hp. destruct Hp as [s [Hs Hin]].
    now exists s.
  - intros [[s [Hin Hs]] ->]. exists product. split; [reflexivity|].
    apply sorted_unique_In, in_map_iff. now exists s.
Qed.




Lemma report_no_fault (y m : Z) (db : Db) :
  run (generate_consumption_report y m) no_fault db
  = (Ok
       match select_sales_history (Some false) db with
       | [] => ReportMessage (MessageBox Information "Report"
                 "No current sales data found for any period.")
       | _ =>
           match filter (fun s => (year s =? y) && (month s =? m))
                        (select_sales_history (Some false) db) with
           | [] => ReportMessage (MessageBox Information "Report"
                     ("No current sales data found for " ++ period y m ++ "."))
           | _ =>
               match select_full_bom db with
               | [] => ReportMessage (MessageBox Warning "Report Error"
                         "Cannot generate report: BOM is not defined.")
               | _ =>
                   match calculate_consumption
                           (groupby_product_sum
                              (filter (fun s => (year s =? y) && (month s =? m))
                                      (select_sales_history (Some false) db)))
                           (select_full_bom db) with
                   | [] => ReportMessage (MessageBox Information "Report"
                             ("No BOM items found for products sold in "
                                ++ period y m ++ "."))
                   | _ => ConsumptionReport y m
                            (calculate_consumption
                               (groupby_product_sum
                                  (filter (fun s => (year s =? y) && (month s =? m))
                                          (select_sales_history (Some false) db)))
                               (select_full_bom db))
                   end
               end
           end
       end, db).
Proof.
  unfold generate_consumption_report, get_sales_history, get_full_bom.
  unfold_M. cbn [no_fault disk view clock fst snd].
  destruct (select_sales_history (Some false) db) as [|s0 sales]; [reflexivity|].
  destruct (filter _ (s0 :: sales)) as [|s1 month_sales]; [reflexivity|].
  cbn [disk view clock fst snd].
  destruct (select_full_bom db) as [|b0 bom_df]; [reflexivity|].
  cbn [no_fault disk view clock fst snd].
  destruct (calculate_consumption _ _); reflexivity.
Qed.


(** * Further properties *)

(** ** The costing tab, beyond its contract *)

Lemma calculate_material_cost_ok (product : string) (q : Z) (db : Db) :
  contains "(No products found)" product = false ->
  select_bom_for_product product db <> [] ->
  run (calculate_material_cost product q) no_fault db
  = (Ok (None, costed_tab q (select_bom_for_product product db)), db).
Proof.
  intros Hname Hbom.
  unfold calculate_material_cost. rewrite Hname.
  unfold get_bom_for_product. unfold_M. simpl.
  destruct (select_bom_for_product product db) as [|i items] eqn:E;
    [contradiction|].
  rewrite cost_loop_spec. rewrite !app_nil_l. reflexivity.
Qed.

Lemma select_bom_for_product_row (product : string) (db : Db) (i : bom_item) :
  In i (select_bom_for_product product db) ->
  exists b m,
    In b (bom db) /\ In m (materials db)
    /\ product_id b = product /\ material_id m = bom_material_id b
    /\ bi_name i = name m /\ bi_quantity_per_unit i = quantity_per_unit b
    /\ bi_stock i = stock m /\ bi_price i = price m
    /\ bi_unit_of_measure i = unit_of_measure m.
Proof.
  unfold select_bom_for_product. intros Hi.
  apply in_flat_map in Hi. destruct Hi as [b [Hb Hi]].
  destruct (String.eqb (product_id b) product) eqn:Ep; [|contradiction].
  apply in_map_iff in Hi. destruct Hi as [m [<- Hm]].
  apply filter_In in Hm. destruct Hm as [Hm Hid].
  exists b, m. apply String.eqb_eq in Ep. apply Z.eqb_eq in Hid.
  repeat split; auto.
Qed.

(** X1.  Whatever product and quantity are asked for and whatever the
    storage does, the costing never raises and never writes.  It ends
    either with the action buttons enabled, no dialog, and a non-empty
    table with one cached item per row, or with a dialog and the tab
    cleared: empty table, empty cache, buttons disabled. *)
Theorem calculate_material_cost_outcomes (product : string) (q : Z)
    (p : fault_plan) (db : Db) :
  exists (mb : option message_box) (tab : costing_tab),
    run (calculate_material_cost product q) p db = (Ok (mb, tab), db)
    /\ (action_buttons_enabled tab = true <-> mb = None)
    /\ (mb <> None -> tab = clear_cost_calculator)
    /\ (mb = None ->
        cost_table tab <> []
        /\ List.length (current_line_items tab) = List.length (cost_table tab)).
Proof.
  assert (Hdialog : forall (m : message_box),
             (action_buttons_enabled clear_cost_calculator = true
              <-> Some m = None)
             /\ (Some m <> None -> clear_cost_calculator = clear_cost_calculator)
             /\ (Some m = None ->
                 cost_table clear_cost_calculator <> []
                 /\ List.length (current_line_items clear_cost_calculator)
                    = List.length (cost_table clear_cost_calculator))).
  { intros m. split; [split; discriminate|].
    split; [reflexivity | discriminate]. }
  unfold calculate_material_cost.
  destruct (contains "(No products found)" product).
  - do 2 eexists. split; [reflexivity | apply Hdialog].
  - unfold get_bom_for_product. unfold_M. cbn [disk view clock fst snd].
    destruct (p 0%nat).
    + do 2 eexists. split; [reflexivity | apply Hdialog].
    + destruct (select_bom_for_product product db) as [|i items].
      * do 2 eexists. split; [reflexivity | apply Hdialog].
      * rewrite cost_loop_spec. rewrite !app_nil_l.
        do 2 eexists. split; [reflexivity|].
        cbn [action_buttons_enabled cost_table current_line_items].
        split; [split; reflexivity|]. split; [intros Hc; contradiction|].
        intros _. split; [discriminate|]. now rewrite !length_map.
Qed.

Lemma costed_monotone (q q' : Z) (l : list bom_item) :
  q <= q' ->
  (forall j, In j l -> 0 <= bi_quantity_per_unit j) ->
  Forall2 (fun row row' =>
             cr_material row = cr_material row'
             /\ cr_in_stock row = cr_in_stock row'
             /\ cr_total_required row <= cr_total_required row'
             /\ cr_need_to_order row <= cr_need_to_order row')
          (map (costed q) l) (map (costed q') l).
Proof.
  intros Hq. induction l as [|j l IH]; intros Hrows; cbn [map]; constructor.
  - assert (0 <= bi_quantity_per_unit j) by (apply Hrows; now left).
    unfold costed; cbn. repeat split; nia.
  - apply IH. intros j' Hj'. apply Hrows. now right.
Qed.

(** X2.  Shortfall monotonicity.  When no BOM entry has a negative
    quantity per unit, asking for more pairs never lowers what has to be
    ordered: the two cost tables list the same materials in the same order
    and every need_to_order is at least what it was. *)
Theorem costing_shortfall_monotone (product : string) (q q' : Z) (db : Db) :
  q <= q' ->
  (forall b, In b (bom db) -> 0 <= quantity_per_unit b) ->
  exists mb mb' tab tab',
    run (calculate_material_cost product q) no_fault db = (Ok (mb, tab), db)
    /\ run (calculate_material_cost product q') no_fault db = (Ok (mb', tab'), db)
    /\ Forall2 (fun row row' =>
                  cr_material row = cr_material row'
                  /\ cr_in_stock row = cr_in_stock row'
                  /\ cr_total_required row <= cr_total_required row'
                  /\ cr_need_to_order row <= cr_need_to_order row')
               (cost_table tab) (cost_table tab').
Proof.
  intros Hq Hqpu.
  destruct (contains "(No products found)" product) eqn:Hname.
  - unfold calculate_material_cost. rewrite Hname.
    do 4 eexists. split; [reflexivity|]. split; [reflexivity|]. constructor.
  - destruct (select_bom_for_product product db) as [|i items] eqn:E.
    + unfold calculate_material_cost. rewrite Hname.
      unfold get_bom_for_product. unfold_M. cbn. rewrite E.
      do 4 eexists. split; [reflexivity|]. split; [reflexivity|]. constructor.
    + assert (Hbom : select_bom_for_product product db <> [])
        by (rewrite E; discriminate).
      do 4 eexists.
      split; [now apply calculate_material_cost_ok|].
      split; [now apply calculate_material_cost_ok|].
      cbn [cost_table costed_tab]. apply costed_monotone; [exact Hq|].
      intros j Hj. apply select_bom_for_product_row in Hj.
      destruct Hj as [b [m [Hb [_ [_ [_ [_ [-> _]]]]]]]]. now apply Hqpu.
Qed.

(** ** From costing to receipt *)

Lemma select_line_items_app (rid : Z) (db : Db) (old new : list request_line_item) :
  request_line_items db = old ++ new ->
  Forall (fun i => item_request_id i <> rid) old ->
  Forall (fun i => item_request_id i = rid) new ->
  select_request_line_items rid db = new.
Proof.
  intros Hitems Hold Hnew. unfold select_request_line_items.
  rewrite Hitems, filter_app.
  rewrite (filter_none _ old), (filter_all _ new); [reflexivity| |].
  - eapply Forall_impl; [|exact Hnew]. cbn. intros i ->. apply Z.eqb_refl.
  - eapply Forall_impl; [|exact Hold]. cbn. intros i Hi. now apply Z.eqb_neq.
Qed.

Lemma select_line_items_other (rid rid' : Z) (db db' : Db)
    (new : list request_line_item) :
  request_line_items db' = request_line_items db ++ new ->
  Forall (fun i => item_request_id i = rid) new ->
  rid' <> rid ->
  select_request_line_items rid' db' = select_request_line_items rid' db.
Proof.
  intros Hitems Hnew Hne. unfold select_request_line_items.
  rewrite Hitems, filter_app, (filter_none _ new); [apply app_nil_r|].
  eapply Forall_impl; [|exact Hnew]. cbn. intros i ->. apply Z.eqb_neq. congruence.
Qed.

(** X3.  Round trip of a submission.  When line items only carry ids of
    requests inserted before, a submission that returns id [rid] can be
    read back: the line items of [rid] are exactly the rows persisted for
    the items to order, in order, and the line items of every other
    request read as before. *)
Theorem submit_then_get_request_line_items (emp_id : Z)
    (emp_name product : string) (prod_quantity : Z) (cost_total : R)
    (line_items : list line_item) (now : string) (p : fault_plan)
    (db db' : Db) (rid : Z) :
  line_items_numbered db ->
  run (submit_material_request emp_id emp_name product prod_quantity
         cost_total line_items now) p db = (Ok rid, db') ->
  exists new_items : list request_line_item,
    run (get_request_line_items rid) no_fault db' = (Ok new_items, db')
    /\ Forall2 (persisted_as rid) (to_order line_items) new_items
    /\ request_line_items db' = request_line_items db ++ new_items
    /\ forall rid', rid' <> rid ->
         run (get_request_line_items rid') no_fault db'
         = (Ok (select_request_line_items rid' db), db').
Proof.
  intros Hnum Hrun.
  destruct (submit_all_or_nothing emp_id emp_name product prod_quantity
              cost_total line_items now p db)
    as [[ex Hex]|[rid0 [db0 [Hok Hdone]]]];
    [rewrite Hex in Hrun; discriminate|].
  rewrite Hok in Hrun. injection Hrun as -> ->.
  destruct Hdone as [Hrid [_ [_ [[new [Hitems [_ Hnew]]] _]]]].
  pose proof (persisted_request_id _ _ _ Hnew) as Hids.
  exists new. split; [|split; [exact Hnew|split; [exact Hitems|]]].
  - unfold get_request_line_items. unfold_M. cbn. do 2 f_equal.
    apply (select_line_items_app rid db' (request_line_items db) new);
      [exact Hitems | | exact Hids].
    eapply Forall_impl; [|exact Hnum]. cbn. intros i Hi. lia.
  - intros rid' Hne. unfold get_request_line_items. unfold_M. cbn.
    do 2 f_equal. now apply (select_line_items_other rid rid' db db' new).
Qed.



Lemma update_request_status_no_fault (rid : Z) (s : string) (db : Db) :
  run (update_request_status rid s) no_fault db = (Ok tt, with_status rid s db).
Proof. reflexivity. Qed.






(** ** Keys *)

Lemma NoDup_map_fresh {A} (f : A -> Z) (l : list A) (x : A) (seq : Z) :
  NoDup (map f l) -> Forall (fun y => f y <= seq) l -> f x = seq + 1 ->
  NoDup (map f (l ++ [x])) /\ Forall (fun y => f y <= seq + 1) (l ++ [x]).
Proof.
  intros Hnd Hle Hx. split.
  - rewrite map_app. cbn [map].
    apply NoDup_app; [exact Hnd | constructor; [intros []|constructor] |].
    intros y Hy [<-|[]]. apply in_map_iff in Hy. destruct Hy as [z [Hz Hin]].
    rewrite Forall_forall in Hle. specialize (Hle z Hin). lia.
  - apply Forall_app. split.
    + eapply Forall_impl; [|exact Hle]. cbn. intros y Hy. lia.
    + constructor; [lia | constructor].
Qed.

Lemma NoDup_fresh {A} (f : A -> Z) (l : list A) (x : A) (seq : Z) :
  NoDup (map f l) -> Forall (fun y => f y <= seq) l -> f x = seq + 1 ->
  NoDup (map f (l ++ [x])).
Proof. intros. now apply (NoDup_map_fresh f l x seq). Qed.

Lemma Forall_fresh {A} (f : A -> Z) (l : list A) (x : A) (seq : Z) :
  NoDup (map f l) -> Forall (fun y => f y <= seq) l -> f x = seq + 1 ->
  Forall (fun y => f y <= seq + 1) (l ++ [x]).
Proof. intros. now apply (NoDup_map_fresh f l x seq). Qed.

Lemma NoDup_map_filter {A B} (f : A -> B) (g : A -> bool) (l : list A) :
  NoDup (map f l) -> NoDup (map f (filter g l)).
Proof.
  induction l as [|x l IH]; intros Hnd; [constructor|].
  cbn [map] in Hnd. inversion Hnd as [|y ys Hnotin Hnd']; subst.
  cbn [filter]. destruct (g x); [|now apply IH].
  cbn [map]. constructor; [|now apply IH].
  intros Hin. apply Hnotin. apply in_map_iff in Hin.
  destruct Hin as [z [Hz Hin]]. apply filter_In in Hin.
  apply in_map_iff. exists z. tauto.
Qed.

Lemma Forall_filter_keep {A} (P : A -> Prop) (g : A -> bool) (l : list A) :
  Forall P l -> Forall P (filter g l).
Proof.
  intros HP. apply Forall_forall. intros x Hx. apply filter_In in Hx.
  rewrite Forall_forall in HP. now apply HP.
Qed.

Lemma map_keeping {A B} (f : A -> B) (g : A -> A) (l : list A) :
  (forall x, f (g x) = f x) -> map f (map g l) = map f l.
Proof. intros Hfg. rewrite map_map. now apply map_ext. Qed.

Lemma Forall_map_keeping {A} (f : A -> Z) (g : A -> A) (l : list A) (seq : Z) :
  (forall x, f (g x) = f x) ->
  Forall (fun x => f x <= seq) l -> Forall (fun x => f x <= seq) (map g l).
Proof.
  intros Hfg Hl. apply Forall_forall. intros y Hy. apply in_map_iff in Hy.
  destruct Hy as [x [<- Hx]]. rewrite Hfg. rewrite Forall_forall in Hl. auto.
Qed.

(** Renaming one material keeps names apart, provided no other material
    carries the new name. *)
Lemma renamed_names_NoDup (k : Z) (new_name : string) (upd : material -> material)
    (l : list material) :
  (forall m, material_id (upd m) = material_id m) ->
  (forall m, name (upd m) = new_name) ->
  NoDup (map material_id l) -> NoDup (map name l) ->
  (forall m, In m l -> material_id m <> k -> name m <> new_name) ->
  NoDup (map name (map (fun m => if material_id m =? k then upd m else m) l)).
Proof.
  intros Hid Hname. induction l as [|m l IH]; intros Hids Hnames Hother;
    [constructor|].
  cbn [map] in Hids, Hnames.
  inversion Hids as [|i ids Hinot Hids']; subst.
  inversion Hnames as [|n ns Hnnot Hnames']; subst.
  cbn [map]. constructor.
  - intros Hin. apply in_map_iff in Hin. destruct Hin as [m' [Hm' Hin]].
    apply in_map_iff in Hin. destruct Hin as [m0 [<- Hm0]].
    assert (Hne : material_id m0 <> material_id m).
    { intros Heq. apply Hinot. rewrite <- Heq. now apply in_map. }
    destruct (material_id m =? k) eqn:Em; destruct (material_id m0 =? k) eqn:E0.
    + apply Z.eqb_eq in Em, E0. congruence.
    + rewrite Hname in Hm'. apply Z.eqb_neq in E0.
      apply (Hother m0); [now right | exact E0 | exact Hm'].
    + rewrite Hname in Hm'. apply Z.eqb_neq in Em.
      apply (Hother m); [now left | exact Em | now symmetry].
    + apply Hnnot. rewrite <- Hm'. now apply in_map.
  - apply IH; auto. intros m' Hm'. apply Hother. now right.
Qed.

Lemma map_if_absent {A} (f : A -> bool) (g : A -> A) (l : list A) :
  existsb f l = false -> map (fun x => if f x then g x else x) l = l.
Proof.
  induction l as [|x l IH]; intros He; [reflexivity|].
  cbn [existsb] in He. apply orb_false_iff in He. destruct He as [Hx Hl].
  cbn [map]. rewrite Hx. now rewrite IH.
Qed.

Ltac keys_open :=
  let d := fresh "d" in
  let Hsql := fresh "Hsql" in
  intros d ? ? [Hmi [Hmn [Hri [Hrs [Hii [His [Hsi Hss]]]]]]] Hsql.

Ltac keys_close :=
  unfold keys_unique, set_materials, set_sales_history, set_material_requests,
    set_request_line_items;
  cbn [materials bom sales_history material_requests request_line_items
       seq_sales_history seq_material_requests seq_request_line_items].

Lemma sql_update_material_keys (mat_id : Z) (n : string) (s : Z) (pr : R)
    (assoc uom : string) (d : Db) (a : unit) (d' : Db) :
  keys_unique d -> sql_update_material mat_id n s pr assoc uom d = Ok (a, d') ->
  keys_unique d'.
Proof.
  revert d a d'. keys_open. unfold sql_update_material in Hsql.
  destruct (existsb (fun m => material_id m =? mat_id) (materials d)) eqn:Ek.
  - destruct (existsb _ (materials d)) eqn:Eo in Hsql; [discriminate|].
    cbn [andb] in Hsql. injection Hsql as <- <-. keys_close.
    repeat split; try assumption.
    + rewrite map_keeping; [exact Hmi|].
      intros m. now destruct (material_id m =? mat_id).
    + apply (renamed_names_NoDup mat_id n
               (fun m => {| material_id := material_id m; name := n; stock := s;
                            price := pr; product_association := assoc;
                            unit_of_measure := uom |})); auto.
      intros m Hm Hid Hn.
      assert (Ht : existsb (fun m0 => negb (material_id m0 =? mat_id)
                                      && String.eqb (name m0) n) (materials d)
                   = true).
      { apply existsb_exists. exists m. split; [exact Hm|].
        apply andb_true_iff. split.
        - apply negb_true_iff. now apply Z.eqb_neq.
        - now apply String.eqb_eq. }
      rewrite Ht in Eo. discriminate.
  - cbn [andb] in Hsql. injection Hsql as <- <-. keys_close.
    rewrite (map_if_absent (fun m => material_id m =? mat_id)); [|exact Ek].
    repeat split; assumption.
Qed.

Lemma sql_delete_material_keys (mat_id : Z) (d : Db) (a : unit) (d' : Db) :
  keys_unique d -> sql_delete_material mat_id d = Ok (a, d') -> keys_unique d'.
Proof.
  revert d a d'. keys_open. unfold sql_delete_material in Hsql.
  destruct (_ && _) in Hsql; [discriminate|]. injection Hsql as <- <-.
  keys_close. repeat split; try assumption; now apply NoDup_map_filter.
Qed.

Lemma sql_add_stock_keys (qty : Z) (n : string) (d : Db) (a : unit) (d' : Db) :
  keys_unique d -> sql_add_stock qty n d = Ok (a, d') -> keys_unique d'.
Proof.
  revert d a d'. keys_open. unfold sql_add_stock in Hsql.
  injection Hsql as <- <-. keys_close.
  repeat split; try assumption;
    (rewrite map_keeping; [assumption|]);
    intros m; now destruct (String.eqb (name m) n).
Qed.

Lemma sql_insert_sales_keys (row : string * Z * Z * Z * Z) (d : Db) (a : unit)
    (d' : Db) :
  keys_unique d -> sql_insert_sales row d = Ok (a, d') -> keys_unique d'.
Proof.
  revert d a d'. keys_open. rewrite sql_insert_sales_total in Hsql.
  injection Hsql as <- <-. unfold insert_sales. keys_close.
  repeat split; try assumption;
    [ eapply NoDup_fresh; [eassumption | eassumption | reflexivity]
    | eapply Forall_fresh; [eassumption | eassumption | reflexivity] ].
Qed.

Lemma sql_delete_historical_keys (d : Db) (a : unit) (d' : Db) :
  keys_unique d -> sql_delete_historical d = Ok (a, d') -> keys_unique d'.
Proof.
  revert d a d'. keys_open. unfold sql_delete_historical in Hsql.
  injection Hsql as <- <-. keys_close.
  repeat split; try assumption;
    [now apply NoDup_map_filter | now apply Forall_filter_keep].
Qed.

Lemma sql_insert_material_request_keys (e : Z) (n pr : string) (q : Z) (c : R)
    (now : string) (d : Db) (a : Z) (d' : Db) :
  keys_unique d -> sql_insert_material_request e n pr q c now d = Ok (a, d') ->
  keys_unique d'.
Proof.
  revert d a d'. keys_open. unfold sql_insert_material_request in Hsql.
  injection Hsql as <- <-. keys_close.
  repeat split; try assumption;
    [ eapply NoDup_fresh; [eassumption | eassumption | reflexivity]
    | eapply Forall_fresh; [eassumption | eassumption | reflexivity] ].
Qed.

Lemma sql_insert_line_item_keys (row : Z * string * Z * string * R) (d : Db)
    (a : unit) (d' : Db) :
  keys_unique d -> sql_insert_line_item row d = Ok (a, d') -> keys_unique d'.
Proof.
  revert d a d'. keys_open. rewrite sql_insert_line_item_total in Hsql.
  injection Hsql as <- <-. unfold insert_line_item. keys_close.
  repeat split; try assumption;
    [ eapply NoDup_fresh; [eassumption | eassumption | reflexivity]
    | eapply Forall_fresh; [eassumption | eassumption | reflexivity] ].
Qed.

Lemma sql_update_status_keys (rid : Z) (s : string) (d : Db) (a : unit) (d' : Db) :
  keys_unique d -> sql_update_status rid s d = Ok (a, d') -> keys_unique d'.
Proof.
  revert d a d'. keys_open. unfold sql_update_status in Hsql.
  injection Hsql as <- <-. keys_close.
  repeat split; try assumption.
  - rewrite map_keeping; [assumption|].
    intros r. now destruct (request_id r =? rid).
  - apply Forall_map_keeping; [|assumption].
    intros r. now destruct (request_id r =? rid).
Qed.

Lemma sql_delete_material_request_keys (rid : Z) (d : Db) (a : unit) (d' : Db) :
  keys_unique d -> sql_delete_material_request rid d = Ok (a, d') -> keys_unique d'.
Proof.
  revert d a d'. keys_open. unfold sql_delete_material_request in Hsql.
  injection Hsql as <- <-. keys_close.
  repeat split; try assumption;
    [now apply NoDup_map_filter | now apply Forall_filter_keep].
Qed.

Lemma sql_pragma_keys (d : Db) (a : unit) (d' : Db) :
  keys_unique d -> sql_pragma_foreign_keys_on d = Ok (a, d') -> keys_unique d'.
Proof. intros Hd [= _ <-]. exact Hd. Qed.

Lemma exec_op_keys_unique (o : op) (p : fault_plan) (db : Db) :
  keys_unique db -> keys_unique (exec_op o p db).
Proof.
  intros Hdb. destruct o; cbn [exec_op]; (apply preserves_run; [|exact Hdb]).
  - unfold submit_material_request, executemany. repeat preserves_step.
    + apply preserves_execute. intros d ? d'.
      apply sql_insert_material_request_keys.
    + apply preserves_execute. intros d ? d'. apply sql_insert_line_item_keys.
  - unfold update_request_status. repeat preserves_step.
    apply preserves_execute. intros d ? d'. apply sql_update_status_keys.
  - unfold delete_material_request. repeat preserves_step.
    apply preserves_execute. intros d ? d'. apply sql_delete_material_request_keys.
  - unfold receive_material_request_stock, get_request_line_items.
    repeat preserves_step.
    + apply preserves_execute. intros d ? d'. apply sql_add_stock_keys.
    + apply preserves_execute. intros d ? d'. apply sql_update_status_keys.
  - unfold update_material. repeat preserves_step.
    apply preserves_execute. intros d ? d'. apply sql_update_material_keys.
  - unfold delete_material. repeat preserves_step.
    + apply preserves_execute. intros d ? d'. apply sql_pragma_keys.
    + apply preserves_execute. intros d ? d'. apply sql_delete_material_keys.
  - unfold add_sales_entry. repeat preserves_step.
    apply preserves_execute. intros d ? d'. apply sql_insert_sales_keys.
  - unfold import_sales_from_csv, executemany. repeat preserves_step.
    + apply preserves_execute. intros d ? d'. apply sql_delete_historical_keys.
    + apply preserves_execute. intros d ? d'. apply sql_insert_sales_keys.
Qed.

(** X5.  The keys the schema declares hold in the model without being
    assumed per statement: if material ids, material names, request ids,
    line-item ids and sales ids are unique (and no id is ahead of its
    counter), they still are after any history of data-access calls,
    whichever of them fail and wherever. *)
Theorem keys_stay_unique (h : list (op * fault_plan)) (db : Db) :
  keys_unique db -> keys_unique (exec_ops h db).
Proof.
  revert db. induction h as [|[o p] h IH]; intros db Hdb; [exact Hdb|].
  apply IH. now apply exec_op_keys_unique.
Qed.

(** ** Quantities and stock *)

Lemma quantities_positive_frame (d d' : Db) :
  request_line_items d' = request_line_items d ->
  seq_material_requests d' = seq_material_requests d ->
  quantities_positive d -> quantities_positive d'.
Proof. unfold quantities_positive. intros -> _. auto. Qed.

Lemma exec_op_quantities_positive (o : op) (p : fault_plan) (db : Db) :
  quantities_positive db -> quantities_positive (exec_op o p db).
Proof.
  intros Hdb. pose proof quantities_positive_frame as Hframe.
  destruct o; cbn [exec_op].
  - destruct (submit_all_or_nothing emp_id emp_name product prod_quantity
                cost_total line_items now p db)
      as [[ex ->]|[rid [db' [-> Hdone]]]]; [exact Hdb|].
    destruct Hdone as [_ [_ [_ [[new [Hitems [_ Hnew]]] _]]]].
    cbn [snd]. unfold quantities_positive. rewrite Hitems.
    apply Forall_app. split; [exact Hdb|].
    clear Hitems. induction Hnew as [|it row its rows Hrow _ IH]; constructor;
      [|exact IH].
    now destruct Hrow as [_ [_ [_ [Hpos _]]]].
  - apply preserves_run; [now apply update_request_status_frame | exact Hdb].
  - apply preserves_run; [now apply delete_material_request_frame | exact Hdb].
  - apply preserves_run; [now apply receive_material_request_stock_frame | exact Hdb].
  - apply preserves_run; [now apply update_material_frame | exact Hdb].
  - apply preserves_run; [now apply delete_material_frame | exact Hdb].
  - apply preserves_run; [now apply add_sales_entry_frame | exact Hdb].
  - apply preserves_run; [now apply import_sales_from_csv_frame | exact Hdb].
Qed.

(** X6.  Only shortfalls are stored: if every stored line item asks for a
    positive quantity, this is still so after any history of data-access
    calls, whatever dicts the submissions are given and whichever calls
    fail. *)
Theorem stored_quantities_stay_positive (h : list (op * fault_plan)) (db : Db) :
  quantities_positive db -> quantities_positive (exec_ops h db).
Proof.
  revert db. induction h as [|[o p] h IH]; intros db Hdb; [exact Hdb|].
  apply IH. now apply exec_op_quantities_positive.
Qed.

Lemma sum_Z_nonneg (l : list Z) : Forall (fun x => 0 < x) l -> 0 <= sum_Z l.
Proof.
  induction 1 as [|x l Hx _ IH]; unfold sum_Z in *; cbn [fold_right]; lia.
Qed.

Lemma received_quantity_nonneg (items : list request_line_item) (n : string) :
  Forall (fun i => 0 < quantity_needed i) items ->
  0 <= received_quantity items n.
Proof.
  intros Hpos. unfold received_quantity. apply sum_Z_nonneg.
  apply Forall_forall. intros x Hx. apply in_map_iff in Hx.
  destruct Hx as [i [<- Hi]]. apply filter_In in Hi.
  rewrite Forall_forall in Hpos. now apply Hpos.
Qed.

(** X7.  A receipt never lowers a stock.  When every stored line item asks
    for a positive quantity, a receipt that returns leaves every material
    row in place, with the same id, name, price and unit, and a stock at
    least as high as before. *)
Theorem receipt_never_lowers_stock (rid : Z) (p : fault_plan) (db db' : Db) :
  quantities_positive db ->
  run (receive_material_request_stock rid) p db = (Ok tt, db') ->
  Forall2 (fun m m' =>
             material_id m' = material_id m /\ name m' = name m
             /\ price m' = price m /\ unit_of_measure m' = unit_of_measure m
             /\ stock m <= stock m')
          (materials db) (materials db').
Proof.
  intros Hpos Hrun.
  destruct (receive_all_or_nothing rid p db) as [[e He]|[_ Hok]];
    [rewrite He in Hrun; discriminate|].
  rewrite Hok in Hrun. injection Hrun as <-.
  cbn [received materials set_material_requests set_materials].
  unfold restocked. apply Forall2_map_right. intros m.
  cbn [set_stock material_id name price unit_of_measure stock].
  repeat split.
  assert (0 <= received_quantity (select_request_line_items rid db) (name m)).
  { apply received_quantity_nonneg. unfold select_request_line_items.
    now apply Forall_filter_keep. }
  lia.
Qed.

(** ** Sales history *)

Section SalesFrame.

(** A property that only looks at the sales history. *)
Variable P : Db -> Prop.
Hypothesis P_sales :
  forall d d', sales_history d' = sales_history d -> P d -> P d'.

Ltac sales_sql :=
  let d := fresh "d" in
  let Hd := fresh "Hd" in
  let Hsql := fresh "Hsql" in
  apply preserves_execute; intros d ? ? Hd Hsql;
  try rewrite sql_insert_line_item_total in Hsql;
  unfold sql_insert_material_request, sql_update_status,
    sql_delete_material_request, sql_add_stock, sql_update_material,
    sql_pragma_foreign_keys_on, sql_delete_material in Hsql;
  repeat match type of Hsql with
         | (if ?b then _ else _) = _ => destruct b
         end;
  try discriminate;
  injection Hsql as <- <-;
  apply (P_sales d); [reflexivity | exact Hd].

Lemma other_ops_keep_sales (o : op) (p : fault_plan) (db : Db) :
  match o with
  | AddSalesEntry _ _ _ _ | ImportSalesFromCsv _ => True
  | _ => P db -> P (exec_op o p db)
  end.
Proof.
  destruct o; cbn [exec_op]; try exact I; intros Hdb;
    (apply preserves_run; [|exact Hdb]).
  - unfold submit_material_request, executemany.
    repeat preserves_step; sales_sql.
  - unfold update_request_status. repeat preserves_step; sales_sql.
  - unfold delete_material_request. repeat preserves_step; sales_sql.
  - unfold receive_material_request_stock, get_request_line_items.
    repeat preserves_step; sales_sql.
  - unfold update_material. repeat preserves_step; sales_sql.
  - unfold delete_material. repeat preserves_step; sales_sql.
Qed.

End SalesFrame.

Lemma flags_binary_sales (d d' : Db) :
  sales_history d' = sales_history d -> flags_binary d -> flags_binary d'.
Proof. unfold flags_binary. intros ->. auto. Qed.

Lemma add_sales_entry_all_or_nothing (product : string) (y m q : Z)
    (p : fault_plan) (db : Db) :
  (exists e, run (add_sales_entry product y m q) p db = (Raise e, db))
  \/ run (add_sales_entry product y m q) p db
     = (Ok tt, insert_sales (product, y, m, q, 0) db).
Proof.
  unfold add_sales_entry. unfold_M. cbn [disk view clock fst snd sql_insert_sales].
  destruct (p 0%nat); [left; eexists; reflexivity|].
  cbn [disk view clock fst snd].
  destruct (p 1%nat); [left; eexists; reflexivity|].
  right. reflexivity.
Qed.

Lemma exec_op_flags_binary (o : op) (p : fault_plan) (db : Db) :
  flags_binary db -> flags_binary (exec_op o p db).
Proof.
  intros Hdb.
  pose proof (other_ops_keep_sales flags_binary flags_binary_sales o p db) as Hother.
  destruct o; cbn [exec_op]; try (now apply Hother).
  - destruct (add_sales_entry_all_or_nothing product y m q p db)
      as [[e ->]| ->]; [exact Hdb|].
    cbn. unfold flags_binary. cbn. apply Forall_app. split; [exact Hdb|].
    constructor; [now left | constructor].
  - destruct (import_all_or_nothing csv p db) as [[e ->]|[df [_ ->]]];
      [exact Hdb|].
    cbn. unfold flags_binary. cbn. apply Forall_app. split.
    + now apply Forall_filter_keep.
    + eapply Forall_impl;
        [|apply (numbered_sales_flag _ (final_sales_historical df))].
      cbn. intros s ->. now right.
Qed.

Lemma filter_partition {A} (f : A -> bool) (l : list A) :
  Permutation l (filter f l ++ filter (fun x => negb (f x)) l).
Proof.
  induction l as [|x l IH]; [constructor|].
  cbn [filter]. destruct (f x); cbn [negb app].
  - now apply perm_skip.
  - now apply Permutation_cons_app.
Qed.

(** X8.  Every sales row is either historical or current: if all flags are
    0 or 1 they still are after any history of data-access calls, and then
    the rows returned for "historical" and for "current" are together
    exactly the rows returned for "all", none lost and none twice. *)
Theorem sales_are_historical_or_current (h : list (op * fault_plan)) (db : Db) :
  flags_binary db ->
  flags_binary (exec_ops h db)
  /\ Permutation
       (select_sales_history None (exec_ops h db))
       (select_sales_history (Some true) (exec_ops h db)
          ++ select_sales_history (Some false) (exec_ops h db)).
Proof.
  intros Hdb.
  assert (Hinv : flags_binary (exec_ops h db)).
  { revert db Hdb. induction h as [|[o p] h IH]; intros db Hdb; [exact Hdb|].
    apply IH. now apply exec_op_flags_binary. }
  split; [exact Hinv|].
  unfold select_sales_history.
  replace (filter (fun s => is_historical_csv s =? 0) (sales_history (exec_ops h db)))
    with (filter (fun s => negb (is_historical_csv s =? 1))
                 (sales_history (exec_ops h db))).
  - apply filter_partition.
  - apply filter_ext_in. intros s Hs.
    unfold flags_binary in Hinv. rewrite Forall_forall in Hinv.
    destruct (Hinv s Hs) as [-> | ->]; reflexivity.
Qed.

Lemma numbered_sales_content (rows : list (string * Z * Z * Z * Z)) :
  forall seq, map sales_content (numbered_sales seq rows) = rows.
Proof.
  induction rows as [|[[[[product y] m] q] flag] rows IH]; intros seq;
    [reflexivity|].
  cbn [numbered_sales map]. now rewrite IH.
Qed.

Lemma imported_historical (df : list csv_row) (db : Db) :
  select_sales_history (Some true) (imported df db)
  = numbered_sales (seq_sales_history db) (final_sales df).
Proof.
  pose proof (numbered_sales_flag _ (final_sales_historical df)
                (seq_sales_history db)) as Hflag.
  unfold imported, select_sales_history. cbn.
  rewrite filter_app, filter_filter.
  rewrite (filter_none (fun s => negb (is_historical_csv s =? 1)
                                 && (is_historical_csv s =? 1))).
  - cbn. apply filter_all. eapply Forall_impl; [|exact Hflag].
    cbn. intros s ->. reflexivity.
  - apply Forall_forall. intros s _. now destruct (is_historical_csv s =? 1).
Qed.

Lemma imported_current (df : list csv_row) (db : Db) :
  select_sales_history (Some false) (imported df db)
  = select_sales_history (Some false) db.
Proof.
  pose proof (numbered_sales_flag _ (final_sales_historical df)
                (seq_sales_history db)) as Hflag.
  unfold imported, select_sales_history. cbn.
  rewrite filter_app, filter_filter.
  rewrite (filter_none _ (numbered_sales _ _)).
  - rewrite app_nil_r. apply filter_ext. intros s.
    destruct (is_historical_csv s =? 0) eqn:E0; [|apply andb_false_r].
    apply Z.eqb_eq in E0. rewrite E0. reflexivity.
  - eapply Forall_impl; [|exact Hflag]. cbn. intros s ->. reflexivity.
Qed.

(** X9.  Re-import is wholesale and idempotent.  Whatever was imported
    before, after an import the historical rows carry, ids aside, exactly
    the groups computed from the CSV just read: importing [df1] and then
    [df2] leaves the content of importing [df2] alone, importing the same
    CSV twice the content of importing it once, and the current rows are
    untouched throughout. *)
Theorem reimport_replaces_wholesale (df1 df2 : list csv_row) (db : Db) :
  exists db1 db2 : Db,
    run (import_sales_from_csv (Ok df1)) no_fault db = (Ok tt, db1)
    /\ run (import_sales_from_csv (Ok df2)) no_fault db1 = (Ok tt, db2)
    /\ map sales_content (select_sales_history (Some true) db1) = final_sales df1
    /\ map sales_content (select_sales_history (Some true) db2) = final_sales df2
    /\ map sales_content (select_sales_history (Some true) db2)
       = map sales_content
           (select_sales_history (Some true)
              (snd (run (import_sales_from_csv (Ok df2)) no_fault db)))
    /\ select_sales_history (Some false) db2 = select_sales_history (Some false) db.
Proof.
  exists (imported df1 db), (imported df2 (imported df1 db)).
  split; [apply import_no_fault|]. split; [apply import_no_fault|].
  rewrite import_no_fault. cbn [snd].
  rewrite !imported_historical, !numbered_sales_content, !imported_current.
  repeat split.
Qed.

(** X10.  A sales entry added by hand is current and outlives imports: it
    is appended under a new id with flag 0, is returned by the "current"
    query and not by the "historical" one, and an import made afterwards
    leaves it, and every other current row, in place. *)
Theorem added_sales_entry_survives_import (product : string) (y m q : Z)
    (df : list csv_row) (db : Db) :
  exists (db1 db2 : Db) (row : sales_row),
    run (add_sales_entry product y m q) no_fault db = (Ok tt, db1)
    /\ sales_content row = (product, y, m, q, 0)
    /\ sales_id row = seq_sales_history db + 1
    /\ select_sales_history (Some false) db1
       = select_sales_history (Some false) db ++ [row]
    /\ select_sales_history (Some true) db1 = select_sales_history (Some true) db
    /\ run (import_sales_from_csv (Ok df)) no_fault db1 = (Ok tt, db2)
    /\ select_sales_history (Some false) db2
       = select_sales_history (Some false) db ++ [row].
Proof.
  exists (insert_sales (product, y, m, q, 0) db),
         (imported df (insert_sales (product, y, m, q, 0) db)),
         {| sales_id := seq_sales_history db + 1; sales_product_name := product;
            year := y; month := m; quantity := q; is_historical_csv := 0 |}.
  split; [reflexivity|]. split; [reflexivity|]. split; [reflexivity|].
  assert (Hcur : select_sales_history (Some false)
                   (insert_sales (product, y, m, q, 0) db)
                 = select_sales_history (Some false) db
                     ++ [ {| sales_id := seq_sales_history db + 1;
                             sales_product_name := product; year := y;
                             month := m; quantity := q;
                             is_historical_csv := 0 |} ]).
  { unfold select_sales_history, insert_sales. cbn. rewrite filter_app.
    reflexivity. }
  split; [exact Hcur|]. split.
  - unfold select_sales_history, insert_sales. cbn. rewrite filter_app.
    cbn. apply app_nil_r.
  - split; [apply import_no_fault|]. now rewrite imported_current.
Qed.




(** ** What a consumption report depends on *)

Lemma full_bom_join_labels (b : bom_row) (ms : list material) :
  map (fun m => {| fb_bom_id := bom_id b;
                   fb_product_name := product_id b;
                   fb_material_name := name m;
                   fb_quantity_per_unit := quantity_per_unit b;
                   fb_unit_of_measure := unit_of_measure m |})
      (filter (fun m => material_id m =? bom_material_id b) ms)
  = map (fun t : Z * string * string =>
           {| fb_bom_id := bom_id b;
              fb_product_name := product_id b;
              fb_material_name := snd (fst t);
              fb_quantity_per_unit := quantity_per_unit b;
              fb_unit_of_measure := snd t |})
        (filter (fun t : Z * string * string => fst (fst t) =? bom_material_id b)
                (map material_label ms)).
Proof.
  induction ms as [|m ms IH]; [reflexivity|].
  cbn [map filter material_label fst snd].
  destruct (material_id m =? bom_material_id b); cbn [map]; now rewrite IH.
Qed.

Lemma select_full_bom_labels (db db' : Db) :
  bom db' = bom db ->
  map material_label (materials db') = map material_label (materials db) ->
  select_full_bom db' = select_full_bom db.
Proof.
  intros Hbom Hlab. unfold select_full_bom. rewrite Hbom. f_equal.
  apply flat_map_ext. intros b. now rewrite !full_bom_join_labels, Hlab.
Qed.

Lemma same_report_data_report (y m : Z) (db db' : Db) :
  same_report_data db db' ->
  fst (run (generate_consumption_report y m) no_fault db')
  = fst (run (generate_consumption_report y m) no_fault db).
Proof.
  intros [Hsales [Hbom Hlab]]. rewrite !report_no_fault. cbn [fst].
  now rewrite Hsales, (select_full_bom_labels db db' Hbom Hlab).
Qed.

Lemma same_report_data_step (db : Db) (d d' : Db) :
  sales_history d' = sales_history d -> bom d' = bom d ->
  map material_label (materials d') = map material_label (materials d) ->
  same_report_data db d -> same_report_data db d'.
Proof.
  intros Hs Hb Hm [Hsales [Hbom Hlab]]. unfold same_report_data.
  unfold select_sales_history in *. rewrite Hs, Hb, Hm. auto.
Qed.

Ltac report_sql db :=
  let d := fresh "d" in
  let Hd := fresh "Hd" in
  let Hsql := fresh "Hsql" in
  apply preserves_execute; intros d ? ? Hd Hsql;
  try rewrite sql_insert_line_item_total in Hsql;
  unfold sql_insert_material_request, sql_update_status,
    sql_delete_material_request, sql_add_stock in Hsql;
  injection Hsql as <- <-;
  apply (same_report_data_step db d); [reflexivity | reflexivity | | exact Hd].

(** X12.  A consumption report depends on the current sales, the BOM and
    the names and units of the materials, and on nothing else.  Submitting,
    approving, rejecting, deleting or receiving a request, and importing
    historical sales, whether the call succeeds or fails midway, leave the
    report of every period exactly as it was. *)
Theorem consumption_report_unaffected (o : op) (p : fault_plan) (y m : Z)
    (db : Db) :
  match o with
  | UpdateMaterial _ _ _ _ _ _ | DeleteMaterial _ | AddSalesEntry _ _ _ _ => True
  | _ =>
      fst (run (generate_consumption_report y m) no_fault (exec_op o p db))
      = fst (run (generate_consumption_report y m) no_fault db)
  end.
Proof.
  assert (Hrefl : same_report_data db db) by (repeat split).
  destruct o; cbn [exec_op]; try exact I; apply same_report_data_report.
  - apply (preserves_run (same_report_data db)); [|exact Hrefl].
    unfold submit_material_request, executemany.
    repeat preserves_step; report_sql db; reflexivity.
  - apply (preserves_run (same_report_data db)); [|exact Hrefl].
    unfold update_request_status. repeat preserves_step; report_sql db.
    reflexivity.
  - apply (preserves_run (same_report_data db)); [|exact Hrefl].
    unfold delete_material_request. repeat preserves_step; report_sql db.
    reflexivity.
  - apply (preserves_run (same_report_data db)); [|exact Hrefl].
    unfold receive_material_request_stock, get_request_line_items.
    repeat preserves_step; report_sql db; [|reflexivity].
    cbn [materials set_materials]. rewrite map_map. apply map_ext.
    intros m0. now destruct (String.eqb (name m0) (material_name x)).
  - destruct (import_all_or_nothing csv p db) as [[e ->]|[df [_ ->]]];
      [exact Hrefl|].
    cbn [snd]. split; [apply imported_current | split; reflexivity].
Qed.

(** ** Edge behaviour of the single-statement operations *)

Lemma set_material_requests_same (db : Db) :
  set_material_requests (material_requests db) (seq_material_requests db) db = db.
Proof. now destruct db. Qed.

Lemma set_materials_same (db : Db) : set_materials (materials db) db = db.
Proof. now destruct db. Qed.

Lemma with_status_twice (rid : Z) (s1 s2 : string) (db : Db) :
  with_status rid s2 (with_status rid s1 db) = with_status rid s2 db.
Proof.
  unfold with_status, set_material_requests.
  cbn [materials bom sales_history material_requests request_line_items
       seq_sales_history seq_material_requests seq_request_line_items].
  f_equal. rewrite map_map. apply map_ext. intros r.
  destruct (request_id r =? rid) eqn:E; cbn [request_id set_status]; rewrite E;
    reflexivity.
Qed.

(** X13.  Status updates on the edge.  For a request id that no stored
    request carries the update still returns normally and changes nothing:
    there is no "not found".  Two updates in a row leave what the second
    alone would have left, and an update over a status the request already
    has changes nothing. *)
Theorem update_request_status_edges (rid : Z) (s1 s2 : string) (db : Db) :
  ((forall r, In r (material_requests db) -> request_id r <> rid) ->
   run (update_request_status rid s1) no_fault db = (Ok tt, db))
  /\ (exists db1 db2,
        run (update_request_status rid s1) no_fault db = (Ok tt, db1)
        /\ run (update_request_status rid s2) no_fault db1 = (Ok tt, db2)
        /\ run (update_request_status rid s2) no_fault db = (Ok tt, db2))
  /\ ((forall r, In r (material_requests db) -> request_id r = rid ->
                 status r = s1) ->
      run (update_request_status rid s1) no_fault db = (Ok tt, db)).
Proof.
  split; [|split].
  - intros Hnone. rewrite update_request_status_no_fault. f_equal.
    unfold with_status.
    rewrite (map_if_absent (fun r => request_id r =? rid)).
    + apply set_material_requests_same.
    + apply existsb_false_forall. intros r Hr. apply Z.eqb_neq. now apply Hnone.
  - exists (with_status rid s1 db), (with_status rid s2 db).
    rewrite !update_request_status_no_fault, with_status_twice. repeat split.
  - intros Hsame. rewrite update_request_status_no_fault. f_equal.
    unfold with_status.
    replace (map _ (material_requests db)) with (material_requests db);
      [apply set_material_requests_same|].
    rewrite <- (map_id (material_requests db)) at 1. apply map_ext_in.
    intros r Hr. destruct (request_id r =? rid) eqn:E; [|reflexivity].
    apply Z.eqb_eq in E. specialize (Hsame r Hr E).
    destruct r; cbn in *. now subst.
Qed.

Lemma update_material_all_or_nothing (mat_id : Z) (n : string) (s : Z) (pr : R)
    (assoc uom : string) (p : fault_plan) (db : Db) :
  (exists e, run (update_material mat_id n s pr assoc uom) p db = (Raise e, db))
  \/ run (update_material mat_id n s pr assoc uom) p db
     = (Ok tt, with_material mat_id n s pr assoc uom db).
Proof.
  unfold update_material. unfold_M. cbn [disk view clock fst snd].
  destruct (p 0%nat); [left; eexists; reflexivity|].
  unfold sql_update_material.
  destruct (_ && _); [left; eexists; reflexivity|].
  cbn [disk view clock fst snd].
  destruct (p 1%nat); [left; eexists; reflexivity|].
  right. reflexivity.
Qed.

(** X14.  Saving a material on the edge.  Giving a stored material a name
    that another material already bears raises the integrity error
    "UNIQUE constraint failed: materials.name" and changes nothing.  When
    no other material bears the name (keeping its own name included) the
    update succeeds, rewrites the rows with that id and no other row, and
    keeps the id.  For an id that no material carries it succeeds and
    changes nothing. *)
Theorem update_material_edges (mat_id : Z) (n : string) (s : Z) (pr : R)
    (assoc uom : string) (db : Db) :
  ((exists m, In m (materials db) /\ material_id m = mat_id) ->
   (exists m', In m' (materials db) /\ material_id m' <> mat_id /\ name m' = n) ->
   run (update_material mat_id n s pr assoc uom) no_fault db
   = (Raise (IntegrityError "UNIQUE constraint failed: materials.name"), db))
  /\ ((forall m', In m' (materials db) -> material_id m' <> mat_id -> name m' <> n) ->
      exists db',
        run (update_material mat_id n s pr assoc uom) no_fault db = (Ok tt, db')
        /\ Forall2 (fun m m' =>
                      material_id m' = material_id m
                      /\ (material_id m = mat_id ->
                          name m' = n /\ stock m' = s /\ price m' = pr
                          /\ product_association m' = assoc
                          /\ unit_of_measure m' = uom)
                      /\ (material_id m <> mat_id -> m' = m))
                   (materials db) (materials db'))
  /\ ((forall m, In m (materials db) -> material_id m <> mat_id) ->
      run (update_material mat_id n s pr assoc uom) no_fault db = (Ok tt, db)).
Proof.
  split; [|split].
  - intros [m [Hm Hid]] [m' [Hm' [Hid' Hn]]].
    unfold update_material. unfold_M. cbn [disk view clock fst snd no_fault].
    unfold sql_update_material.
    replace (existsb (fun m0 => material_id m0 =? mat_id) (materials db)) with true.
    + replace (existsb _ (materials db)) with true; [reflexivity|].
      symmetry. apply existsb_exists. exists m'. split; [exact Hm'|].
      apply andb_true_iff. split; [apply negb_true_iff; now apply Z.eqb_neq|].
      now apply String.eqb_eq.
    + symmetry. apply existsb_exists. exists m. split; [exact Hm|].
      now apply Z.eqb_eq.
  - intros Hfree. exists (with_material mat_id n s pr assoc uom db). split.
    + unfold update_material. unfold_M. cbn [disk view clock fst snd no_fault].
      unfold sql_update_material.
      replace (existsb (fun m => negb (material_id m =? mat_id)
                                 && String.eqb (name m) n) (materials db))
        with false; [rewrite andb_false_r; reflexivity|].
      symmetry. apply existsb_false_forall. intros m Hm.
      destruct (material_id m =? mat_id) eqn:E; [reflexivity|].
      cbn. apply String.eqb_neq. apply Hfree; [exact Hm|]. now apply Z.eqb_neq.
    + cbn. apply Forall2_map_right. intros m.
      destruct (material_id m =? mat_id) eqn:E.
      * apply Z.eqb_eq in E. cbn. repeat split; try reflexivity. contradiction.
      * apply Z.eqb_neq in E. repeat split; try reflexivity; contradiction.
  - intros Hnone.
    unfold update_material. unfold_M. cbn [disk view clock fst snd no_fault].
    unfold sql_update_material.
    assert (He : existsb (fun m => material_id m =? mat_id) (materials db) = false).
    { apply existsb_false_forall. intros m Hm. apply Z.eqb_neq. now apply Hnone. }
    rewrite He. cbn [andb].
    rewrite (map_if_absent (fun m => material_id m =? mat_id)); [|exact He].
    cbn. now rewrite set_materials_same.
Qed.

Lemma delete_material_request_all_or_nothing (rid : Z) (p : fault_plan) (db : Db) :
  (exists e, run (delete_material_request rid) p db = (Raise e, db))
  \/ run (delete_material_request rid) p db = (Ok tt, without_request rid db).
Proof.
  unfold delete_material_request. unfold_M.
  cbn [disk view clock fst snd sql_delete_material_request].
  destruct (p 0%nat); [left; eexists; reflexivity|].
  cbn [disk view clock fst snd].
  destruct (p 1%nat); [left; eexists; reflexivity|].
  right. reflexivity.
Qed.


(** ** Request numbers *)

Lemma counter_frame (k : Z) (d d' : Db) :
  request_line_items d' = request_line_items d ->
  seq_material_requests d' = seq_material_requests d ->
  k <= seq_material_requests d -> k <= seq_material_requests d'.
Proof. intros _ ->. auto. Qed.

Lemma exec_op_counter (k : Z) (o : op) (p : fault_plan) (db : Db) :
  k <= seq_material_requests db -> k <= seq_material_requests (exec_op o p db).
Proof.
  intros Hdb. pose proof (counter_frame k) as Hframe.
  destruct o; cbn [exec_op].
  - destruct (submit_all_or_nothing emp_id emp_name product prod_quantity
                cost_total line_items now p db)
      as [[ex ->]|[rid [db' [-> Hdone]]]]; [exact Hdb|].
    destruct Hdone as [Hrid [_ [Hseq _]]]. cbn [snd]. lia.
  - apply (preserves_run (fun d => k <= seq_material_requests d));
      [now apply update_request_status_frame | exact Hdb].
  - apply (preserves_run (fun d => k <= seq_material_requests d));
      [now apply delete_material_request_frame | exact Hdb].
  - apply (preserves_run (fun d => k <= seq_material_requests d));
      [now apply receive_material_request_stock_frame | exact Hdb].
  - apply (preserves_run (fun d => k <= seq_material_requests d));
      [now apply update_material_frame | exact Hdb].
  - apply (preserves_run (fun d => k <= seq_material_requests d));
      [now apply delete_material_frame | exact Hdb].
  - apply (preserves_run (fun d => k <= seq_material_requests d));
      [now apply add_sales_entry_frame | exact Hdb].
  - apply (preserves_run (fun d => k <= seq_material_requests d));
      [now apply import_sales_from_csv_frame | exact Hdb].
Qed.

Lemma exec_ops_counter (k : Z) (h : list (op * fault_plan)) :
  forall db, k <= seq_material_requests db ->
             k <= seq_material_requests (exec_ops h db).
Proof.
  induction h as [|[o p] h IH]; intros db Hdb; [exact Hdb|].
  apply IH. now apply exec_op_counter.
Qed.

(** X16.  A request number is never handed out twice.  If a submission
    returned [rid], then after any further history of data-access calls,
    deletions of requests included, every later submission that succeeds
    returns a number greater than [rid]. *)
Theorem request_ids_never_reused
    (e1 : Z) (n1 pr1 : string) (q1 : Z) (c1 : R) (l1 : list line_item) (t1 : string)
    (e2 : Z) (n2 pr2 : string) (q2 : Z) (c2 : R) (l2 : list line_item) (t2 : string)
    (p1 p2 : fault_plan) (h : list (op * fault_plan))
    (db db1 db2 : Db) (rid rid' : Z) :
  run (submit_material_request e1 n1 pr1 q1 c1 l1 t1) p1 db = (Ok rid, db1) ->
  run (submit_material_request e2 n2 pr2 q2 c2 l2 t2) p2 (exec_ops h db1)
  = (Ok rid', db2) ->
  rid < rid'.
Proof.
  intros Hfirst Hsecond.
  destruct (submit_all_or_nothing e1 n1 pr1 q1 c1 l1 t1 p1 db)
    as [[ex Hex]|[r1 [d1 [Hok1 Hdone1]]]];
    [rewrite Hex in Hfirst; discriminate|].
  rewrite Hok1 in Hfirst. injection Hfirst as -> ->.
  destruct Hdone1 as [_ [_ [Hseq1 _]]].
  destruct (submit_all_or_nothing e2 n2 pr2 q2 c2 l2 t2 p2 (exec_ops h db1))
    as [[ex Hex]|[r2 [d2 [Hok2 Hdone2]]]];
    [rewrite Hex in Hsecond; discriminate|].
  rewrite Hok2 in Hsecond. injection Hsecond as -> ->.
  destruct Hdone2 as [-> _].
  assert (rid <= seq_material_requests (exec_ops h db1))
    by (apply exec_ops_counter; lia).
  lia.
Qed.

(** ** The employee dashboard around the costing tab *)

(** X17.  What the product combo offers.  Refreshing the product list
    never raises and never writes, and the list is never empty.  When the
    read fails it is the single entry "(Error)".  When the sales history
    is empty it is the single placeholder "(No products found)", for which
    the costing only shows its warning.  Otherwise it holds each product
    name of the sales history, historical or current, exactly once. *)
Theorem refresh_product_list_offers (p : fault_plan) (db : Db) :
  exists l : list string,
    run refresh_product_list p db = (Ok l, db)
    /\ l <> []
    /\ (p 0%nat = true -> l = ["(Error)"])
    /\ (p 0%nat = false -> sales_history db = [] ->
        l = ["(No products found)"]
        /\ forall q,
             run (calculate_material_cost "(No products found)" q) no_fault db
             = (Ok (Some (MessageBox Warning "Error"
                            "No products available to calculate."),
                    clear_cost_calculator), db))
    /\ (p 0%nat = false -> sales_history db <> [] ->
        NoDup l
        /\ forall x, In x l
                     <-> exists s, In s (sales_history db)
                                   /\ sales_product_name s = x).
Proof.
  unfold refresh_product_list, get_sales_history. unfold_M.
  cbn [disk view clock fst snd select_sales_history].
  destruct (p 0%nat).
  - eexists. split; [reflexivity|]. split; [discriminate|].
    split; [reflexivity|]. split; intros Hc; discriminate.
  - destruct (sales_history db) as [|s0 sales] eqn:E.
    + eexists. split; [reflexivity|]. split; [discriminate|].
      split; [intros Hc; discriminate|]. split.
      * intros _ _. split; reflexivity.
      * intros _ Hc. contradiction.
    + eexists. split; [reflexivity|].
      assert (Hin : forall x, In x (sorted_unique (map sales_product_name (s0 :: sales)))
                              <-> exists s, In s (s0 :: sales)
                                            /\ sales_product_name s = x).
      { intros x. rewrite sorted_unique_In, in_map_iff. split; intros [s Hs];
          exists s; tauto. }
      split.
      * intros Hnil.
        assert (Hs0 : In (sales_product_name s0)
                         (sorted_unique (map sales_product_name (s0 :: sales)))).
        { apply Hin. exists s0. split; [now left | reflexivity]. }
        rewrite Hnil in Hs0. contradiction.
      * split; [intros Hc; discriminate|]. split; [intros _ Hc; discriminate|].
        intros _ _. split; [apply sorted_unique_NoDup | exact Hin].
Qed.

(** X18.  The submit button.  Whatever the storage does, pressing it never
    raises, and it either leaves the database and the tab as they were, or
    commits the submission of what the tab cached, under the product and
    quantity shown at that moment and with the cached total, announces the
    new request number and clears the tab.  With nothing calculated (empty
    cache or buttons disabled) it only warns; when the confirmation is
    declined it does nothing; a failed submission is reported and keeps the
    tab for another try.  With a tab filled by the costing, a confirmed
    submission succeeds when the storage does not fail. *)
Theorem dashboard_submit_outcomes (user_id : Z) (username : string)
    (tab : costing_tab) (combo_text : string) (spin_value : Z)
    (reply_yes : bool) (now : string) (db : Db) :
  (forall p : fault_plan,
      exists mb tab' db',
        run (dashboard_submit_material_request user_id username tab combo_text
               spin_value reply_yes now) p db = (Ok (mb, tab'), db')
        /\ ((db' = db /\ tab' = tab)
            \/ (exists rid,
                  submission_committed user_id username combo_text spin_value
                    (current_total_cost tab) (current_line_items tab) now
                    db rid db'
                  /\ tab' = clear_cost_calculator
                  /\ mb = Some (MessageBox Information "Success"
                                  ("Material Request #" ++ str rid
                                     ++ " submitted successfully!"))))
        /\ (current_line_items tab = [] \/ action_buttons_enabled tab = false ->
            db' = db /\ tab' = tab
            /\ mb = Some (MessageBox Warning "Error"
                            "Please calculate a cost breakdown first."))
        /\ (reply_yes = false -> db' = db /\ tab' = tab)
        /\ (db' = db -> tab' = tab))
  /\ (current_line_items tab <> [] -> action_buttons_enabled tab = true ->
      reply_yes = true -> Forall has_keys (current_line_items tab) ->
      exists mb db',
        run (dashboard_submit_material_request user_id username tab combo_text
               spin_value reply_yes now) no_fault db
        = (Ok (mb, clear_cost_calculator), db')
        /\ submission_committed user_id username combo_text spin_value
             (current_total_cost tab) (current_line_items tab) now
             db (seq_material_requests db + 1) db').
Proof.
  split.
  - intros p. unfold dashboard_submit_material_request.
    destruct (current_line_items tab) as [|it its] eqn:Ecache.
    { do 3 eexists. split; [reflexivity|]. repeat split; auto. }
    destruct (action_buttons_enabled tab) eqn:Een; cbn [negb].
    2:{ do 3 eexists. split; [reflexivity|]. repeat split; auto. }
    destruct reply_yes; cbn [negb].
    2:{ do 3 eexists. split; [reflexivity|].
        split; [left; split; reflexivity|].
        split; [intros [Hc|Hc]; discriminate|]. repeat split. }
    pose proof (submit_all_or_nothing user_id username combo_text spin_value
                  (current_total_cost tab) (it :: its) now p db) as Hsub.
    unfold run in Hsub |- *. unfold try_except, bind, ret.
    destruct (submit_material_request user_id username combo_text spin_value
                (current_total_cost tab) (it :: its) now p
                {| disk := db; view := db; clock := 0 |}) as [[rid|ex] c'].
    + destruct Hsub as [[ex Hex]|[rid0 [db0 [[= -> ->] Hdone]]]]; [discriminate|].
      do 3 eexists. split; [reflexivity|].
      split; [right; exists rid0; split; [exact Hdone | split; reflexivity]|].
      split; [intros [Hc|Hc]; discriminate|].
      split; [intros Hc; discriminate|].
      intros Hsame. exfalso.
      destruct Hdone as [Hrid [Hreq _]]. rewrite Hsame in Hreq.
      apply (f_equal (@List.length _)) in Hreq. rewrite length_app in Hreq.
      cbn in Hreq. lia.
    + destruct Hsub as [[ex0 [= -> ->]]|[rid0 [db0 [Hc _]]]]; [|discriminate].
      do 3 eexists. split; [reflexivity|].
      split; [left; split; reflexivity|].
      split; [intros [Hc|Hc]; discriminate|]. repeat split.
  - intros Hcache Hen -> Hkeys.
    destruct (submit_no_fault user_id username combo_text spin_value
                (current_total_cost tab) (current_line_items tab) now db Hkeys)
      as [db' [Hrun Hdone]].
    unfold dashboard_submit_material_request. rewrite Hen. cbn [negb].
    destruct (current_line_items tab) as [|it its] eqn:Ecache; [contradiction|].
    unfold run in Hrun |- *. unfold try_except, bind, ret.
    destruct (submit_material_request user_id username combo_text spin_value
                (current_total_cost tab) (it :: its) now no_fault
                {| disk := db; view := db; clock := 0 |}) as [[rid|ex] c'];
      [|discriminate].
    injection Hrun as -> ->. do 2 eexists. split; [reflexivity | exact Hdone].
Qed.

(** ** Two views of the bill of materials *)

Lemma Permutation_filter {A} (f : A -> bool) (l l' : list A) :
  Permutation l l' -> Permutation (filter f l) (filter f l').
Proof.
  induction 1 as [|x l l' Hp IH|x y l|l l' l'' Hp1 IH1 Hp2 IH2]; cbn [filter].
  - apply Permutation_refl.
  - destruct (f x); [apply perm_skip|]; exact IH.
  - destruct (f x), (f y); try apply Permutation_refl. apply perm_swap.
  - eapply Permutation_trans; eassumption.
Qed.

Lemma consumption_entries_costed (product : string) (n : Z) (db : Db) :
  Permutation
    (consumption_entries [(product, n)] (select_full_bom db))
    (map (fun row => ((cr_material row ++ " (" ++ cr_unit row ++ ")")%string,
                      cr_total_required row))
         (map (costed n) (select_bom_for_product product db))).
Proof.
  unfold consumption_entries. cbn [flat_map fst snd]. rewrite app_nil_r.
  eapply Permutation_trans.
  { apply Permutation_map, Permutation_filter. unfold select_full_bom.
    apply sort_by_perm. }
  rewrite map_map. unfold select_bom_for_product.
  match goal with |- Permutation ?l ?r => assert (Heq : l = r) end;
    [|rewrite Heq; apply Permutation_refl].
  induction (bom db) as [|b rows IH]; [reflexivity|].
  cbn [flat_map]. rewrite filter_app, !map_app, IH. f_equal.
  destruct (String.eqb (product_id b) product) eqn:Eb.
  - rewrite filter_all.
    + rewrite !map_map. apply map_ext. intros m.
      unfold consumption_key, costed. cbn. now rewrite Z.mul_comm.
    + apply Forall_forall. intros item Hitem. apply in_map_iff in Hitem.
      destruct Hitem as [m [<- _]]. exact Eb.
  - rewrite filter_none; [reflexivity|].
    apply Forall_forall. intros item Hitem. apply in_map_iff in Hitem.
    destruct Hitem as [m [<- _]]. exact Eb.
Qed.

(** X19.  The report and the costing read the same bill of materials.
    What the consumption report books for [n] pairs sold of one product
    is, entry by entry and up to order, what the cost table shows as
    required to produce [n] pairs of it: the same labels "material (unit)"
    with the same totals. *)
Theorem report_and_costing_agree (product : string) (n : Z) (db : Db) :
  contains "(No products found)" product = false ->
  exists mb tab,
    run (calculate_material_cost product n) no_fault db = (Ok (mb, tab), db)
    /\ Permutation
         (consumption_entries [(product, n)] (select_full_bom db))
         (map (fun row => ((cr_material row ++ " (" ++ cr_unit row ++ ")")%string,
                           cr_total_required row))
              (cost_table tab)).
Proof.
  intros Hp.
  pose proof (consumption_entries_costed product n db) as Hperm.
  destruct (select_bom_for_product product db) as [|i items] eqn:Ebom.
  - do 2 eexists. split.
    + unfold calculate_material_cost, get_bom_for_product. rewrite Hp.
      unfold_M. cbn [no_fault disk view clock fst snd]. rewrite Ebom. reflexivity.
    + exact Hperm.
  - do 2 eexists. split.
    + apply calculate_material_cost_ok; [exact Hp|]. rewrite Ebom. discriminate.
    + rewrite Ebom. exact Hperm.
Qed.

(** ** What the report dialog lists *)

Lemma dict_add_keys (k : string) (v : Z) (d : list (string * Z)) (key : string) :
  In key (map fst (dict_add k v d)) <-> key = k \/ In key (map fst d).
Proof.
  induction d as [|[k' x] d IH]; cbn [dict_add map fst In].
  - intuition.
  - destruct (String.eqb k' k) eqn:Ek; cbn [map fst In].
    + apply String.eqb_eq in Ek. subst k'. intuition.
    + rewrite IH. intuition.
Qed.

Lemma dict_add_NoDup (k : string) (v : Z) (d : list (string * Z)) :
  NoDup (map fst d) -> NoDup (map fst (dict_add k v d)).
Proof.
  induction d as [|[k' x] d IH]; cbn [dict_add map fst]; intros Hd.
  - constructor; [intros []|constructor].
  - destruct (String.eqb k' k) eqn:Ek; cbn [map fst]; [exact Hd|].
    inversion Hd as [|? ? Hnotin Hd']; subst. constructor; [|now apply IH].
    rewrite dict_add_keys. intros [Hk|Hin]; [|contradiction].
    subst k'. rewrite String.eqb_refl in Ek. discriminate.
Qed.

Lemma dict_add_sum (k : string) (v : Z) (d : list (string * Z)) :
  sum_Z (map snd (dict_add k v d)) = sum_Z (map snd d) + v.
Proof.
  unfold sum_Z.
  induction d as [|[k' x] d IH]; cbn [dict_add map snd fold_right]; [lia|].
  destruct (String.eqb k' k); cbn [map snd fold_right]; [lia|].
  rewrite IH. lia.
Qed.

Lemma dict_fold_listing (entries : list (string * Z)) :
  forall d : list (string * Z),
    NoDup (map fst d) ->
    let c := fold_left (fun d e => dict_add (fst e) (snd e) d) entries d in
    NoDup (map fst c)
    /\ (forall key, In key (map fst c)
                    <-> In key (map fst entries) \/ In key (map fst d))
    /\ sum_Z (map snd c) = sum_Z (map snd d) + sum_Z (map snd entries).
Proof.
  induction entries as [|[k v] entries IH]; intros d Hd; cbn zeta.
  - cbn [fold_left]. split; [exact Hd|]. split.
    + intros key. cbn [map In]. intuition.
    + change (sum_Z (map snd (@nil (string * Z)))) with 0. lia.
  - cbn [fold_left fst snd map].
    destruct (IH (dict_add k v d) (dict_add_NoDup k v d Hd)) as [Hnd [Hin Hsum]].
    split; [exact Hnd|]. split.
    + intros key. rewrite Hin, dict_add_keys. cbn [In]. intuition.
    + rewrite Hsum, dict_add_sum. unfold sum_Z. cbn [fold_right]. lia.
Qed.

Lemma report_shown (y m y' m' : Z) (c : list (string * Z)) (p : fault_plan)
    (db db' : Db) :
  run (generate_consumption_report y m) p db
  = (Ok (ConsumptionReport y' m' c), db') ->
  y' = y /\ m' = m /\ db' = db /\ c <> []
  /\ c = calculate_consumption
           (groupby_product_sum
              (filter (fun s => (year s =? y) && (month s =? m))
                      (select_sales_history (Some false) db)))
           (select_full_bom db).
Proof.
  unfold generate_consumption_report, get_sales_history, get_full_bom.
  unfold_M. cbn [disk view clock fst snd].
  destruct (p 0%nat); [discriminate|].
  destruct (select_sales_history (Some false) db) as [|s0 sales]; [discriminate|].
  destruct (filter _ (s0 :: sales)) as [|s1 month_sales]; [discriminate|].
  cbn [disk view clock fst snd].
  destruct (p 1%nat); [discriminate|].
  destruct (select_full_bom db) as [|b0 bom_df]; [discriminate|].
  cbn [disk view clock fst snd].
  destruct (calculate_consumption _ _) as [|e0 c0]; [discriminate|].
  intros [= <- <- <- <-]. repeat split. discriminate.
Qed.

(** X20.  What the report dialog lists.  Whenever the consumption report
    opens its dialog, it is for the period asked for and the database is
    as before; the dialog is not empty, lists every label once, lists
    exactly the labels of the contributions of the period, and its
    quantities add up to the sum of all contributions: nothing is lost or
    counted twice by the grouping. *)
Theorem consumption_report_listing (y m y' m' : Z) (c : list (string * Z))
    (p : fault_plan) (db db' : Db) :
  run (generate_consumption_report y m) p db
  = (Ok (ConsumptionReport y' m' c), db') ->
  let entries :=
    consumption_entries
      (groupby_product_sum
         (filter (fun s => (year s =? y) && (month s =? m))
                 (select_sales_history (Some false) db)))
      (select_full_bom db) in
  y' = y /\ m' = m /\ db' = db /\ c <> []
  /\ NoDup (map fst c)
  /\ (forall key, In key (map fst c) <-> In key (map fst entries))
  /\ sum_Z (map snd c) = sum_Z (map snd entries).
Proof.
  intros Hrun entries.
  destruct (report_shown _ _ _ _ _ _ _ _ Hrun) as [-> [-> [-> [Hne Hc]]]].
  repeat (split; [reflexivity|]). split; [exact Hne|].
  rewrite calculate_consumption_entries in Hc. fold entries in Hc.
  destruct (dict_fold_listing entries [] (NoDup_nil _)) as [Hnd [Hin Hsum]].
  rewrite <- Hc in Hnd, Hin, Hsum.
  split; [exact Hnd|]. split.
  - intros key. rewrite Hin. cbn [map In]. intuition.
  - rewrite Hsum. unfold sum_Z. cbn [map fold_right]. lia.
Qed.

(** ** BOM maintenance *)

Lemma delete_bom_item_all_or_nothing (bom_item_id : Z) (p : fault_plan) (db : Db) :
  (exists e, run (delete_bom_item bom_item_id) p db = (Raise e, db))
  \/ run (delete_bom_item bom_item_id) p db
     = (Ok tt, without_bom_item bom_item_id db).
Proof.
  unfold delete_bom_item. unfold_M.
  cbn [disk view clock fst snd sql_delete_bom_item].
  destruct (p 0%nat); [left; eexists; reflexivity|].
  cbn [disk view clock fst snd].
  destruct (p 1%nat); [left; eexists; reflexivity|].
  right. reflexivity.
Qed.

Lemma full_bom_join_without (bom_item_id : Z) (ms : list material)
    (rows : list bom_row) :
  flat_map
    (fun b =>
       map (fun m => {| fb_bom_id := bom_id b;
                        fb_product_name := product_id b;
                        fb_material_name := name m;
                        fb_quantity_per_unit := quantity_per_unit b;
                        fb_unit_of_measure := unit_of_measure m |})
           (filter (fun m => material_id m =? bom_material_id b) ms))
    (filter (fun b => negb (bom_id b =? bom_item_id)) rows)
  = filter (fun f => negb (fb_bom_id f =? bom_item_id))
      (flat_map
         (fun b =>
            map (fun m => {| fb_bom_id := bom_id b;
                             fb_product_name := product_id b;
                             fb_material_name := name m;
                             fb_quantity_per_unit := quantity_per_unit b;
                             fb_unit_of_measure := unit_of_measure m |})
                (filter (fun m => material_id m =? bom_material_id b) ms))
         rows).
Proof.
  induction rows as [|b rows IH]; [reflexivity|].
  cbn [flat_map filter]. rewrite filter_app, <- IH.
  destruct (bom_id b =? bom_item_id) eqn:Eb; cbn [negb flat_map].
  - match goal with
    | |- _ = filter ?g (map ?mk ?l) ++ _ => rewrite (filter_none g (map mk l))
    end; [reflexivity|].
    apply Forall_forall. intros f Hf. apply in_map_iff in Hf.
    destruct Hf as [m [<- _]]. cbn. now rewrite Eb.
  - f_equal. symmetry. apply filter_all.
    apply Forall_forall. intros f Hf. apply in_map_iff in Hf.
    destruct Hf as [m [<- _]]. cbn. now rewrite Eb.
Qed.

(** X21.  Deleting a BOM entry.  [delete_bom_item] either raises and
    leaves the database as it was, or removes the entry with that number;
    without a storage failure it does the latter.  The full BOM afterwards
    is the full BOM before without the rows of that number; the costing of
    every product that has no entry with that number reads the same BOM as
    before; an unknown number changes nothing; and no other table is
    touched. *)
Theorem delete_bom_item_effect (bom_item_id : Z) (db : Db) :
  (forall p : fault_plan,
      (exists e, run (delete_bom_item bom_item_id) p db = (Raise e, db))
      \/ run (delete_bom_item bom_item_id) p db
         = (Ok tt, without_bom_item bom_item_id db))
  /\ run (delete_bom_item bom_item_id) no_fault db
     = (Ok tt, without_bom_item bom_item_id db)
  /\ Permutation
       (select_full_bom (without_bom_item bom_item_id db))
       (filter (fun f => negb (fb_bom_id f =? bom_item_id)) (select_full_bom db))
  /\ (forall product,
        (forall b, In b (bom db) -> bom_id b = bom_item_id ->
                   product_id b <> product) ->
        select_bom_for_product product (without_bom_item bom_item_id db)
        = select_bom_for_product product db)
  /\ ((forall b, In b (bom db) -> bom_id b <> bom_item_id) ->
      without_bom_item bom_item_id db = db)
  /\ materials (without_bom_item bom_item_id db) = materials db
  /\ sales_history (without_bom_item bom_item_id db) = sales_history db
  /\ material_requests (without_bom_item bom_item_id db) = material_requests db
  /\ request_line_items (without_bom_item bom_item_id db) = request_line_items db.
Proof.
  split; [intros p; apply delete_bom_item_all_or_nothing|].
  split.
  { destruct (delete_bom_item_all_or_nothing bom_item_id no_fault db)
      as [[e He]|Hok]; [|exact Hok].
    revert He. unfold delete_bom_item. unfold_M.
    cbn [no_fault disk view clock fst snd sql_delete_bom_item]. discriminate. }
  split.
  { unfold select_full_bom, without_bom_item. cbn [set_bom materials bom].
    eapply Permutation_trans; [apply sort_by_perm|].
    rewrite full_bom_join_without.
    apply Permutation_filter, Permutation_sym, sort_by_perm. }
  split.
  { intros product Hother.
    unfold select_bom_for_product, without_bom_item. cbn [set_bom materials bom].
    induction (bom db) as [|b rows IH]; [reflexivity|].
    cbn [filter flat_map].
    destruct (bom_id b =? bom_item_id) eqn:Eb; cbn [negb flat_map].
    - apply Z.eqb_eq in Eb.
      assert (Hb : String.eqb (product_id b) product = false).
      { apply String.eqb_neq. apply Hother; [now left | exact Eb]. }
      rewrite Hb. cbn [app].
      apply IH. intros b' Hin. apply Hother. now right.
    - f_equal. apply IH. intros b' Hin. apply Hother. now right. }
  split.
  { intros Hunknown. unfold without_bom_item.
    rewrite filter_all.
    - destruct db; reflexivity.
    - apply Forall_forall. intros b Hb. apply negb_true_iff, Z.eqb_neq.
      now apply Hunknown. }
  repeat split.
Qed.

(** ** The inventory view *)

Lemma material_name_le_total (a b : material) :
  material_name_le a b = true \/ material_name_le b a = true.
Proof.
  unfold material_name_le, String.leb.
  rewrite (String.compare_antisym (name a) (name b)).
  destruct (String.compare (name b) (name a)); cbn; auto.
Qed.

Lemma insert_sorted_Sorted (x : material) (l : list material) :
  Sorted (fun a b => material_name_le a b = true) l ->
  Sorted (fun a b => material_name_le a b = true) (insert_sorted material_name_le x l).
Proof.
  induction l as [|y l IH]; intros Hl; cbn [insert_sorted].
  - constructor; constructor.
  - destruct (material_name_le x y) eqn:Exy.
    + constructor; [exact Hl|]. constructor. exact Exy.
    + inversion Hl as [|? ? Hl' Hhd]; subst.
      constructor; [now apply IH|].
      assert (Hyx : material_name_le y x = true).
      { destruct (material_name_le_total x y) as [Hc|Hc]; [congruence | exact Hc]. }
      destruct l as [|z l]; cbn [insert_sorted]; [now constructor|].
      destruct (material_name_le x z); constructor; [exact Hyx|].
      now inversion Hhd.
Qed.

(** X22.  Refreshing the inventory.  [load_materials_data] never raises
    and never writes.  When the read succeeds, the inventory table shows
    every material exactly once, ordered by name, no message is shown and
    the costing tab is cleared, so that a submission is refused until a
    new cost has been calculated.  When the read fails, an error box is
    shown and both the table and the costing tab stay as they were. *)
Theorem load_materials_data_refresh (table : list material) (tab : costing_tab)
    (p : fault_plan) (db : Db) :
  exists mb table' tab',
    run (load_materials_data table tab) p db = (Ok (mb, table', tab'), db)
    /\ (p 0%nat = false ->
        mb = None
        /\ Permutation table' (materials db)
        /\ Sorted (fun a b => String.leb (name a) (name b) = true) table'
        /\ tab' = clear_cost_calculator
        /\ forall user_id username combo_text spin_value reply_yes now p',
             run (dashboard_submit_material_request user_id username tab'
                    combo_text spin_value reply_yes now) p' db
             = (Ok (Some (MessageBox Warning "Error"
                            "Please calculate a cost breakdown first."), tab'),
                db))
    /\ (p 0%nat = true ->
        (exists text, mb = Some (MessageBox Critical "Error" text))
        /\ table' = table /\ tab' = tab).
Proof.
  unfold load_materials_data, get_all_materials. unfold_M.
  cbn [disk view clock fst snd].
  destruct (p 0%nat).
  - do 3 eexists. split; [reflexivity|]. split; [discriminate|].
    intros _. split; [eexists; reflexivity|]. split; reflexivity.
  - do 3 eexists. split; [reflexivity|]. split; [|discriminate].
    intros _. split; [reflexivity|].
    split; [apply sort_by_perm|]. split.
    + unfold select_all_materials, sort_by.
      induction (materials db) as [|x l IH]; cbn [fold_right]; [constructor|].
      apply insert_sorted_Sorted. exact IH.
    + split; reflexivity.
Qed.

(** ** Entering a sale *)

(** X23.  The "Add Sales Entry" button.  Whatever the storage does,
    pressing it never raises: either nothing is stored and the spin box
    keeps its value, or exactly one current sales row for the product, the
    selected year and month and the quantity is appended, success is
    announced and the spin box is reset to 1.  With the placeholder
    "(No products)" in the combo it only warns.  When the product has BOM
    entries and the storage does not fail, the consumption report of the
    selected month opens afterwards and lists every material of the
    product's BOM. *)
Theorem add_sales_data_outcomes (product : string) (y m quantity : Z) (db : Db) :
  (forall p : fault_plan,
      exists mb spin' db',
        run (add_sales_data product y m quantity) p db = (Ok (mb, spin'), db')
        /\ ((db' = db /\ spin' = quantity
             /\ exists ic title text,
                  mb = MessageBox ic title text /\ ic <> Information)
            \/ (db' = insert_sales (product, y, m, quantity, 0) db
                /\ spin' = 1
                /\ mb = MessageBox Information "Success"
                          ("Added " ++ str quantity ++ " sales for " ++ product
                             ++ " on " ++ period y m ++ "."))))
  /\ (contains "(No products)" product = true ->
      forall p : fault_plan,
        run (add_sales_data product y m quantity) p db
        = (Ok (MessageBox Warning "Input Error"
                 "No products available. Please import sales data first.",
               quantity), db))
  /\ (contains "(No products)" product = false ->
      (exists item, In item (select_full_bom db) /\ fb_product_name item = product) ->
      exists mb db' c,
        run (add_sales_data product y m quantity) no_fault db = (Ok (mb, 1), db')
        /\ run (generate_consumption_report y m) no_fault db'
           = (Ok (ConsumptionReport y m c), db')
        /\ forall item, In item (select_full_bom db) ->
                        fb_product_name item = product ->
                        In (consumption_key item) (map fst c)).
Proof.
  split; [|split].
  - intros p. unfold add_sales_data.
    destruct (contains "(No products)" product).
    { do 3 eexists. split; [reflexivity|]. left. split; [reflexivity|].
      split; [reflexivity|]. do 3 eexists. split; [reflexivity | discriminate]. }
    pose proof (add_sales_entry_all_or_nothing product y m quantity p db) as Hadd.
    unfold run in Hadd |- *. unfold try_except, bind, ret.
    destruct (add_sales_entry product y m quantity p
                {| disk := db; view := db; clock := 0 |}) as [[[]|ex] c'].
    + destruct Hadd as [[e He]|[= ->]]; [discriminate|].
      do 3 eexists. split; [reflexivity|]. right. repeat split.
    + destruct Hadd as [[e [= -> ->]]|Hc]; [|discriminate].
      do 3 eexists. split; [reflexivity|]. left. split; [reflexivity|].
      split; [reflexivity|]. do 3 eexists. split; [reflexivity | discriminate].
  - intros Hp p. unfold add_sales_data. rewrite Hp. reflexivity.
  - intros Hp [item0 [Hitem0 Hname0]].
    set (db' := insert_sales (product, y, m, quantity, 0) db).
    set (row := {| sales_id := seq_sales_history db + 1;
                   sales_product_name := product; year := y; month := m;
                   quantity := quantity; is_historical_csv := 0 |}).
    assert (Hbom : select_full_bom db' = select_full_bom db) by reflexivity.
    assert (Hrow : In row (filter (fun s => (year s =? y) && (month s =? m))
                                  (select_sales_history (Some false) db'))).
    { apply filter_In. split.
      - unfold select_sales_history, db', insert_sales.
        cbn [set_sales_history sales_history fst snd]. rewrite filter_app.
        apply in_or_app. right. cbn. now left.
      - cbn. now rewrite !Z.eqb_refl. }
    assert (Hsold : exists sold,
               In (product, sold)
                  (groupby_product_sum
                     (filter (fun s => (year s =? y) && (month s =? m))
                             (select_sales_history (Some false) db')))).
    { eexists. apply groupby_product_sum_In. split; [|reflexivity].
      exists row. split; [exact Hrow | reflexivity]. }
    destruct Hsold as [sold Hsold].
    exists (MessageBox Information "Success"
              ("Added " ++ str quantity ++ " sales for " ++ product
                 ++ " on " ++ period y m ++ ".")),
           db',
           (calculate_consumption
              (groupby_product_sum
                 (filter (fun s => (year s =? y) && (month s =? m))
                         (select_sales_history (Some false) db')))
              (select_full_bom db)).
    split.
    { unfold add_sales_data. rewrite Hp.
      pose proof (add_sales_entry_all_or_nothing product y m quantity no_fault db)
        as Hadd.
      assert (Hok : run (add_sales_entry product y m quantity) no_fault db
                    = (Ok tt, db')) by reflexivity.
      unfold run in Hok |- *. unfold try_except, bind, ret.
      destruct (add_sales_entry product y m quantity no_fault
                  {| disk := db; view := db; clock := 0 |}) as [[[]|ex] c'];
        [|discriminate].
      injection Hok as ->. reflexivity. }
    rewrite report_no_fault, Hbom.
    destruct (select_sales_history (Some false) db') as [|s0 sales] eqn:Esales;
      [contradiction|].
    destruct (filter _ (s0 :: sales)) as [|s1 month_sales] eqn:Emonth;
      [contradiction|].
    destruct (select_full_bom db) as [|b0 bom_df] eqn:Ebom; [contradiction|].
    assert (Hentry : forall item, In item (b0 :: bom_df) ->
                                  fb_product_name item = product ->
                                  In (consumption_key item)
                                     (map fst (consumption_entries
                                                 (groupby_product_sum (s1 :: month_sales))
                                                 (b0 :: bom_df)))).
    { intros item Hitem Hname. apply in_map_iff.
      exists (consumption_key item, fb_quantity_per_unit item * sold).
      split; [reflexivity|].
      unfold consumption_entries. apply in_flat_map.
      exists (product, sold). split; [exact Hsold|].
      apply in_map_iff. exists item. split; [reflexivity|].
      apply filter_In. split; [exact Hitem|]. now apply String.eqb_eq. }
    destruct (dict_fold_listing
                (consumption_entries (groupby_product_sum (s1 :: month_sales))
                                     (b0 :: bom_df)) [] (NoDup_nil _))
      as [_ [Hin _]].
    rewrite <- calculate_consumption_entries in Hin.
    destruct (calculate_consumption (groupby_product_sum (s1 :: month_sales))
                                    (b0 :: bom_df)) as [|e0 c0] eqn:Ec.
    + exfalso. apply (Hin (consumption_key item0)).
      left. now apply Hentry.
    + split; [reflexivity|].
      intros item Hitem Hname. apply Hin. left. now apply Hentry.
Qed.

End Store.

(** * Worked examples

    The scenario of the specification, in whole currency units: product
    "Shoe-A" needs 2 units of "Leather" (10 in stock, price 5) per pair. *)

Definition leather : @material Z :=
  {| material_id := 1; name := "Leather"; stock := 10; price := 5;
     product_association := "Shoe-A"; unit_of_measure := "sqft" |}.

Definition rubber : @material Z :=
  {| material_id := 2; name := "Rubber"; stock := 4; price := 3;
     product_association := "Shoe-A"; unit_of_measure := "kg" |}.

Definition shoe_db : @Db Z :=
  {| materials := [leather; rubber];
     bom := [ {| bom_id := 1; product_id := "Shoe-A"; bom_material_id := 1;
                 quantity_per_unit := 2 |} ];
     sales_history :=
       [ {| sales_id := 1; sales_product_name := "Shoe-A"; year := 2024;
            month := 3; quantity := 7; is_historical_csv := 1 |};
         {| sales_id := 2; sales_product_name := "Shoe-A"; year := 2025;
            month := 3; quantity := 4; is_historical_csv := 0 |} ];
     material_requests := [];
     request_line_items := [];
     seq_sales_history := 2;
     seq_material_requests := 0;
     seq_request_line_items := 0 |}.

(** A request for Leather x5 and Rubber x3, already approved. *)
Definition approved_db : @Db Z :=
  {| materials := [leather; rubber];
     bom := bom shoe_db;
     sales_history := sales_history shoe_db;
     material_requests :=
       [ {| request_id := 1; employee_id := 2; employee_name := "employee";
            product_name := "Shoe-A"; production_quantity := 8; total_cost := 34;
            status := "Approved"; request_date := "2025-03-01T09:00:00" |} ];
     request_line_items :=
       [ {| item_id := 1; item_request_id := 1; material_name := "Leather";
            quantity_needed := 5; item_unit_of_measure := "sqft"; cost := 25 |};
         {| item_id := 2; item_request_id := 1; material_name := "Rubber";
            quantity_needed := 3; item_unit_of_measure := "kg"; cost := 9 |} ];
     seq_sales_history := 2;
     seq_material_requests := 1;
     seq_request_line_items := 2 |}.

(** The same request after "Rubber" has been renamed to "Natural rubber". *)
Definition renamed_db : @Db Z :=
  snd (run (update_material 2 "Natural rubber" 4 3 "Shoe-A" "kg") no_fault approved_db).



(** The third statement of the operation fails. *)
Definition fail_third : fault_plan := fun n => Nat.eqb n 2.

(** What the costing tab caches for 8 pairs of "Shoe-A" when Rubber is
    listed too and covered by the stock. *)
Definition costed_items : list (@line_item Z) :=
  [ {| li_material_name := Some "Leather"; li_quantity_needed := Some 6;
       li_unit_of_measure := Some "sqft"; li_cost := Some 30 |};
    {| li_material_name := Some "Rubber"; li_quantity_needed := Some 0;
       li_unit_of_measure := Some "kg"; li_cost := Some 0 |} ].

(** What it caches when the stock covers everything. *)
Definition covered_items : list (@line_item Z) :=
  [ {| li_material_name := Some "Leather"; li_quantity_needed := Some 0;
       li_unit_of_measure := Some "sqft"; li_cost := Some 0 |} ].

Definition rubber_item : @request_line_item Z :=
  {| item_id := 2; item_request_id := 1; material_name := "Rubber";
     quantity_needed := 3; item_unit_of_measure := "kg"; cost := 9 |}.

(** A sales CSV with two rows for one category. *)
Definition sales_csv : list csv_row :=
  [ {| Category := Some "Shoe-A"; monthly := [1; 2; 3; 4; 5; 6; 7; 8; 9; 10; 11; 12] |};
    {| Category := Some "Shoe-A"; monthly := [10; 0; 0; 0; 0; 0; 0; 0; 0; 0; 0; 0] |} ].



(** C2, witness: submitting the cached items persists the header and the
    one item to order; when the commit fails, nothing is left behind. *)
Lemma submit_request_atomic_witness :
  Forall has_keys costed_items
  /\ (exists rid db',
        run (submit_material_request 2 "employee" "Shoe-A" 8 30 costed_items
               "2025-03-01T09:00:00") no_fault shoe_db = (Ok rid, db')
        /\ submission_committed 2 "employee" "Shoe-A" 8 30 costed_items
             "2025-03-01T09:00:00" shoe_db rid db')
  /\ run (submit_material_request 2 "employee" "Shoe-A" 8 30 costed_items
            "2025-03-01T09:00:00") fail_third shoe_db
     = (Raise storage_fault, shoe_db).
Proof.
  assert (Hkeys : Forall has_keys costed_items)
    by (repeat constructor; discriminate).
  destruct (submit_request_atomic 2 "employee" "Shoe-A" 8 30 costed_items
              "2025-03-01T09:00:00" shoe_db) as [_ Hok].
  split; [exact Hkeys|]. split; [exact (Hok Hkeys) | reflexivity].
Defined.


(** C4, counterexample: a request that is already 'Completed' is set back
    to 'Approved', and to a status outside the state machine, without any
    rejection. *)
Lemma update_request_status_counterexample :
  map status (material_requests
                (snd (run (receive_material_request_stock 1) no_fault approved_db)))
  = ["Completed"]
  /\ (exists db',
        run (update_request_status 1 "Approved") no_fault
            (snd (run (receive_material_request_stock 1) no_fault approved_db))
        = (Ok tt, db')
        /\ map status (material_requests db') = ["Approved"])
  /\ (exists db',
        run (update_request_status 1 "Shipped") no_fault approved_db = (Ok tt, db')
        /\ map status (material_requests db') = ["Shipped"]).
Proof.
  split; [reflexivity|]. split; eexists; split; reflexivity.
Qed.

(** C5, witness: after "Rubber" has been renamed the receipt still
    commits; Leather goes from 10 to 15, the renamed material stays at 4,
    and the request is completed. *)
Lemma receive_skips_unmatched_material_witness :
  In rubber_item (select_request_line_items 1 renamed_db)
  /\ (forall m, In m (materials renamed_db) -> name m <> material_name rubber_item)
  /\ exists db',
       run (receive_material_request_stock 1) no_fault renamed_db = (Ok tt, db')
       /\ map stock (materials db') = [15; 4]
       /\ map status (material_requests db') = ["Completed"].
Proof.
  assert (Hin : In rubber_item (select_request_line_items 1 renamed_db))
    by (right; left; reflexivity).
  assert (Hname : forall m, In m (materials renamed_db) ->
                            name m <> material_name rubber_item).
  { intros m [<-|[<-|[]]]; discriminate. }
  split; [exact Hin|]. split; [exact Hname|].
  destruct (receive_skips_unmatched_material 1 renamed_db rubber_item Hin Hname)
    as [db' [Hrun [_ [Hm [Hr _]]]]].
  exists db'. split; [exact Hrun|]. rewrite Hm, Hr. split; reflexivity.
Defined.

(** C6, witness: Leather is used by the BOM of "Shoe-A" and cannot be
    deleted; Rubber is used by no BOM entry and is deleted, alone. *)
Lemma delete_material_guard_witness :
  run (delete_material 1) no_fault shoe_db
  = (Raise (IntegrityError "FOREIGN KEY constraint failed"), shoe_db)
  /\ exists db',
       run (delete_material 2) no_fault shoe_db = (Ok tt, db')
       /\ materials db' = [leather].
Proof.
  destruct (delete_material_guard 1 shoe_db) as [Hused _].
  destruct (delete_material_guard 2 shoe_db) as [_ Hfree].
  split.
  - apply Hused.
    + exists leather. split; [left|]; reflexivity.
    + eexists. split; [left|]; reflexivity.
  - destruct Hfree as [Hrun _].
    + intros b [<-|[]]. discriminate.
    + eexists. split; [exact Hrun | reflexivity].
Defined.



(** C8, witness: importing a CSV replaces the historical row of March 2024
    by the twelve imported months and keeps the current row of March 2025;
    when the third statement fails, the sales history is as before. *)
Lemma import_replaces_historical_only_witness :
  (exists db',
      run (import_sales_from_csv (Ok sales_csv)) no_fault shoe_db = (Ok tt, db')
      /\ map quantity (select_sales_history (Some true) db')
         = [11; 2; 3; 4; 5; 6; 7; 8; 9; 10; 11; 12]
      /\ select_sales_history (Some false) db'
         = select_sales_history (Some false) shoe_db)
  /\ run (import_sales_from_csv (Ok sales_csv)) fail_third shoe_db
     = (Raise storage_fault, shoe_db).
Proof.
  destruct (import_replaces_historical_only shoe_db) as [_ Hok].
  destruct (Hok sales_csv) as [Hrun [Hhist [Hcur _]]].
  split; [|reflexivity].
  eexists. split; [exact Hrun|]. split; [rewrite Hhist; reflexivity | exact Hcur].
Defined.


(** C10, witness: with the stock covering everything the submission
    stores request 1 without line items, and receiving it is refused, at
    once and after the request has been approved. *)
Lemma submit_without_shortfall_is_unreceivable_witness :
  Forall (fun it => exists qty, li_quantity_needed it = Some qty /\ qty <= 0)
         covered_items
  /\ line_items_numbered shoe_db
  /\ exists db',
       run (submit_material_request 2 "employee" "Shoe-A" 1 0 covered_items
              "2025-03-01T09:00:00") no_fault shoe_db = (Ok 1, db')
       /\ map status (material_requests db') = ["Pending"]
       /\ request_line_items db' = []
       /\ (exists ex,
             run (receive_material_request_stock 1) no_fault db' = (Raise ex, db'))
       /\ (exists ex,
             run (receive_material_request_stock 1) no_fault
                 (exec_ops [(UpdateRequestStatus 1 "Approved", no_fault)] db')
             = (Raise ex, exec_ops [(UpdateRequestStatus 1 "Approved", no_fault)] db')).
Proof.
  assert (Hzero : Forall (fun it : line_item =>
                            exists qty, li_quantity_needed it = Some qty /\ qty <= 0)
                         covered_items).
  { repeat constructor. exists 0. split; [reflexivity | lia]. }
  assert (Hnum : line_items_numbered shoe_db) by constructor.
  split; [exact Hzero|]. split; [exact Hnum|].
  destruct (submit_without_shortfall_is_unreceivable 2 "employee" "Shoe-A" 1 0
              covered_items "2025-03-01T09:00:00" shoe_db Hzero)
    as [db' [Hrun [Hreq [Hitems Hnever]]]].
  exists db'. split; [exact Hrun|]. split; [rewrite Hreq; reflexivity|].
  split; [exact Hitems|]. split.
  - exact (proj2 (Hnever Hnum [] no_fault)).
  - exact (proj2 (Hnever Hnum [(UpdateRequestStatus 1 "Approved", no_fault)]
                         no_fault)).
Defined.

(** * Worked examples for the further properties *)

(** A history that submits a request, renames and reprices a material,
    tries to delete a material the BOM uses, completes the request and
    books a sale, with a storage failure in the middle. *)
Definition busy_history : list (@op Z * fault_plan) :=
  [ (SubmitMaterialRequest 2 "employee" "Shoe-A" 8 30 costed_items
       "2025-03-01T09:00:00", no_fault);
    (UpdateMaterial 2 "Natural rubber" 4 3 "Shoe-A" "kg", no_fault);
    (DeleteMaterial 1, no_fault);
    (UpdateRequestStatus 1 "Approved", fail_third);
    (ReceiveMaterialRequestStock 1, no_fault);
    (AddSalesEntry "Shoe-A" 2025 4 3, no_fault);
    (ImportSalesFromCsv (Ok sales_csv), no_fault);
    (DeleteMaterialRequest 1, no_fault) ].

Ltac concrete_list :=
  repeat match goal with
         | |- NoDup [] => constructor
         | |- NoDup (_ :: _) => constructor
         | |- Forall _ [] => constructor
         | |- Forall _ (_ :: _) => constructor
         | |- ~ In _ _ => cbn; intuition (discriminate || lia)
         | |- _ <= _ => cbn; lia
         | |- _ < _ => cbn; lia
         | |- _ \/ _ => cbn; first [left; reflexivity | right; reflexivity]
         end.

Lemma shoe_db_keys_unique : keys_unique shoe_db.
Proof. unfold keys_unique. cbn. repeat split; concrete_list. Qed.

(** X2, witness: for 3 and for 8 pairs of "Shoe-A". *)
Lemma costing_shortfall_monotone_witness :
  3 <= 8
  /\ (forall b, In b (bom shoe_db) -> 0 <= quantity_per_unit b)
  /\ exists mb mb' tab tab',
       run (calculate_material_cost "Shoe-A" 3) no_fault shoe_db
       = (Ok (mb, tab), shoe_db)
       /\ run (calculate_material_cost "Shoe-A" 8) no_fault shoe_db
          = (Ok (mb', tab'), shoe_db)
       /\ Forall2 (fun row row' =>
                     cr_material row = cr_material row'
                     /\ cr_in_stock row = cr_in_stock row'
                     /\ cr_total_required row <= cr_total_required row'
                     /\ cr_need_to_order row <= cr_need_to_order row')
                  (cost_table tab) (cost_table tab').
Proof.
  assert (Hq : 3 <= 8) by lia.
  assert (Hb : forall b, In b (bom shoe_db) -> 0 <= quantity_per_unit b).
  { intros b [<-|[]]. cbn. lia. }
  split; [exact Hq|]. split; [exact Hb|].
  exact (costing_shortfall_monotone "Shoe-A" 3 8 shoe_db Hq Hb).
Defined.

(** X3, witness: the request submitted for 8 pairs of "Shoe-A" reads back
    its one line item, Leather x6. *)
Lemma submit_then_get_request_line_items_witness :
  line_items_numbered shoe_db
  /\ exists db',
       run (submit_material_request 2 "employee" "Shoe-A" 8 30 costed_items
              "2025-03-01T09:00:00") no_fault shoe_db = (Ok 1, db')
       /\ exists new_items,
            run (get_request_line_items 1) no_fault db' = (Ok new_items, db')
            /\ map material_name new_items = ["Leather"]
            /\ map quantity_needed new_items = [6].
Proof.
  assert (Hnum : line_items_numbered shoe_db) by constructor.
  split; [exact Hnum|].
  eexists. split; [reflexivity|].
  edestruct (submit_then_get_request_line_items 2 "employee" "Shoe-A" 8 30
               costed_items "2025-03-01T09:00:00" no_fault shoe_db)
    as [new_items [Hget _]]; [exact Hnum | reflexivity |].
  exists new_items. split; [exact Hget|].
  vm_compute in Hget. injection Hget as <-. split; reflexivity.
Defined.


(** X5, witness: the keys of the example database stay unique along a
    history of all eight operations. *)
Lemma keys_stay_unique_witness :
  keys_unique shoe_db /\ keys_unique (exec_ops busy_history shoe_db).
Proof.
  split; [exact shoe_db_keys_unique|].
  exact (keys_stay_unique busy_history shoe_db shoe_db_keys_unique).
Defined.

(** X6, witness: the approved request asks for 5 and 3 units. *)
Lemma stored_quantities_stay_positive_witness :
  quantities_positive approved_db
  /\ quantities_positive (exec_ops busy_history approved_db).
Proof.
  assert (Hpos : quantities_positive approved_db).
  { unfold quantities_positive. cbn. concrete_list. }
  split; [exact Hpos|].
  exact (stored_quantities_stay_positive busy_history approved_db Hpos).
Defined.

(** X7, witness: receiving the approved request raises the stocks from 10
    and 4 to 15 and 7. *)
Lemma receipt_never_lowers_stock_witness :
  quantities_positive approved_db
  /\ exists db',
       run (receive_material_request_stock 1) no_fault approved_db = (Ok tt, db')
       /\ map stock (materials db') = [15; 7]
       /\ Forall2 (fun m m' =>
                     material_id m' = material_id m /\ name m' = name m
                     /\ price m' = price m
                     /\ unit_of_measure m' = unit_of_measure m
                     /\ stock m <= stock m')
                  (materials approved_db) (materials db').
Proof.
  assert (Hpos : quantities_positive approved_db).
  { unfold quantities_positive. cbn. concrete_list. }
  split; [exact Hpos|].
  eexists. split; [reflexivity|]. split; [reflexivity|].
  exact (receipt_never_lowers_stock 1 no_fault approved_db _ Hpos eq_refl).
Defined.

(** X8, witness: the example sales are flagged 1 and 0. *)
Lemma sales_are_historical_or_current_witness :
  flags_binary shoe_db
  /\ flags_binary (exec_ops busy_history shoe_db)
  /\ Permutation
       (select_sales_history None (exec_ops busy_history shoe_db))
       (select_sales_history (Some true) (exec_ops busy_history shoe_db)
          ++ select_sales_history (Some false) (exec_ops busy_history shoe_db)).
Proof.
  assert (Hflags : flags_binary shoe_db).
  { unfold flags_binary. cbn. concrete_list. }
  split; [exact Hflags|].
  exact (sales_are_historical_or_current busy_history shoe_db Hflags).
Defined.

(** X13, witness: approving and then rejecting request 1 is rejecting
    it; approving the absent request 7 changes nothing. *)
Lemma update_request_status_edges_witness :
  (forall r, In r (material_requests approved_db) -> request_id r <> 7)
  /\ run (update_request_status 7 "Approved") no_fault approved_db
     = (Ok tt, approved_db)
  /\ (forall r, In r (material_requests approved_db) -> request_id r = 1 ->
                status r = "Approved")
  /\ run (update_request_status 1 "Approved") no_fault approved_db
     = (Ok tt, approved_db).
Proof.
  assert (Habsent : forall r, In r (material_requests approved_db) ->
                              request_id r <> 7).
  { intros r [<-|[]]. discriminate. }
  assert (Hsame : forall r, In r (material_requests approved_db) ->
                            request_id r = 1 -> status r = "Approved").
  { intros r [<-|[]] _. reflexivity. }
  split; [exact Habsent|].
  split; [exact (proj1 (update_request_status_edges 7 "Approved" "Rejected"
                          approved_db) Habsent)|].
  split; [exact Hsame|].
  exact (proj2 (proj2 (update_request_status_edges 1 "Approved" "Rejected"
                         approved_db)) Hsame).
Defined.

(** X14, witness: renaming Rubber to "Leather" is refused; renaming an
    absent material changes nothing. *)
Lemma update_material_edges_witness :
  (exists m, In m (materials shoe_db) /\ material_id m = 2)
  /\ (exists m', In m' (materials shoe_db) /\ material_id m' <> 2
                 /\ name m' = "Leather")
  /\ run (update_material 2 "Leather" 4 3 "Shoe-A" "kg") no_fault shoe_db
     = (Raise (IntegrityError "UNIQUE constraint failed: materials.name"), shoe_db)
  /\ (forall m, In m (materials shoe_db) -> material_id m <> 9)
  /\ run (update_material 9 "Cork" 1 1 "Shoe-A" "kg") no_fault shoe_db
     = (Ok tt, shoe_db).
Proof.
  assert (Hm : exists m, In m (materials shoe_db) /\ material_id m = 2).
  { exists rubber. split; [right; left; reflexivity | reflexivity]. }
  assert (Hclash : exists m', In m' (materials shoe_db) /\ material_id m' <> 2
                              /\ name m' = "Leather").
  { exists leather. split; [left; reflexivity|]. split; [discriminate | reflexivity]. }
  assert (Habsent : forall m, In m (materials shoe_db) -> material_id m <> 9).
  { intros m [<-|[<-|[]]]; discriminate. }
  split; [exact Hm|]. split; [exact Hclash|].
  split; [exact (proj1 (update_material_edges 2 "Leather" 4 3 "Shoe-A" "kg" shoe_db)
                   Hm Hclash)|].
  split; [exact Habsent|].
  exact (proj2 (proj2 (update_material_edges 9 "Cork" 1 1 "Shoe-A" "kg" shoe_db))
           Habsent).
Defined.


(** X16, witness: request 1 is submitted and deleted; the next request is
    number 2. *)
Lemma request_ids_never_reused_witness :
  exists db1 db2,
    run (submit_material_request 2 "employee" "Shoe-A" 8 30 costed_items
           "2025-03-01T09:00:00") no_fault shoe_db = (Ok 1, db1)
    /\ run (submit_material_request 2 "employee" "Shoe-A" 8 30 costed_items
              "2025-03-02T09:00:00") no_fault
           (exec_ops [(DeleteMaterialRequest 1, no_fault)] db1) = (Ok 2, db2)
    /\ material_requests (exec_ops [(DeleteMaterialRequest 1, no_fault)] db1) = []
    /\ 1 < 2.
Proof.
  do 2 eexists. split; [reflexivity|]. split; [reflexivity|].
  split; [reflexivity|].
  exact (request_ids_never_reused
           2 "employee" "Shoe-A" 8 30 costed_items "2025-03-01T09:00:00"
           2 "employee" "Shoe-A" 8 30 costed_items "2025-03-02T09:00:00"
           no_fault no_fault [(DeleteMaterialRequest 1, no_fault)]
           shoe_db _ _ 1 2 eq_refl eq_refl).
Defined.

(** X20, witness: the report for March 2025 lists Leather once, with the
    8 units that the 4 pairs sold consumed. *)
Lemma consumption_report_listing_witness :
  run (generate_consumption_report 2025 3) no_fault shoe_db
  = (Ok (ConsumptionReport 2025 3 [("Leather (sqft)", 8)]), shoe_db)
  /\ NoDup (map fst [("Leather (sqft)", 8)])
  /\ sum_Z (map snd [("Leather (sqft)", 8)])
     = sum_Z (map snd
                (consumption_entries
                   (groupby_product_sum
                      (filter (fun s => (year s =? 2025) && (month s =? 3))
                              (select_sales_history (Some false) shoe_db)))
                   (select_full_bom shoe_db))).
Proof.
  assert (Hrun : run (generate_consumption_report 2025 3) no_fault shoe_db
                 = (Ok (ConsumptionReport 2025 3 [("Leather (sqft)", 8)]), shoe_db))
    by reflexivity.
  split; [exact Hrun|].
  destruct (consumption_report_listing 2025 3 2025 3 [("Leather (sqft)", 8)]
              no_fault shoe_db shoe_db Hrun)
    as [_ [_ [_ [_ [Hnd [_ Hsum]]]]]].
  split; [exact Hnd | exact Hsum].
Defined.


(** X19, witness: for 8 pairs of "Shoe-A" both views show 16 units of
    "Leather (sqft)". *)
Lemma report_and_costing_agree_witness :
  contains "(No products found)" "Shoe-A" = false
  /\ consumption_entries [("Shoe-A", 8)] (select_full_bom shoe_db)
     = [("Leather (sqft)", 16)]
  /\ exists mb tab,
       run (calculate_material_cost "Shoe-A" 8) no_fault shoe_db
       = (Ok (mb, tab), shoe_db)
       /\ Permutation
            (consumption_entries [("Shoe-A", 8)] (select_full_bom shoe_db))
            (map (fun row => ((cr_material row ++ " (" ++ cr_unit row ++ ")")%string,
                              cr_total_required row))
                 (cost_table tab)).
Proof.
  split; [reflexivity|]. split; [reflexivity|].
  exact (report_and_costing_agree "Shoe-A" 8 shoe_db eq_refl).
Defined.
